(** * The training loop of [models_v2/model_training_script.py]

    A shallow embedding of [train_model]: the loop over epochs, the two
    phases of an epoch, the loop over batches, the bookkeeping of the best
    validation checkpoint and of the patience counter, and the final
    restoration of the best weights.

    The torch objects the loop drives (model, optimizer, loss, tensors) and
    the sklearn metric functions are collaborators: they are the fields of
    two interfaces, [Torch] and [Sklearn], and every theorem holds for any
    implementation of them.  A call to a collaborator returns: the
    exceptions modelled are those of the Python of [train_model] itself, a
    missing key, an unpacking of the wrong length, a division by zero and
    a divisor too large for a float, as values of [PyError] threaded
    through the monad [Py].

    Python floats are IEEE binary64 numbers, that is Rocq's primitive
    [float]; Python integers are [Z]; the two dicts [dataloaders] and
    [dataset_sizes] are finite maps keyed by strings, and a loader is the
    list of the batches it yields, a batch the list of its tensors.  The
    model, its gradients, the optimizer and the files are fields of the
    state the loop threads, next to its own locals.  Every call the loop
    makes to a collaborator is recorded, in order, in the [trace] of the
    state, and so is what it prints; wall-clock times are not modelled. *)

From Stdlib Require Import ZArith String List Bool Lia Floats QArith Qabs.
From stdpp Require Import base option list gmap strings.
Import ListNotations.

Local Open Scope string_scope.
Local Open Scope list_scope.
Local Open Scope Z_scope.

(** ** Python exceptions *)

Inductive PyError : Type :=
| KeyError (key : string)      (* d[key] on a dict without that key *)
| ValueError                   (* unpacking a sequence of the wrong length *)
| ZeroDivisionError            (* x / 0 *)
| OverflowError.               (* int too large to convert to float *)

Inductive Py (A : Type) : Type :=
| Return (a : A)
| Raise (e : PyError).
Arguments Return {A} a.
Arguments Raise {A} e.

#[export] Instance Py_ret : MRet Py := fun A a => Return a.
#[export] Instance Py_bind : MBind Py := fun A B k m =>
  match m with
  | Return a => k a
  | Raise e => Raise e
  end.

(** The value a computation returns, [d] when it raises. *)
Definition returned {A : Type} (d : A) (r : Py A) : A :=
  match r with
  | Return x => x
  | Raise _ => d
  end.

(** Whether a computation returns, and the exception it raises. *)
Definition returns {A : Type} (r : Py A) : bool :=
  match r with
  | Return _ => true
  | Raise _ => false
  end.

Definition raised {A : Type} (r : Py A) : option PyError :=
  match r with
  | Return _ => None
  | Raise e => Some e
  end.

(** [d[key]] *)
Definition getitem {V : Type} (d : gmap string V) (key : string) : Py V :=
  match d !! key with
  | Some v => Return v
  | None => Raise (KeyError key)
  end.

(** ** Python numbers *)

(** The float nearest to an integer (ties to even); beyond the floats the
    rounding gives an infinity. *)
Definition float_of_int (n : Z) : float :=
  SF2Prim (binary_normalize prec emax n 0 false).

(** The conversion of an integer operand of a float operation: Python
    refuses the integers whose nearest float is beyond the floats, from
    [2**1024 - 2**970] on in absolute value. *)
Definition to_float (n : Z) : Py float :=
  if is_infinity (float_of_int n) then Raise OverflowError
  else Return (float_of_int n).

(** [x / n] for a float [x] and an integer [n]: the integer is converted
    first, and a zero divisor is refused next. *)
Definition truediv (x : float) (n : Z) : Py float :=
  y ← to_float n;
  if n =? 0 then Raise ZeroDivisionError
  else Return (x / y)%float.

(** ** The collaborators *)

(** What the loop uses of torch.  [model_call training grad w image features]
    is [model(image)] or [model(image, features)] for a model whose
    [state_dict()] is [w], in train or eval mode, inside
    [torch.set_grad_enabled(grad)]; it returns the outputs and the state the
    call leaves behind (a layer such as batch normalisation updates its
    buffers in train mode). *)
Class Torch : Type := {
  Tensor : Type;
  StateDict : Type;
  Grads : Type;
  OptState : Type;
  Loss : Type;
  model_call : bool -> bool -> StateDict -> Tensor -> option Tensor -> Tensor * StateDict;
  argmax : Tensor -> Z -> Tensor;
  item : Loss -> float;
  loss_backward : Loss -> Grads -> Grads;
  optimizer_zero_grad : Grads -> Grads;
  optimizer_step : OptState -> Grads -> StateDict -> OptState * StateDict;
  tensor_to : Tensor -> string -> Tensor;
  tensor_len : Tensor -> Z;
  numpy : Tensor -> list Z;
  CrossEntropyLoss : bool -> Tensor -> Tensor -> Loss;
}.

(** What the loop uses of sklearn.metrics; the last two arguments of the
    three scores are the keywords [zero_division] and [average]. *)
Class Sklearn : Type := {
  accuracy_score : list Z -> list Z -> float;
  precision_score : list Z -> list Z -> Z -> string -> float;
  recall_score : list Z -> list Z -> Z -> string -> float;
  f1_score : list Z -> list Z -> Z -> string -> float;
}.

(** ** Data of the loop *)

Record BestMetrics : Type := {
  epoch : Z;
  val_loss : float;
  val_accuracy : float;
  val_precision : float;
  val_recall : float;
  val_f1 : float;
}.

(** The five numbers computed at the end of a phase (lines 74-78). *)
Record EpochMetrics : Type := {
  epoch_loss : float;
  epoch_accuracy : float;
  epoch_precision : float;
  epoch_recall : float;
  epoch_f1 : float;
}.

(** The accumulators of one phase (lines 46-48). *)
Record Acc : Type := {
  running_loss : float;
  all_preds : list Z;
  all_labels : list Z;
}.

(** What [print] writes. *)
Inductive Line : Type :=
| PhaseLine (epoch last_epoch : Z) (phase : string) (loss recall : float) (patience_left : Z)
| OutOfPatience
| TrainingComplete
| BestMetricsAt (best : BestMetrics).

Section Loop.
Context {T : Torch} {K : Sklearn}.

(** A state dict as a Python object: [model.state_dict()] is a view of the
    live tensors of the model, and follows them when the optimizer
    updates them; [copy.deepcopy] of it is a value of its own. *)
Inductive Wts : Type :=
| Live
| Copy (w : StateDict).

(** The calls to the collaborators, and the accumulation of line 70. *)
Inductive Event : Type :=
| ModelTrain
| ModelEval
| TensorTo (labels : Tensor) (device : string)
| ZeroGrad
| ModelCall (grad_enabled : bool) (image : Tensor) (features : option Tensor)
| Criterion (outputs labels : Tensor)
| Backward
| OptimizerStep
| Accumulate (loss_item : float) (len_image : Z)
| TorchSave (w : StateDict) (filename : string)
| SchedulerStep
| LoadStateDict (w : StateDict)
| Print (line : Line).

Record State : Type := {
  (* the model *)
  state_dict : StateDict;
  training : bool;
  (* the gradients of its parameters, and the optimizer *)
  grad : Grads;
  optimizer : OptState;
  (* the locals of train_model *)
  best_metrics : BestMetrics;
  best_model_wts : Wts;
  patience_left : Z;
  (* the file system, and what has been called so far *)
  files : gmap string StateDict;
  trace : list Event;
}.

Definition set_state_dict (w : StateDict) (st : State) : State :=
  {| state_dict := w; training := training st; grad := grad st;
     optimizer := optimizer st; best_metrics := best_metrics st;
     best_model_wts := best_model_wts st; patience_left := patience_left st;
     files := files st; trace := trace st |}.

Definition set_training (b : bool) (st : State) : State :=
  {| state_dict := state_dict st; training := b; grad := grad st;
     optimizer := optimizer st; best_metrics := best_metrics st;
     best_model_wts := best_model_wts st; patience_left := patience_left st;
     files := files st; trace := trace st |}.

Definition set_grad (g : Grads) (st : State) : State :=
  {| state_dict := state_dict st; training := training st; grad := g;
     optimizer := optimizer st; best_metrics := best_metrics st;
     best_model_wts := best_model_wts st; patience_left := patience_left st;
     files := files st; trace := trace st |}.

Definition set_optimizer (o : OptState) (st : State) : State :=
  {| state_dict := state_dict st; training := training st; grad := grad st;
     optimizer := o; best_metrics := best_metrics st;
     best_model_wts := best_model_wts st; patience_left := patience_left st;
     files := files st; trace := trace st |}.

Definition set_best_metrics (b : BestMetrics) (st : State) : State :=
  {| state_dict := state_dict st; training := training st; grad := grad st;
     optimizer := optimizer st; best_metrics := b;
     best_model_wts := best_model_wts st; patience_left := patience_left st;
     files := files st; trace := trace st |}.

Definition set_best_model_wts (r : Wts) (st : State) : State :=
  {| state_dict := state_dict st; training := training st; grad := grad st;
     optimizer := optimizer st; best_metrics := best_metrics st;
     best_model_wts := r; patience_left := patience_left st;
     files := files st; trace := trace st |}.

Definition set_patience_left (p : Z) (st : State) : State :=
  {| state_dict := state_dict st; training := training st; grad := grad st;
     optimizer := optimizer st; best_metrics := best_metrics st;
     best_model_wts := best_model_wts st; patience_left := p;
     files := files st; trace := trace st |}.

Definition set_files (fs : gmap string StateDict) (st : State) : State :=
  {| state_dict := state_dict st; training := training st; grad := grad st;
     optimizer := optimizer st; best_metrics := best_metrics st;
     best_model_wts := best_model_wts st; patience_left := patience_left st;
     files := fs; trace := trace st |}.

Definition emit (e : Event) (st : State) : State :=
  {| state_dict := state_dict st; training := training st; grad := grad st;
     optimizer := optimizer st; best_metrics := best_metrics st;
     best_model_wts := best_model_wts st; patience_left := patience_left st;
     files := files st; trace := trace st ++ [e] |}.

(** *** The methods called on the model, the optimizer and torch *)

(** The tensors a state dict object stands for. *)
Definition deref (r : Wts) (st : State) : StateDict :=
  match r with
  | Live => state_dict st
  | Copy w => w
  end.

(** [copy.deepcopy(r)] *)
Definition deepcopy (r : Wts) (st : State) : Wts := Copy (deref r st).

(** [model.train()], [model.eval()] *)
Definition model_train (st : State) : State := emit ModelTrain (set_training true st).
Definition model_eval (st : State) : State := emit ModelEval (set_training false st).

(** [optimizer.zero_grad()] *)
Definition zero_grad (st : State) : State :=
  emit ZeroGrad (set_grad (optimizer_zero_grad (grad st)) st).

(** [model(image, features) if use_features else model(image)], inside
    [torch.set_grad_enabled(grad_enabled)]. *)
Definition call_model (grad_enabled : bool) (image : Tensor) (features : option Tensor)
    (st : State) : Tensor * State :=
  let r := model_call (training st) grad_enabled (state_dict st) image features in
  (r.1, emit (ModelCall grad_enabled image features) (set_state_dict r.2 st)).

(** [loss.backward()] *)
Definition backward (loss : Loss) (st : State) : State :=
  emit Backward (set_grad (loss_backward loss (grad st)) st).

(** [optimizer.step()] *)
Definition step (st : State) : State :=
  let r := optimizer_step (optimizer st) (grad st) (state_dict st) in
  emit OptimizerStep (set_state_dict r.2 (set_optimizer r.1 st)).

(** [torch.save(r, filename)] *)
Definition torch_save (r : Wts) (filename : string) (st : State) : State :=
  emit (TorchSave (deref r st) filename)
       (set_files (<[filename := deref r st]> (files st)) st).

(** [model.load_state_dict(r)] *)
Definition load_state_dict (r : Wts) (st : State) : State :=
  emit (LoadStateDict (deref r st)) (set_state_dict (deref r st) st).

(** *** The arguments of train_model *)

Record Args : Type := {
  dataloaders : gmap string (list (list Tensor));
  dataset_sizes : gmap string Z;
  criterion : option (bool -> Tensor -> Tensor -> Loss);
  scheduler : option (OptState -> OptState);
  num_epochs : Z;
  patience : Z;
  output_filename : string;
  use_gpu : bool;
  device : string;
  use_features : bool;
}.

Variable a : Args.

(** Lines 32-33. *)
Definition the_criterion : bool -> Tensor -> Tensor -> Loss :=
  match criterion a with
  | Some c => c
  | None => CrossEntropyLoss
  end.

(** Lines 51-54: [image, labels, features = data] or [image, labels = data]. *)
Definition unpack (data : list Tensor) : Py (Tensor * Tensor * option Tensor) :=
  if use_features a then
    match data with
    | [image; labels; features] => Return (image, labels, Some features)
    | _ => Raise ValueError
    end
  else
    match data with
    | [image; labels] => Return (image, labels, None)
    | _ => Raise ValueError
    end.

(** Lines 51-72, the body of the loop over batches.  [grad_enabled] is the
    argument of [torch.set_grad_enabled]; the loop passes
    [phase == "train"]. *)
Definition batch_body (grad_enabled : bool) (phase : string) (data : list Tensor)
    (s : State * Acc) : Py (State * Acc) :=
  '(image, labels, features) ← unpack data;
  let st := s.1 in
  let '(labels, st) :=
    if use_gpu a
    then (tensor_to labels (device a), emit (TensorTo labels (device a)) st)
    else (labels, st) in
  let st := zero_grad st in
  let '(outputs, st) := call_model grad_enabled image features st in
  let preds := argmax outputs 1 in
  let loss := the_criterion grad_enabled outputs labels in
  let st := emit (Criterion outputs labels) st in
  let st := if (phase =? "train")%string then step (backward loss st) else st in
  let st := emit (Accumulate (item loss) (tensor_len image)) st in
  Return (st,
          {| running_loss := (running_loss s.2 + item loss * float_of_int (tensor_len image))%float;
             all_preds := all_preds s.2 ++ numpy preds;
             all_labels := all_labels s.2 ++ numpy labels |}).

(** Line 50: [for data in dataloaders[phase]]. *)
Fixpoint batch_loop (grad_enabled : bool) (phase : string) (batches : list (list Tensor))
    (s : State * Acc) : Py (State * Acc) :=
  match batches with
  | [] => Return s
  | data :: rest =>
      s' ← batch_body grad_enabled phase data s;
      batch_loop grad_enabled phase rest s'
  end.

(** Lines 41-78: a phase up to its metrics. *)
Definition phase_metrics (phase : string) (st : State) : Py (State * EpochMetrics) :=
  let st := if (phase =? "train")%string then model_train st else model_eval st in
  let acc := {| running_loss := 0%float; all_preds := []; all_labels := [] |} in
  batches ← getitem (dataloaders a) phase;
  '(st, acc) ← batch_loop (phase =? "train")%string phase batches (st, acc);
  size ← getitem (dataset_sizes a) phase;
  loss ← truediv (running_loss acc) size;
  Return (st,
          {| epoch_loss := loss;
             epoch_accuracy := accuracy_score (all_labels acc) (all_preds acc);
             epoch_precision := precision_score (all_labels acc) (all_preds acc) 0 "macro";
             epoch_recall := recall_score (all_labels acc) (all_preds acc) 0 "macro";
             epoch_f1 := f1_score (all_labels acc) (all_preds acc) 0 "macro" |}).

(** The condition of line 83 after [phase == "val"]. *)
Definition improved (m : EpochMetrics) (st : State) : bool :=
  (epoch_loss m <? val_loss (best_metrics st))%float
  || (val_recall (best_metrics st) <? epoch_recall m)%float.

(** Lines 83-97. *)
Definition update_best (ep : Z) (phase : string) (m : EpochMetrics) (st : State) : State :=
  if (phase =? "val")%string && improved m st then
    let st := set_best_metrics
                {| epoch := ep + 1;
                   val_loss := epoch_loss m;
                   val_accuracy := epoch_accuracy m;
                   val_precision := epoch_precision m;
                   val_recall := epoch_recall m;
                   val_f1 := epoch_f1 m |} st in
    let st := set_best_model_wts (deepcopy Live st) st in
    let st := torch_save Live (output_filename a) st in
    set_patience_left (patience a) st
  else if (phase =? "val")%string then
    set_patience_left (patience_left st - 1) st
  else st.

(** Lines 40-99: one phase of one epoch. *)
Definition run_phase (ep : Z) (phase : string) (st : State) : Py State :=
  '(st, m) ← phase_metrics phase st;
  let st := update_best ep phase m st in
  Return (emit (Print (PhaseLine ep (num_epochs a - 1) phase
                         (epoch_loss m) (epoch_recall m) (patience_left st))) st).

(** Line 39: [for phase in ["train", "val"]]. *)
Fixpoint phase_loop (ep : Z) (phases : list string) (st : State) : Py State :=
  match phases with
  | [] => Return st
  | phase :: rest =>
      st' ← run_phase ep phase st;
      phase_loop ep rest st'
  end.

(** Lines 105-106. *)
Definition scheduler_step (st : State) : State :=
  match scheduler a with
  | Some s => emit SchedulerStep (set_optimizer (s (optimizer st)) st)
  | None => st
  end.

(** Lines 38-106: [for epoch in range(num_epochs)], [n] epochs being left
    and [ep] the next one. *)
Fixpoint epoch_loop (n : nat) (ep : Z) (st : State) : Py State :=
  match n with
  | O => Return st
  | S n' =>
      st' ← phase_loop ep ["train"; "val"] st;
      if patience_left st' <=? 0 then Return (emit (Print OutOfPatience) st')
      else epoch_loop n' (ep + 1) (scheduler_step st')
  end.

(** Lines 20-36: the state on entry, given the model, the gradients, the
    optimizer and the files as the caller has them. *)
Definition enter (w : StateDict) (mode : bool) (g : Grads) (o : OptState)
    (fs : gmap string StateDict) : State :=
  let st :=
    {| state_dict := w; training := mode; grad := g; optimizer := o;
       best_metrics := {| epoch := 0; val_loss := infinity; val_accuracy := 0%float;
                          val_precision := 0%float; val_recall := 0%float;
                          val_f1 := 0%float |};
       best_model_wts := Live;
       patience_left := patience a;
       files := fs; trace := [] |} in
  set_best_model_wts (deepcopy Live st) st.

(** Lines 108-117. *)
Definition leave (st : State) : State :=
  let st := emit (Print TrainingComplete) st in
  let st := emit (Print (BestMetricsAt (best_metrics st))) st in
  load_state_dict (best_model_wts st) st.

(** [train_model], called on a model whose state dict is [w] and whose mode
    is [mode], with the gradients [g], the optimizer [o] and the files [fs];
    the model it returns is the one of the final state. *)
Definition train_model (w : StateDict) (mode : bool) (g : Grads) (o : OptState)
    (fs : gmap string StateDict) : Py State :=
  st ← epoch_loop (Z.to_nat (num_epochs a)) 0 (enter w mode g o fs);
  Return (leave st).

End Loop.

(** ** Reading a trace *)

Section Traces.
Context {T : Torch}.

(** The state dicts written by [torch.save], oldest first. *)
Definition saves (tr : list Event) : list StateDict :=
  omap (fun e => match e with TorchSave w _ => Some w | _ => None end) tr.

(** The tensors moved by [.to(device)]. *)
Definition moved (tr : list Event) : list Tensor :=
  omap (fun e => match e with TensorTo t _ => Some t | _ => None end) tr.

(** The arguments of the calls of the model, and the grad mode of each. *)
Definition model_calls (tr : list Event) : list (bool * Tensor * option Tensor) :=
  omap (fun e => match e with ModelCall g x f => Some (g, x, f) | _ => None end) tr.

(** The outputs and labels the criterion was called on. *)
Definition criterion_calls (tr : list Event) : list (Tensor * Tensor) :=
  omap (fun e => match e with Criterion o l => Some (o, l) | _ => None end) tr.

(** The calls of [loss.backward()] and [optimizer.step()]. *)
Definition updates (tr : list Event) : list Event :=
  omap (fun e => match e with
                 | Backward => Some Backward
                 | OptimizerStep => Some OptimizerStep
                 | _ => None
                 end) tr.

(** The pairs [(loss.item(), len(image))] of line 70. *)
Definition terms (tr : list Event) : list (float * Z) :=
  omap (fun e => match e with Accumulate v n => Some (v, n) | _ => None end) tr.

(** The lines printed. *)
Definition printed (tr : list Event) : list Line :=
  omap (fun e => match e with Print l => Some l | _ => None end) tr.

(** The patience left as printed at the end of each "val" phase. *)
Definition val_patience (tr : list Event) : list Z :=
  omap (fun e => match e with
                 | Print (PhaseLine _ _ phase _ _ p) =>
                     if (phase =? "val")%string then Some p else None
                 | _ => None
                 end) tr.

(** The "Ran out of patience" notices. *)
Definition notices (tr : list Event) : list Line :=
  omap (fun e => match e with Print OutOfPatience => Some OutOfPatience | _ => None end) tr.

(** The running loss of line 70 over the terms of a phase. *)
Definition weighted_sum (ts : list (float * Z)) : float :=
  fold_left (fun acc t => (acc + t.1 * float_of_int t.2)%float) ts 0%float.

(** The predictions and labels a phase collects (lines 71-72), read from
    the calls of the criterion. *)
Definition collected_preds (tr : list Event) : list Z :=
  concat (map (fun c => numpy (argmax c.1 1)) (criterion_calls tr)).

Definition collected_labels (tr : list Event) : list Z :=
  concat (map (fun c => numpy c.2) (criterion_calls tr)).

End Traces.

(** ** Reading a run

    What the statements below say of a run, in terms of the arguments. *)

Section Specs.
Context {T : Torch} {K : Sklearn}.
Variable a : Args.

(** The labels the criterion sees. *)
Definition placed (labels : Tensor) : Tensor :=
  if use_gpu a then tensor_to labels (device a) else labels.

(** What one batch appends to the trace, and what it leaves in the model:
    [r] is the result of the call of the model. *)
Definition batch_events (grad_enabled : bool) (phase : string)
    (image labels : Tensor) (features : option Tensor) (r : Tensor * StateDict) : list Event :=
  (if use_gpu a then [TensorTo labels (device a)] else [])
  ++ [ZeroGrad; ModelCall grad_enabled image features; Criterion r.1 (placed labels)]
  ++ (if (phase =? "train")%string then [Backward; OptimizerStep] else [])
  ++ [Accumulate (item (the_criterion a grad_enabled r.1 (placed labels))) (tensor_len image)].

(** The batches as unpacked. *)
Definition unpacked (batches : list (list Tensor))
    (us : list (Tensor * Tensor * option Tensor)) : Prop :=
  Forall2 (fun data u => unpack a data = Return u) batches us.

(** The events of the batches of a phase. *)
Definition batch_event (e : Event) : bool :=
  match e with
  | TensorTo _ _ | ZeroGrad | ModelCall _ _ _ | Criterion _ _
  | Backward | OptimizerStep | Accumulate _ _ => true
  | _ => false
  end.

(** The batch does not have the length the flag asks for. *)
Definition arity_mismatch (data : list Tensor) : Prop :=
  length data <> (if use_features a then 3%nat else 2%nat).

(** Lines 41-44. *)
Definition set_mode (phase : string) (st : State) : State :=
  if (phase =? "train")%string then model_train st else model_eval st.

(** Lines 74-78, the division done. *)
Definition metrics_of (acc : Acc) (size : Z) : EpochMetrics :=
  {| epoch_loss := (running_loss acc / float_of_int size)%float;
     epoch_accuracy := accuracy_score (all_labels acc) (all_preds acc);
     epoch_precision := precision_score (all_labels acc) (all_preds acc) 0 "macro";
     epoch_recall := recall_score (all_labels acc) (all_preds acc) 0 "macro";
     epoch_f1 := f1_score (all_labels acc) (all_preds acc) 0 "macro" |}.

(** Lines 46-48. *)
Definition acc0 : Acc := {| running_loss := 0%float; all_preds := []; all_labels := [] |}.

(** Lines 84-91: the best metrics after an update at epoch [ep]. *)
Definition new_best (ep : Z) (m : EpochMetrics) : BestMetrics :=
  {| epoch := ep + 1;
     val_loss := epoch_loss m;
     val_accuracy := epoch_accuracy m;
     val_precision := epoch_precision m;
     val_recall := epoch_recall m;
     val_f1 := epoch_f1 m |}.

(** The two outcomes of lines 83-97: the best checkpoint is updated from
    the state [st] of the model, or kept. *)
Definition updated (ep : Z) (m : EpochMetrics) (st st' : State) : Prop :=
  best_metrics st' = new_best ep m /\
  best_model_wts st' = Copy (state_dict st) /\
  files st' = <[output_filename a := state_dict st]> (files st) /\
  patience_left st' = patience a /\
  trace st' = trace st ++ [TorchSave (state_dict st) (output_filename a)].

Definition kept (phase : string) (st st' : State) : Prop :=
  best_metrics st' = best_metrics st /\
  best_model_wts st' = best_model_wts st /\
  files st' = files st /\
  patience_left st'
    = (if (phase =? "val")%string then patience_left st - 1 else patience_left st) /\
  trace st' = trace st.

(** The best snapshot is a copy of its own, equal to the state dict last
    saved, or to [w0] when none was; and the file holds the last save. *)
Definition snapshot_inv (w0 : StateDict) (st : State) : Prop :=
  best_model_wts st = Copy (default w0 (last (saves (trace st)))) /\
  forall w, last (saves (trace st)) = Some w -> files st !! output_filename a = Some w.

(** The loop has run out of patience when the last "val" line shows none
    left. *)
Definition ran_out (ps : list Z) : bool :=
  match last ps with
  | Some p => p <=? 0
  | None => false
  end.

(** What torch promises of a model in eval mode and of the grad mode: a call
    of a model in eval mode leaves its state dict as it was, and the grad
    mode changes neither the outputs of a call nor what it leaves behind. *)
Class EvalLaws : Prop := {
  eval_call_state : forall g w x f, (model_call false g w x f).2 = w;
  no_grad_call : forall tr w x f, model_call tr false w x f = model_call tr true w x f;
}.

(** The value of the loss does not depend on the grad mode either. *)
Definition no_grad_loss : Prop :=
  forall outputs labels,
    item (the_criterion a false outputs labels) = item (the_criterion a true outputs labels).

(** Two states that differ at most in their traces. *)
Definition agree (s1 s2 : State) : Prop :=
  state_dict s1 = state_dict s2 /\ training s1 = training s2 /\
  grad s1 = grad s2 /\ optimizer s1 = optimizer s2 /\
  best_metrics s1 = best_metrics s2 /\ best_model_wts s1 = best_model_wts s2 /\
  patience_left s1 = patience_left s2 /\ files s1 = files s2.

End Specs.

(** ** More readings of a trace *)

Section Readings.
Context {T : Torch}.

(** The calls of [scheduler.step()]. *)
Definition scheduler_steps (tr : list Event) : list Event :=
  omap (fun e => match e with SchedulerStep => Some SchedulerStep | _ => None end) tr.

(** The calls of [optimizer.zero_grad()]. *)
Definition zero_grads (tr : list Event) : list Event :=
  omap (fun e => match e with ZeroGrad => Some ZeroGrad | _ => None end) tr.

(** The calls of [loss.backward()], and those of [optimizer.step()]. *)
Definition backwards (tr : list Event) : list Event :=
  omap (fun e => match e with Backward => Some Backward | _ => None end) tr.

Definition optimizer_steps (tr : list Event) : list Event :=
  omap (fun e => match e with OptimizerStep => Some OptimizerStep | _ => None end) tr.

(** The state dicts loaded back into the model. *)
Definition loads (tr : list Event) : list StateDict :=
  omap (fun e => match e with LoadStateDict w => Some w | _ => None end) tr.

(** The epoch and the phase of each line of line 99, and the number the
    line gives for the last epoch. *)
Definition phase_lines (tr : list Event) : list (Z * Z * string) :=
  omap (fun e => match e with
                 | Print (PhaseLine ep last phase _ _ _) => Some (ep, last, phase)
                 | _ => None
                 end) tr.

(** The loss and the recall printed at the end of each "val" phase. *)
Definition val_lines (tr : list Event) : list (float * float) :=
  omap (fun e => match e with
                 | Print (PhaseLine _ _ phase loss recall _) =>
                     if (phase =? "val")%string then Some (loss, recall) else None
                 | _ => None
                 end) tr.

(** The epochs a trace goes through: one "val" line each. *)
Definition epochs_run (tr : list Event) : nat := length (val_patience tr).

(** The best metrics of lines 21-28. *)
Definition initial_best : BestMetrics :=
  {| epoch := 0; val_loss := infinity; val_accuracy := 0%float;
     val_precision := 0%float; val_recall := 0%float; val_f1 := 0%float |}.

(** The lines of [k] epochs from the epoch [ep] on, for a call with
    [num_epochs = n]. *)
Fixpoint lines_from (n : Z) (ep : Z) (k : nat) : list (Z * Z * string) :=
  match k with
  | O => []
  | S k' => (ep, n - 1, "train") :: (ep, n - 1, "val") :: lines_from n (ep + 1) k'
  end.

(** The files after a run from the files [fs], given what the run saved at
    [filename]. *)
Definition files_after (fs : gmap string StateDict) (filename : string)
    (saved : list StateDict) : gmap string StateDict :=
  match last saved with
  | Some w => <[filename := w]> fs
  | None => fs
  end.

End Readings.

Section PhaseEvents.
Context {T : Torch} {K : Sklearn}.
Variable a : Args.

(** The event of lines 41-44. *)
Definition mode_event (phase : string) : Event :=
  if (phase =? "train")%string then ModelTrain else ModelEval.

(** What lines 83-97 append to the trace. *)
Definition save_events (phase : string) (m : EpochMetrics) (st : State) : list Event :=
  if (phase =? "val")%string && improved m st
  then [TorchSave (state_dict st) (output_filename a)]
  else [].

(** What lines 105-106 append to the trace. *)
Definition scheduler_events : list Event :=
  match scheduler a with
  | Some _ => [SchedulerStep]
  | None => []
  end.

(** What lines 108-117 append to the trace of the state [st] the loop ends
    in. *)
Definition leave_events (st : State) : list Event :=
  [Print TrainingComplete; Print (BestMetricsAt (best_metrics st));
   LoadStateDict (deref (best_model_wts st) st)].

End PhaseEvents.

(** ** Macro-averaged scores

    The scores of sklearn.metrics as the specification describes them, in
    exact rationals, and what it is for the float a call returns to stand
    for such a score: the library itself is outside the repository, and
    the loop only calls it. *)

Module Metrics.

(** Modelled from the spec: the counts behind sklearn's scores, which are
    not part of the repository: the positions where the label is [c]. *)
Definition true_sum (y_true y_pred : list Z) (c : Z) : Z :=
  Z.of_nat (length (filter (fun p => p.1 = c) (zip y_true y_pred))).

(** Modelled from the spec: the positions where the prediction is [c]. *)
Definition pred_sum (y_true y_pred : list Z) (c : Z) : Z :=
  Z.of_nat (length (filter (fun p => p.2 = c) (zip y_true y_pred))).

(** Modelled from the spec: the positions where label and prediction are
    both [c], the true positives of the class. *)
Definition tp_sum (y_true y_pred : list Z) (c : Z) : Z :=
  Z.of_nat (length (filter (fun p => p.1 = c /\ p.2 = c) (zip y_true y_pred))).

(** Modelled from the spec: the classes, that is the values met among the
    labels or the predictions. *)
Definition classes (y_true y_pred : list Z) : list Z :=
  remove_dups (y_true ++ y_pred).

(** Modelled from the spec: a quotient of two counts, [zero_division]
    standing in, instead of an error, when the denominator is zero. *)
Definition ratio (zero_division : Z) (num den : Z) : Q :=
  if den =? 0 then inject_Z zero_division else (inject_Z num / inject_Z den)%Q.

(** Modelled from the spec: the per-class scores behind sklearn's
    [precision_score], [recall_score] and [f1_score], which are not part of
    the repository.  The precision of a class is its true positives over
    its predicted members. *)
Definition class_precision (zero_division : Z) (y_true y_pred : list Z) (c : Z) : Q :=
  ratio zero_division (tp_sum y_true y_pred c) (pred_sum y_true y_pred c).

(** Modelled from the spec: the recall of a class is its true positives
    over its true members. *)
Definition class_recall (zero_division : Z) (y_true y_pred : list Z) (c : Z) : Q :=
  ratio zero_division (tp_sum y_true y_pred c) (true_sum y_true y_pred c).

(** Modelled from the spec: the F1 of a class is the harmonic mean of its
    precision and recall, twice the true positives over the true members
    plus the predicted members. *)
Definition class_f1 (zero_division : Z) (y_true y_pred : list Z) (c : Z) : Q :=
  ratio zero_division (2 * tp_sum y_true y_pred c)
        (true_sum y_true y_pred c + pred_sum y_true y_pred c).

(** Modelled from the spec: the unweighted mean. *)
Definition mean (qs : list Q) : Q :=
  (fold_right Qplus 0 qs / inject_Z (Z.of_nat (length qs)))%Q.

(** Modelled from the spec: sklearn's [precision_score] with
    [average='macro'], which is not part of the repository: the unweighted
    mean of the per-class precisions over the classes. *)
Definition macro_precision (zero_division : Z) (y_true y_pred : list Z) : Q :=
  mean (map (class_precision zero_division y_true y_pred) (classes y_true y_pred)).

(** Modelled from the spec: sklearn's [recall_score] with [average='macro']. *)
Definition macro_recall (zero_division : Z) (y_true y_pred : list Z) : Q :=
  mean (map (class_recall zero_division y_true y_pred) (classes y_true y_pred)).

(** Modelled from the spec: sklearn's [f1_score] with [average='macro']. *)
Definition macro_f1 (zero_division : Z) (y_true y_pred : list Z) : Q :=
  mean (map (class_f1 zero_division y_true y_pred) (classes y_true y_pred)).

(** Modelled from the spec: the classes that have true members and
    predicted members, those met among the labels and among the
    predictions. *)
Definition populated (y_true y_pred : list Z) : list Z :=
  filter (fun c => c ∈ y_true /\ c ∈ y_pred) (classes y_true y_pred).

(** Modelled from the spec: the sum of a quantity over classes. *)
Definition total (f : Z -> Q) (cs : list Z) : Q :=
  fold_right Qplus 0%Q (map f cs).

(** Modelled from the spec: the share of the positions where label and
    prediction agree, behind sklearn's [accuracy_score]. *)
Definition accuracy (y_true y_pred : list Z) : Q :=
  ratio 0 (Z.of_nat (length (filter (fun p => p.1 = p.2) (zip y_true y_pred))))
          (Z.of_nat (length y_true)).

(** Modelled from the spec: a float for a score, the quotient of the
    numerator and the denominator of the fraction in lowest terms. *)
Definition to_score (q : Q) : float :=
  (float_of_int (Qnum (Qred q)) / float_of_int (Zpos (Qden (Qred q))))%float.

(** Modelled from the spec: an sklearn whose scores are the ones above; the
    macro average is the only one the specification describes. *)
Definition sklearn : Sklearn := {|
  accuracy_score := fun y_true y_pred => to_score (accuracy y_true y_pred);
  precision_score := fun y_true y_pred zero_division _ =>
    to_score (macro_precision zero_division y_true y_pred);
  recall_score := fun y_true y_pred zero_division _ =>
    to_score (macro_recall zero_division y_true y_pred);
  f1_score := fun y_true y_pred zero_division _ =>
    to_score (macro_f1 zero_division y_true y_pred);
|}.

(** Modelled from the spec: the rational a float is, when it is finite. *)
Definition value (f : float) : option Q :=
  match Prim2SF f with
  | S754_zero _ => Some 0%Q
  | S754_finite s m e =>
      Some ((if s then -1 else 1) * inject_Z (Zpos m) * Qpower 2 e)%Q
  | S754_infinity _ | S754_nan => None
  end.

(** Modelled from the spec: a float score stands for a rational score over
    [k] classes when it is finite and away from it by what a computation
    in floats may lose at most, whatever the order of its sum: [k + 2]
    units in the last place of a float below one. *)
Definition stands_for (k : nat) (f : float) (q : Q) : bool :=
  match value f with
  | Some v => Qle_bool (Qabs (v - q)) (inject_Z (Z.of_nat k + 2) / inject_Z (2 ^ 52))
  | None => false
  end.

End Metrics.

(** Modelled from the spec: what sklearn promises of one call of each of
    its three scores with [zero_division=0] and [average='macro'], as the
    loop calls them: the float returned stands for the macro-averaged score
    of the specification, whatever the classes met; no call fails for a
    class without true or without predicted members. *)
Definition macro_contract {K : Sklearn} (y_true y_pred : list Z) : Prop :=
  let k := length (Metrics.classes y_true y_pred) in
  Metrics.stands_for k (precision_score y_true y_pred 0 "macro")
    (Metrics.macro_precision 0 y_true y_pred) = true /\
  Metrics.stands_for k (recall_score y_true y_pred 0 "macro")
    (Metrics.macro_recall 0 y_true y_pred) = true /\
  Metrics.stands_for k (f1_score y_true y_pred 0 "macro")
    (Metrics.macro_f1 0 y_true y_pred) = true.

(** ** A small implementation of the collaborators

    Tensors are lists of integers and the model has one integer weight,
    added to every entry of the image; the loss is the L1 distance
    between outputs and labels, and every optimizer step adds the
    accumulated gradient (one per [backward]) to the weight. *)

Module Toy.

Definition l1 (outputs labels : list Z) : Z :=
  fold_right Z.add 0 (zip_with (fun o l => Z.abs (o - l)) outputs labels).

#[export] Instance torch : Torch := {|
  Tensor := list Z;
  StateDict := Z;
  Grads := Z;
  OptState := Z;
  Loss := Z;
  model_call := fun _ _ w image _ => (map (Z.add w) image, w);
  argmax := fun outputs _ => outputs;
  item := float_of_int;
  loss_backward := fun _ g => g + 1;
  optimizer_zero_grad := fun _ => 0;
  optimizer_step := fun o g w => (o, w + g);
  tensor_to := fun t _ => t;
  tensor_len := fun t => Z.of_nat (length t);
  numpy := fun t => t;
  CrossEntropyLoss := fun _ => l1;
|}.

(** The share of positions where prediction and label agree. *)
Definition agreement (y_true y_pred : list Z) : float :=
  (float_of_int (Z.of_nat (length (filter (fun p => p.1 = p.2) (zip y_true y_pred))))
   / float_of_int (Z.of_nat (length y_true)))%float.

#[export] Instance sklearn : Sklearn := {|
  accuracy_score := agreement;
  precision_score := fun y_true y_pred _ _ => agreement y_true y_pred;
  recall_score := fun y_true y_pred _ _ => agreement y_true y_pred;
  f1_score := fun y_true y_pred _ _ => agreement y_true y_pred;
|}.

(** One batch per phase: the image [[0]] with label [[2]]. *)
Definition args (num_epochs patience : Z) : Args := {|
  dataloaders := <["train" := [[[0]; [2]]]]> (<["val" := [[[0]; [2]]]]> ∅);
  dataset_sizes := <["train" := 1]> (<["val" := 1]> ∅);
  criterion := None;
  scheduler := None;
  num_epochs := num_epochs;
  patience := patience;
  output_filename := "best_model.pth";
  use_gpu := false;
  device := "cpu";
  use_features := false;
|}.

Definition run (num_epochs patience : Z) : Py State :=
  train_model (args num_epochs patience) 0 false 0 0 ∅.

(** The state on entry of [run num_epochs patience]. *)
Definition start (num_epochs patience : Z) : State :=
  enter (args num_epochs patience) 0 false 0 0 ∅.

(** A "val" phase on entry: the loss 2 is below the infinite best loss. *)
Definition after_val : State :=
  returned (start 1 2) (run_phase (args 1 2) 0 "val" (start 1 2)).

(** Four epochs with a patience of 2: the weight goes 1, 2, 3, 4, the
    validation loss 1, 0, 1, 2; the best is the second epoch, the last two
    use up the patience, and the model ends with the weight 2, not 4. *)
Definition final : State :=
  returned (start 4 2) (run 4 2).

(** [args] without its loaders. *)
Definition no_loaders (num_epochs : Z) : Args := {|
  dataloaders := ∅;
  dataset_sizes := ∅;
  criterion := None;
  scheduler := None;
  num_epochs := num_epochs;
  patience := 2;
  output_filename := "best_model.pth";
  use_gpu := false;
  device := "cpu";
  use_features := false;
|}.

(** [args] with the labels moved to a device. *)
Definition gpu : Args := {|
  dataloaders := <["train" := [[[0]; [2]]]]> (<["val" := [[[0]; [2]]]]> ∅);
  dataset_sizes := <["train" := 1]> (<["val" := 1]> ∅);
  criterion := None;
  scheduler := None;
  num_epochs := 1;
  patience := 2;
  output_filename := "best_model.pth";
  use_gpu := true;
  device := "cuda";
  use_features := false;
|}.

Definition no_metrics : EpochMetrics :=
  {| epoch_loss := 0; epoch_accuracy := 0; epoch_precision := 0;
     epoch_recall := 0; epoch_f1 := 0 |}.

Definition gpu_train : State * EpochMetrics :=
  returned (enter gpu 0 false 0 0 ∅, no_metrics)
           (phase_metrics gpu "train" (enter gpu 0 false 0 0 ∅)).

(** Two batches of unequal length per phase, three samples in all: the
    losses of the "train" phase are 4 on the batch of two and 1 on the
    batch of one, so the epoch loss is (4 * 2 + 1 * 1) / 3 = 3, where the
    mean over the batches would be 2.5. *)
Definition unequal : Args := {|
  dataloaders := <["train" := [[[0; 0]; [2; 2]]; [[0]; [2]]]]>
                   (<["val" := [[[0; 0]; [2; 2]]; [[0]; [2]]]]> ∅);
  dataset_sizes := <["train" := 3]> (<["val" := 3]> ∅);
  criterion := None;
  scheduler := None;
  num_epochs := 1;
  patience := 2;
  output_filename := "best_model.pth";
  use_gpu := false;
  device := "cpu";
  use_features := false;
|}.

Definition unequal_train : State :=
  returned (enter unequal 0 false 0 0 ∅)
           (run_phase unequal 0 "train" (enter unequal 0 false 0 0 ∅)).

(** A state whose best loss is 2 and best recall 0.5, and the metrics of
    an epoch with the given loss and recall. *)
Definition with_best : State :=
  set_best_metrics {| epoch := 1; val_loss := 2; val_accuracy := 0.5;
                      val_precision := 0.5; val_recall := 0.5; val_f1 := 0.5 |}
                   (start 3 2).

Definition metrics (loss recall : float) : EpochMetrics :=
  {| epoch_loss := loss; epoch_accuracy := recall; epoch_precision := recall;
     epoch_recall := recall; epoch_f1 := recall |}.

(** The result of a "val" phase on entry, up to its metrics. *)
Definition val_metrics : State * EpochMetrics :=
  returned (start 1 2, no_metrics) (phase_metrics (args 1 2) "val" (start 1 2)).

(** [args] with a batch of three, the flag [use_features] being off; and
    [args] with the flag on, its batches being of two. *)
Definition three : Args := {|
  dataloaders := <["train" := [[[0]; [2]; [7]]]]> (<["val" := [[[0]; [2]]]]> ∅);
  dataset_sizes := <["train" := 1]> (<["val" := 1]> ∅);
  criterion := None;
  scheduler := None;
  num_epochs := 1;
  patience := 2;
  output_filename := "best_model.pth";
  use_gpu := false;
  device := "cpu";
  use_features := false;
|}.

Definition two_with_features : Args := {|
  dataloaders := <["train" := [[[0]; [2]]]]> (<["val" := [[[0]; [2]]]]> ∅);
  dataset_sizes := <["train" := 1]> (<["val" := 1]> ∅);
  criterion := None;
  scheduler := None;
  num_epochs := 1;
  patience := 2;
  output_filename := "best_model.pth";
  use_gpu := false;
  device := "cpu";
  use_features := true;
|}.

(** [args] with a scheduler, which adds one to the state of the optimizer,
    and its run over four epochs with a patience of 2. *)
Definition scheduled : Args := {|
  dataloaders := <["train" := [[[0]; [2]]]]> (<["val" := [[[0]; [2]]]]> ∅);
  dataset_sizes := <["train" := 1]> (<["val" := 1]> ∅);
  criterion := None;
  scheduler := Some (Z.add 1);
  num_epochs := 4;
  patience := 2;
  output_filename := "best_model.pth";
  use_gpu := false;
  device := "cpu";
  use_features := false;
|}.

Definition scheduled_final : State :=
  returned (start 4 2) (train_model scheduled 0 false 0 0 ∅).

(** [args] with a criterion whose value is beyond the floats, a loss of
    infinity, and a patience of 1: the first epoch has a recall of zero, and
    the run ends there, nothing saved. *)
Definition diverging : Args := {|
  dataloaders := <["train" := [[[0]; [2]]]]> (<["val" := [[[0]; [2]]]]> ∅);
  dataset_sizes := <["train" := 1]> (<["val" := 1]> ∅);
  criterion := Some (fun _ _ _ => 2 ^ 1024);
  scheduler := None;
  num_epochs := 3;
  patience := 1;
  output_filename := "best_model.pth";
  use_gpu := false;
  device := "cpu";
  use_features := false;
|}.

Definition diverged : State :=
  returned (start 3 1) (train_model diverging 0 false 0 0 ∅).

(** [args] with a "train" size of zero, and without sizes. *)
Definition zero_size : Args := {|
  dataloaders := <["train" := [[[0]; [2]]]]> (<["val" := [[[0]; [2]]]]> ∅);
  dataset_sizes := <["train" := 0]> (<["val" := 1]> ∅);
  criterion := None;
  scheduler := None;
  num_epochs := 1;
  patience := 2;
  output_filename := "best_model.pth";
  use_gpu := false;
  device := "cpu";
  use_features := false;
|}.

Definition no_sizes : Args := {|
  dataloaders := <["train" := [[[0]; [2]]]]> (<["val" := [[[0]; [2]]]]> ∅);
  dataset_sizes := ∅;
  criterion := None;
  scheduler := None;
  num_epochs := 1;
  patience := 2;
  output_filename := "best_model.pth";
  use_gpu := false;
  device := "cpu";
  use_features := false;
|}.

(** Labels and predictions over the classes 0, 1 and 2, the class 2 being
    predicted once and never true. *)
Definition y_true : list Z := [0; 0; 1].
Definition y_pred : list Z := [0; 2; 1].

(** Labels and predictions over four classes: the class 0 is true twice and
    predicted twice, once rightly; the class 1 is true once and predicted
    then; the class 2 is predicted once and never true; the class 3 is
    true once and never predicted. *)
Definition seen_true : list Z := [0; 0; 1; 3].
Definition seen_pred : list Z := [0; 2; 1; 0].

(** [args] with one batch of four per phase, whose labels are [seen_true]
    and whose predictions, on entry, are [seen_pred]. *)
Definition missing_class : Args := {|
  dataloaders := <["train" := [[seen_pred; seen_true]]]>
                   (<["val" := [[seen_pred; seen_true]]]> ∅);
  dataset_sizes := <["train" := 4]> (<["val" := 4]> ∅);
  criterion := None;
  scheduler := None;
  num_epochs := 1;
  patience := 2;
  output_filename := "best_model.pth";
  use_gpu := false;
  device := "cpu";
  use_features := false;
|}.

(** The result of a "val" phase on entry, up to its metrics, the scores
    being those of [Metrics.sklearn]. *)
Definition missing_class_val : State * EpochMetrics :=
  returned (enter missing_class 0 false 0 0 ∅, no_metrics)
           (@phase_metrics torch Metrics.sklearn missing_class "val"
              (enter missing_class 0 false 0 0 ∅)).

(** [args] with a "train" size beyond the floats. *)
Definition huge_size : Args := {|
  dataloaders := <["train" := [[[0]; [2]]]]> (<["val" := [[[0]; [2]]]]> ∅);
  dataset_sizes := <["train" := 2 ^ 1024]> (<["val" := 1]> ∅);
  criterion := None;
  scheduler := None;
  num_epochs := 1;
  patience := 2;
  output_filename := "best_model.pth";
  use_gpu := false;
  device := "cpu";
  use_features := false;
|}.

End Toy.

(** * Properties *)

(** ** The monad *)

Lemma bind_Return {A B : Type} (m : Py A) (k : A -> Py B) (b : B) :
  m ≫= k = Return b -> exists x, m = Return x /\ k x = Return b.
Proof.
  destruct m as [x|e]; simpl; intros H; [eauto | discriminate].
Qed.

Lemma bind_Raise {A B : Type} (m : Py A) (k : A -> Py B) (e : PyError) :
  m = Raise e -> m ≫= k = Raise e.
Proof. intros ->. reflexivity. Qed.

Lemma getitem_Return {V : Type} (d : gmap string V) (key : string) (v : V) :
  getitem d key = Return v <-> d !! key = Some v.
Proof.
  unfold getitem. destruct (d !! key); split; intros H; congruence.
Qed.

(** A division returns exactly when its divisor is neither zero nor
    beyond the floats. *)
Lemma truediv_Return (x : float) (n : Z) (q : float) :
  truediv x n = Return q
  <-> n <> 0 /\ is_infinity (float_of_int n) = false /\ q = (x / float_of_int n)%float.
Proof.
  unfold truediv, to_float.
  destruct (is_infinity (float_of_int n)); simpl.
  - split; [discriminate | intros (_ & H & _); discriminate].
  - destruct (Z.eqb_spec n 0); split.
    + discriminate.
    + intros [H _]. contradiction.
    + intros [= <-]. auto.
    + intros (_ & _ & ->). reflexivity.
Qed.

Lemma truediv_zero (x : float) : truediv x 0 = Raise ZeroDivisionError.
Proof. reflexivity. Qed.

Lemma truediv_overflow (x : float) (n : Z) :
  is_infinity (float_of_int n) = true -> truediv x n = Raise OverflowError.
Proof. intros H. unfold truediv, to_float. rewrite H. reflexivity. Qed.

(** The divisors Python refuses are far from zero. *)
Lemma overflow_not_zero (n : Z) : is_infinity (float_of_int n) = true -> n <> 0.
Proof. intros H ->. vm_compute in H. discriminate. Qed.

Section LoopFacts.
Context {T : Torch} {K : Sklearn}.
Variable a : Args.

(** ** One batch *)

Lemma batch_body_spec grad_enabled phase data st acc st' acc' :
  batch_body a grad_enabled phase data (st, acc) = Return (st', acc') ->
  exists image labels features,
    unpack a data = Return (image, labels, features) /\
    let r := model_call (training st) grad_enabled (state_dict st) image features in
    let loss := the_criterion a grad_enabled r.1 (placed a labels) in
    trace st' = trace st ++ batch_events a grad_enabled phase image labels features r /\
    state_dict st' =
      (if (phase =? "train")%string
       then (optimizer_step (optimizer st)
               (loss_backward loss (optimizer_zero_grad (grad st))) r.2).2
       else r.2) /\
    training st' = training st /\
    best_metrics st' = best_metrics st /\
    best_model_wts st' = best_model_wts st /\
    patience_left st' = patience_left st /\
    files st' = files st /\
    acc' = {| running_loss := (running_loss acc + item loss * float_of_int (tensor_len image))%float;
              all_preds := all_preds acc ++ numpy (argmax r.1 1);
              all_labels := all_labels acc ++ numpy (placed a labels) |}.
Proof.
  unfold batch_body. intros H.
  apply bind_Return in H as ([[image labels] features] & Hu & H).
  exists image, labels, features. split; [exact Hu|].
  unfold batch_events, placed. simpl in H.
  destruct (use_gpu a), (phase =? "train")%string; simpl in H;
    injection H as <- <-; simpl; rewrite <- ?app_assoc; simpl; auto 10.
Qed.

(** ** The loop over batches *)

(** An induction rule: a relation between the state before, the state after
    and the batches holds of every run of the loop when it holds of the
    empty run and is carried along one more batch in front. *)
Lemma batch_loop_rule grad_enabled phase
    (R : State * Acc -> State * Acc -> list (list Tensor) -> Prop) :
  (forall s, R s s []) ->
  (forall s s1 s2 data rest,
      batch_body a grad_enabled phase data s = Return s1 ->
      batch_loop a grad_enabled phase rest s1 = Return s2 ->
      R s1 s2 rest -> R s s2 (data :: rest)) ->
  forall batches s s',
    batch_loop a grad_enabled phase batches s = Return s' -> R s s' batches.
Proof.
  intros Hnil Hcons batches.
  induction batches as [|data rest IH]; simpl; intros s s' H.
  - injection H as <-. apply Hnil.
  - apply bind_Return in H as (s1 & H1 & H2). eauto.
Qed.

Lemma batch_events_batch_event grad_enabled phase image labels features r :
  forallb batch_event (batch_events a grad_enabled phase image labels features r) = true.
Proof.
  unfold batch_events. destruct (use_gpu a), (phase =? "train")%string; reflexivity.
Qed.

(** What the loop leaves alone, and the shape of what it appends. *)
Lemma batch_loop_frame grad_enabled phase batches s s' :
  batch_loop a grad_enabled phase batches s = Return s' ->
  training s'.1 = training s.1 /\
  best_metrics s'.1 = best_metrics s.1 /\
  best_model_wts s'.1 = best_model_wts s.1 /\
  patience_left s'.1 = patience_left s.1 /\
  files s'.1 = files s.1 /\
  exists new, trace s'.1 = trace s.1 ++ new /\ forallb batch_event new = true.
Proof.
  revert batches s s'.
  apply (batch_loop_rule grad_enabled phase
           (fun s s' _ =>
              training s'.1 = training s.1 /\
              best_metrics s'.1 = best_metrics s.1 /\
              best_model_wts s'.1 = best_model_wts s.1 /\
              patience_left s'.1 = patience_left s.1 /\
              files s'.1 = files s.1 /\
              exists new, trace s'.1 = trace s.1 ++ new /\ forallb batch_event new = true)).
  - intros s. repeat split; trivial. exists []. rewrite app_nil_r. auto.
  - intros [st acc] [st1 acc1] [st2 acc2] data rest H1 _ IH. simpl in *.
    apply batch_body_spec in H1
      as (image & labels & features & _ & Htr & _ & Hm & Hb & Hw & Hp & Hf & _).
    destruct IH as (IHm & IHb & IHw & IHp & IHf & new & IHtr & IHnew).
    repeat split; try congruence.
    eexists. split.
    + rewrite IHtr, Htr, <- app_assoc. reflexivity.
    + rewrite forallb_app, batch_events_batch_event, IHnew. reflexivity.
Qed.

(** The projections of a trace that batches do not feed. *)
Lemma batch_event_silent (tr : list Event) :
  forallb batch_event tr = true ->
  saves tr = [] /\ printed tr = [] /\ val_patience tr = [] /\ notices tr = [].
Proof.
  induction tr as [|e tr IH]; simpl; [auto|].
  intros H. apply andb_prop in H as [He Htr].
  destruct (IH Htr) as (IH1 & IH2 & IH3 & IH4).
  unfold saves, printed, val_patience, notices in *. simpl.
  destruct e; simpl in He; try discriminate; auto.
Qed.

(** The calls a run of the loop makes, batch by batch: what is moved to the
    device, what the model is called on, and what follows the criterion. *)
Lemma batch_loop_calls grad_enabled phase batches s s' :
  batch_loop a grad_enabled phase batches s = Return s' ->
  exists us new,
    unpacked a batches us /\
    trace s'.1 = trace s.1 ++ new /\
    model_calls new = map (fun u => (grad_enabled, u.1.1, u.2)) us /\
    moved new = (if use_gpu a then map (fun u => u.1.2) us else []) /\
    updates new = (if (phase =? "train")%string
                   then concat (map (fun _ => [Backward; OptimizerStep]) us)
                   else []) /\
    map snd (terms new) = map (fun u => tensor_len u.1.1) us /\
    map snd (criterion_calls new) = map (fun u => placed a u.1.2) us.
Proof.
  revert batches s s'.
  apply (batch_loop_rule grad_enabled phase
           (fun s s' batches =>
              exists us new,
                unpacked a batches us /\
                trace s'.1 = trace s.1 ++ new /\
                model_calls new = map (fun u => (grad_enabled, u.1.1, u.2)) us /\
                moved new = (if use_gpu a then map (fun u => u.1.2) us else []) /\
                updates new = (if (phase =? "train")%string
                               then concat (map (fun _ => [Backward; OptimizerStep]) us)
                               else []) /\
                map snd (terms new) = map (fun u => tensor_len u.1.1) us /\
                map snd (criterion_calls new) = map (fun u => placed a u.1.2) us)).
  - intros s. exists [], []. rewrite app_nil_r.
    repeat split; try constructor;
      destruct (use_gpu a), (phase =? "train")%string; reflexivity.
  - intros [st acc] [st1 acc1] [st2 acc2] data rest H1 _ IH. simpl in *.
    apply batch_body_spec in H1 as (image & labels & features & Hu & Htr & _).
    destruct IH as (us & new & IHu & IHtr & IHc & IHm & IHup & IHt & IHl).
    exists ((image, labels, features) :: us). eexists.
    split; [constructor; assumption|].
    split; [rewrite IHtr, Htr, <- app_assoc; reflexivity|].
    unfold model_calls, moved, updates, terms, criterion_calls in *.
    rewrite !omap_app, IHc, IHm, IHup, !map_app, IHt, IHl.
    unfold batch_events.
    destruct (use_gpu a), (phase =? "train")%string; simpl; auto.
Qed.

(** Each term of the running loss carries the value of the criterion on the
    outputs and labels of its batch. *)
Lemma batch_loop_losses grad_enabled phase batches s s' :
  batch_loop a grad_enabled phase batches s = Return s' ->
  exists new,
    trace s'.1 = trace s.1 ++ new /\
    map fst (terms new)
    = map (fun c => item (the_criterion a grad_enabled c.1 c.2)) (criterion_calls new).
Proof.
  revert batches s s'.
  apply (batch_loop_rule grad_enabled phase
           (fun s s' _ =>
              exists new,
                trace s'.1 = trace s.1 ++ new /\
                map fst (terms new)
                = map (fun c => item (the_criterion a grad_enabled c.1 c.2))
                      (criterion_calls new))).
  - intros s. exists []. rewrite app_nil_r. auto.
  - intros [st acc] [st1 acc1] [st2 acc2] data rest H1 _ IH. simpl in *.
    apply batch_body_spec in H1 as (image & labels & features & _ & Htr & _).
    destruct IH as (new & IHtr & IHl).
    eexists. split; [rewrite IHtr, Htr, <- app_assoc; reflexivity|].
    unfold terms, criterion_calls in *.
    rewrite !omap_app, !map_app, IHl.
    unfold batch_events.
    destruct (use_gpu a), (phase =? "train")%string; simpl; auto.
Qed.

(** The accumulators after the loop, in terms of what the trace shows. *)
Lemma batch_loop_acc grad_enabled phase batches s s' :
  batch_loop a grad_enabled phase batches s = Return s' ->
  exists new,
    trace s'.1 = trace s.1 ++ new /\
    running_loss s'.2 =
      fold_left (fun acc t => (acc + t.1 * float_of_int t.2)%float) (terms new)
        (running_loss s.2) /\
    all_preds s'.2 = all_preds s.2 ++ collected_preds new /\
    all_labels s'.2 = all_labels s.2 ++ collected_labels new.
Proof.
  revert batches s s'.
  apply (batch_loop_rule grad_enabled phase
           (fun s s' _ =>
              exists new,
                trace s'.1 = trace s.1 ++ new /\
                running_loss s'.2 =
                  fold_left (fun acc t => (acc + t.1 * float_of_int t.2)%float) (terms new)
                    (running_loss s.2) /\
                all_preds s'.2 = all_preds s.2 ++ collected_preds new /\
                all_labels s'.2 = all_labels s.2 ++ collected_labels new)).
  - intros s. exists []. unfold collected_preds, collected_labels.
    simpl. rewrite !app_nil_r. auto.
  - intros [st acc] [st1 acc1] [st2 acc2] data rest H1 _ IH. simpl in *.
    apply batch_body_spec in H1
      as (image & labels & features & _ & Htr & _ & _ & _ & _ & _ & _ & Hacc).
    destruct IH as (new & IHtr & IHl & IHp & IHy).
    eexists. split; [rewrite IHtr, Htr, <- app_assoc; reflexivity|].
    rewrite IHl, IHp, IHy, Hacc. simpl.
    unfold collected_preds, collected_labels, criterion_calls, terms.
    rewrite !omap_app, !map_app, !concat_app, !fold_left_app.
    unfold batch_events.
    destruct (use_gpu a), (phase =? "train")%string; simpl;
      rewrite ?app_nil_r, <- ?app_assoc; auto.
Qed.

(** ** One phase *)

Lemma phase_metrics_inv phase st st1 m :
  phase_metrics a phase st = Return (st1, m) ->
  exists batches acc size,
    dataloaders a !! phase = Some batches /\
    batch_loop a (phase =? "train")%string phase batches (set_mode phase st, acc0)
      = Return (st1, acc) /\
    dataset_sizes a !! phase = Some size /\
    size <> 0 /\
    m = metrics_of acc size.
Proof.
  unfold phase_metrics. intros H.
  apply bind_Return in H as (batches & Hb & H). apply getitem_Return in Hb.
  apply bind_Return in H as ([st2 acc] & Hl & H).
  apply bind_Return in H as (size & Hs & H). apply getitem_Return in Hs.
  apply bind_Return in H as (loss & Hd & H).
  apply truediv_Return in Hd as (Hz & _ & ->).
  injection H as <- <-.
  exists batches, acc, size. auto.
Qed.

(** The size a phase that completes divides by is one Python converts to a
    float. *)
Lemma phase_metrics_size phase st st1 m size :
  phase_metrics a phase st = Return (st1, m) ->
  dataset_sizes a !! phase = Some size ->
  size <> 0 /\ is_infinity (float_of_int size) = false.
Proof.
  unfold phase_metrics. intros H Hsize.
  apply bind_Return in H as (batches & Hb & H).
  apply bind_Return in H as ([st2 acc] & Hl & H).
  apply bind_Return in H as (size' & Hs & H). apply getitem_Return in Hs.
  apply bind_Return in H as (loss & Hd & H).
  apply truediv_Return in Hd as (Hz & Hfin & _).
  rewrite Hsize in Hs. injection Hs as <-. auto.
Qed.

Lemma phase_metrics_intro phase st batches st1 acc size :
  dataloaders a !! phase = Some batches ->
  batch_loop a (phase =? "train")%string phase batches (set_mode phase st, acc0)
    = Return (st1, acc) ->
  dataset_sizes a !! phase = Some size ->
  size <> 0 ->
  is_infinity (float_of_int size) = false ->
  phase_metrics a phase st = Return (st1, metrics_of acc size).
Proof.
  intros Hb Hl Hs Hz Hfin. unfold phase_metrics.
  apply getitem_Return in Hb. rewrite Hb. simpl.
  fold (set_mode phase st). fold acc0. rewrite Hl. simpl.
  apply getitem_Return in Hs. rewrite Hs. simpl.
  assert (Hd : truediv (running_loss acc) size
               = Return (running_loss acc / float_of_int size)%float)
    by (apply truediv_Return; auto).
  rewrite Hd. reflexivity.
Qed.

Lemma trace_set_mode phase st :
  trace (set_mode phase st)
  = trace st ++ [if (phase =? "train")%string then ModelTrain else ModelEval].
Proof. unfold set_mode. destruct (phase =? "train")%string; reflexivity. Qed.

(** A phase up to its metrics changes neither the best metrics, nor the
    best weights, nor the patience left, nor the files, and neither saves
    nor prints. *)
Lemma phase_metrics_frame phase st st1 m :
  phase_metrics a phase st = Return (st1, m) ->
  best_metrics st1 = best_metrics st /\
  best_model_wts st1 = best_model_wts st /\
  patience_left st1 = patience_left st /\
  files st1 = files st /\
  exists new, trace st1 = trace st ++ new /\
    saves new = [] /\ printed new = [] /\ val_patience new = [] /\ notices new = [].
Proof.
  intros H. apply phase_metrics_inv in H as (batches & acc & size & _ & Hl & _).
  apply batch_loop_frame in Hl as (_ & Hb & Hw & Hp & Hf & new & Htr & Hnew).
  simpl in *. rewrite trace_set_mode in Htr.
  assert (Hfr : forall st, best_metrics (set_mode phase st) = best_metrics st /\
                  best_model_wts (set_mode phase st) = best_model_wts st /\
                  patience_left (set_mode phase st) = patience_left st /\
                  files (set_mode phase st) = files st).
  { intros st0. unfold set_mode. destruct (phase =? "train")%string; simpl; auto. }
  destruct (Hfr st) as (Eb & Ew & Ep & Ef).
  repeat split; try congruence.
  eexists. split; [rewrite Htr, <- app_assoc; reflexivity|].
  apply batch_event_silent in Hnew as (H1 & H2 & H3 & H4).
  unfold saves, printed, val_patience, notices in *. simpl.
  destruct (phase =? "train")%string; simpl; auto.
Qed.

(** ** The best checkpoint *)

Lemma update_best_cases ep phase m st :
  let st' := update_best a ep phase m st in
  state_dict st' = state_dict st /\
  training st' = training st /\
  grad st' = grad st /\
  optimizer st' = optimizer st /\
  if (phase =? "val")%string && improved m st
  then updated a ep m st st'
  else kept phase st st'.
Proof.
  unfold update_best, updated, kept.
  destruct (phase =? "val")%string; simpl; [destruct (improved m st); simpl|]; auto 10.
Qed.

Lemma run_phase_inv ep phase st st' :
  run_phase a ep phase st = Return st' ->
  exists st1 m,
    phase_metrics a phase st = Return (st1, m) /\
    st' = emit (Print (PhaseLine ep (num_epochs a - 1) phase (epoch_loss m) (epoch_recall m)
                         (patience_left (update_best a ep phase m st1))))
               (update_best a ep phase m st1).
Proof.
  unfold run_phase. intros H.
  apply bind_Return in H as ([st1 m] & Hm & H). injection H as <-.
  eauto.
Qed.

(** What a whole phase does to the locals, the files and the trace. *)
Lemma run_phase_summary ep phase st st' :
  run_phase a ep phase st = Return st' ->
  exists st1 m new,
    phase_metrics a phase st = Return (st1, m) /\
    state_dict st' = state_dict st1 /\
    trace st' = trace st ++ new /\
    val_patience new = (if (phase =? "val")%string then [patience_left st'] else []) /\
    notices new = [] /\
    if (phase =? "val")%string && improved m st1
    then saves new = [state_dict st1] /\
         best_metrics st' = new_best ep m /\
         best_model_wts st' = Copy (state_dict st1) /\
         files st' = <[output_filename a := state_dict st1]> (files st) /\
         patience_left st' = patience a
    else saves new = [] /\
         best_metrics st' = best_metrics st /\
         best_model_wts st' = best_model_wts st /\
         files st' = files st /\
         patience_left st'
           = (if (phase =? "val")%string then patience_left st - 1 else patience_left st).
Proof.
  intros H. apply run_phase_inv in H as (st1 & m & Hm & ->).
  destruct (phase_metrics_frame _ _ _ _ Hm)
    as (Fb & Fw & Fp & Ff & new & Htr & Hs & Hpr & Hv & Hn).
  pose proof (update_best_cases ep phase m st1) as (Us & _ & _ & _ & Hc).
  exists st1, m.
  destruct ((phase =? "val")%string && improved m st1) eqn:Hi.
  - destruct Hc as (Cb & Cw & Cf & Cp & Ct).
    eexists. split; [exact Hm|]. simpl. split; [exact Us|].
    apply andb_prop in Hi as [Hval _]. rewrite Hval.
    split; [rewrite Ct, Htr, <- !app_assoc; reflexivity|].
    unfold saves, val_patience, notices in *.
    rewrite !omap_app, Hs, Hv, Hn. simpl. rewrite Hval. simpl.
    rewrite Cf, Ff. auto 10.
  - destruct Hc as (Cb & Cw & Cf & Cp & Ct).
    eexists. split; [exact Hm|]. simpl. split; [exact Us|].
    split; [rewrite Ct, Htr, <- !app_assoc; reflexivity|].
    unfold saves, val_patience, notices in *.
    rewrite !omap_app, Hs, Hv, Hn. simpl.
    rewrite Cb, Cw, Cf, Cp, Fb, Fw, Fp, Ff.
    destruct (phase =? "val")%string; simpl; auto 10.
Qed.

(** ** One epoch *)

Lemma phase_loop_inv ep st st' :
  phase_loop a ep ["train"; "val"] st = Return st' ->
  exists st1,
    run_phase a ep "train" st = Return st1 /\
    run_phase a ep "val" st1 = Return st'.
Proof.
  simpl. intros H.
  apply bind_Return in H as (st1 & H1 & H).
  apply bind_Return in H as (st2 & H2 & H). injection H as <-.
  eauto.
Qed.

Lemma saves_app (tr1 tr2 : list Event) : saves (tr1 ++ tr2) = saves tr1 ++ saves tr2.
Proof. apply omap_app. Qed.

Lemma snapshot_inv_silent w0 st st' new :
  snapshot_inv a w0 st ->
  trace st' = trace st ++ new -> saves new = [] ->
  best_model_wts st' = best_model_wts st -> files st' = files st ->
  snapshot_inv a w0 st'.
Proof.
  intros [Hw Hf] Htr Hs Ew Ef. unfold snapshot_inv.
  rewrite Htr, saves_app, Hs, app_nil_r, Ew, Ef. auto.
Qed.

Lemma run_phase_snapshot_inv w0 ep phase st st' :
  run_phase a ep phase st = Return st' -> snapshot_inv a w0 st -> snapshot_inv a w0 st'.
Proof.
  intros H Hinv.
  apply run_phase_summary in H as (st1 & m & new & _ & _ & Htr & _ & _ & Hc).
  destruct ((phase =? "val")%string && improved m st1).
  - destruct Hc as (Hs & _ & Hw & Hf & _). unfold snapshot_inv.
    rewrite Htr, saves_app, Hs, last_snoc, Hw, Hf. simpl. split; [reflexivity|].
    intros w [= <-]. apply lookup_insert_eq.
  - destruct Hc as (Hs & _ & Hw & Hf & _). eapply snapshot_inv_silent; eauto.
Qed.

(** What an epoch prints about the patience left, and where that comes
    from. *)
Lemma epoch_summary ep st st' :
  phase_loop a ep ["train"; "val"] st = Return st' ->
  exists new,
    trace st' = trace st ++ new /\
    val_patience new = [patience_left st'] /\
    notices new = [] /\
    (patience_left st' = patience a \/ patience_left st' = patience_left st - 1).
Proof.
  intros H. apply phase_loop_inv in H as (st1 & H1 & H2).
  apply run_phase_summary in H1 as (s1 & m1 & new1 & _ & _ & Htr1 & Hv1 & Hn1 & Hc1).
  apply run_phase_summary in H2 as (s2 & m2 & new2 & _ & _ & Htr2 & Hv2 & Hn2 & Hc2).
  simpl in Hv1, Hv2, Hc1. destruct Hc1 as (_ & _ & _ & _ & Hp1).
  exists (new1 ++ new2).
  split; [rewrite Htr2, Htr1, <- app_assoc; reflexivity|].
  unfold val_patience, notices in *. rewrite !omap_app, Hv1, Hv2, Hn1, Hn2.
  repeat split.
  change ("val" =? "val")%string with true in Hc2. simpl in Hc2.
  destruct (improved m2 s2).
  - left. apply Hc2.
  - right. destruct Hc2 as (_ & _ & _ & _ & ->). rewrite Hp1. reflexivity.
Qed.

(** ** The loop over epochs *)

Lemma epoch_loop_inv n ep st st' :
  epoch_loop a (S n) ep st = Return st' ->
  exists st1,
    phase_loop a ep ["train"; "val"] st = Return st1 /\
    ((patience_left st1 <= 0 /\ st' = emit (Print OutOfPatience) st1) \/
     (0 < patience_left st1 /\
      epoch_loop a n (ep + 1) (scheduler_step a st1) = Return st')).
Proof.
  cbn [epoch_loop]. intros H.
  apply bind_Return in H as (st1 & H1 & H). exists st1. split; [exact H1|].
  destruct (Z.leb_spec (patience_left st1) 0).
  - left. injection H as <-. auto.
  - right. auto.
Qed.

Lemma scheduler_step_frame st :
  state_dict (scheduler_step a st) = state_dict st /\
  best_metrics (scheduler_step a st) = best_metrics st /\
  best_model_wts (scheduler_step a st) = best_model_wts st /\
  patience_left (scheduler_step a st) = patience_left st /\
  files (scheduler_step a st) = files st /\
  exists new, trace (scheduler_step a st) = trace st ++ new /\
    saves new = [] /\ val_patience new = [] /\ notices new = [] /\
    model_calls new = [] /\ updates new = [] /\ terms new = [].
Proof.
  unfold scheduler_step. destruct (scheduler a); simpl.
  - repeat split. exists [SchedulerStep]. auto 10.
  - repeat split. exists []. rewrite app_nil_r. auto 10.
Qed.

(** The epochs a run of the loop goes through, read from the patience it
    prints: at most [n]; all but the last end with patience left; the loop
    ends before [n] epochs only without patience left; and the notice is
    printed exactly then. *)
Lemma epoch_loop_stops n ep st st' :
  epoch_loop a n ep st = Return st' ->
  exists new,
    trace st' = trace st ++ new /\
    (length (val_patience new) <= n)%nat /\
    (forall i p, val_patience new !! i = Some p ->
                 (S i < length (val_patience new))%nat -> 0 < p) /\
    ((length (val_patience new) < n)%nat -> ran_out (val_patience new) = true) /\
    notices new = (if ran_out (val_patience new) then [OutOfPatience] else []) /\
    patience_left st' = default (patience_left st) (last (val_patience new)).
Proof.
  revert ep st st'. induction n as [|n IH]; intros ep st st' H.
  - injection H as <-. exists []. rewrite app_nil_r. simpl.
    repeat split; try lia.
  - apply epoch_loop_inv in H as (st1 & H1 & H).
    apply epoch_summary in H1 as (new1 & Htr1 & Hv1 & Hn1 & _).
    destruct H as [[Hle ->]|[Hlt H]].
    + exists (new1 ++ [Print OutOfPatience]). simpl.
      split; [rewrite Htr1, <- app_assoc; reflexivity|].
      unfold val_patience, notices in *. rewrite !omap_app, Hv1, Hn1. simpl.
      unfold ran_out. simpl.
      destruct (Z.leb_spec (patience_left st1) 0); [|lia].
      repeat split; try lia; auto.
    + apply IH in H as (new2 & Htr2 & Hlen & Hpos & Hshort & Hnot & Hp).
      destruct (scheduler_step_frame st1)
        as (_ & _ & _ & Sp & _ & news & Strs & _ & Sv & Sn & _).
      exists (new1 ++ news ++ new2).
      split; [rewrite Htr2, Strs, Htr1, <- !app_assoc; reflexivity|].
      unfold val_patience, notices in *.
      rewrite !omap_app, Hv1, Hn1, Sv, Sn. simpl.
      set (ps := omap _ new2) in *.
      assert (Hro : ran_out (patience_left st1 :: ps) = ran_out ps).
      { unfold ran_out. rewrite last_cons. destruct (last ps) eqn:E; [reflexivity|].
        destruct (Z.leb_spec (patience_left st1) 0); [lia|reflexivity]. }
      rewrite Hro. repeat split.
      * lia.
      * intros [|i] p Hi Hl; simpl in Hi.
        -- injection Hi as <-. exact Hlt.
        -- apply (Hpos i p Hi). lia.
      * intros Hl. apply Hshort. lia.
      * exact Hnot.
      * rewrite Hp, Sp, last_cons. destruct (last ps); reflexivity.
Qed.

Lemma epoch_loop_snapshot_inv w0 n ep st st' :
  epoch_loop a n ep st = Return st' -> snapshot_inv a w0 st -> snapshot_inv a w0 st'.
Proof.
  revert ep st st'. induction n as [|n IH]; intros ep st st' H Hinv.
  - injection H as <-. exact Hinv.
  - apply epoch_loop_inv in H as (st1 & H1 & H).
    apply phase_loop_inv in H1 as (s1 & P1 & P2).
    apply (run_phase_snapshot_inv w0) in P1; [|exact Hinv].
    apply (run_phase_snapshot_inv w0) in P2; [|exact P1].
    destruct H as [[_ ->]|[_ H]].
    + apply (snapshot_inv_silent w0 st1 _ [Print OutOfPatience] P2); reflexivity.
    + apply IH in H; [exact H|].
      destruct (scheduler_step_frame st1) as (_ & _ & Sw & _ & Sf & news & Strs & Ss & _).
      exact (snapshot_inv_silent w0 st1 _ news P2 Strs Ss Sw Sf).
Qed.

(** ** The trace of a phase *)

(** Everything a phase up to its metrics shows: the batches it draws, the
    calls it makes on them, and the metrics as computed from what the trace
    records. *)
Lemma phase_metrics_trace phase st st1 m :
  phase_metrics a phase st = Return (st1, m) ->
  exists batches us size new,
    dataloaders a !! phase = Some batches /\
    unpacked a batches us /\
    dataset_sizes a !! phase = Some size /\
    size <> 0 /\
    trace st1
      = trace st ++ [if (phase =? "train")%string then ModelTrain else ModelEval] ++ new /\
    forallb batch_event new = true /\
    model_calls new = map (fun u => ((phase =? "train")%string, u.1.1, u.2)) us /\
    moved new = (if use_gpu a then map (fun u => u.1.2) us else []) /\
    updates new = (if (phase =? "train")%string
                   then concat (map (fun _ => [Backward; OptimizerStep]) us)
                   else []) /\
    map snd (terms new) = map (fun u => tensor_len u.1.1) us /\
    map snd (criterion_calls new) = map (fun u => placed a u.1.2) us /\
    m = {| epoch_loss := (weighted_sum (terms new) / float_of_int size)%float;
           epoch_accuracy := accuracy_score (collected_labels new) (collected_preds new);
           epoch_precision :=
             precision_score (collected_labels new) (collected_preds new) 0 "macro";
           epoch_recall :=
             recall_score (collected_labels new) (collected_preds new) 0 "macro";
           epoch_f1 := f1_score (collected_labels new) (collected_preds new) 0 "macro" |}.
Proof.
  intros H. apply phase_metrics_inv in H as (batches & acc & size & Hb & Hl & Hs & Hz & ->).
  destruct (batch_loop_frame _ _ _ _ _ Hl) as (_ & _ & _ & _ & _ & new & Htr & Hnew).
  destruct (batch_loop_calls _ _ _ _ _ Hl)
    as (us & new1 & Hu & Htr1 & Hc & Hmv & Hup & Ht & Hcl).
  destruct (batch_loop_acc _ _ _ _ _ Hl) as (new2 & Htr2 & Hrl & Hp & Hy).
  simpl in *.
  assert (new1 = new) by (rewrite Htr in Htr1; apply app_inv_head in Htr1; auto).
  assert (new2 = new) by (rewrite Htr in Htr2; apply app_inv_head in Htr2; auto).
  subst new1 new2.
  exists batches, us, size, new.
  rewrite trace_set_mode, <- app_assoc in Htr.
  repeat (split; [assumption|]).
  unfold metrics_of, weighted_sum. rewrite Hrl, Hp, Hy. reflexivity.
Qed.

Lemma phase_metrics_losses phase st st1 m :
  phase_metrics a phase st = Return (st1, m) ->
  exists new,
    trace st1 = trace st ++ new /\
    map fst (terms new)
    = map (fun c => item (the_criterion a (phase =? "train")%string c.1 c.2))
          (criterion_calls new).
Proof.
  intros H. apply phase_metrics_inv in H as (batches & acc & size & _ & Hl & _).
  apply batch_loop_losses in Hl as (new & Htr & Hlo). simpl in Htr.
  rewrite trace_set_mode, <- app_assoc in Htr.
  eexists. split; [exact Htr|].
  unfold terms, criterion_calls in *.
  destruct (phase =? "train")%string; simpl; exact Hlo.
Qed.

(** ** Failures *)

Lemma unpack_Return data image labels features :
  unpack a data = Return (image, labels, features) <->
  (use_features a = true /\ exists f, features = Some f /\ data = [image; labels; f]) \/
  (use_features a = false /\ features = None /\ data = [image; labels]).
Proof.
  unfold unpack. destruct (use_features a).
  - destruct data as [|x [|l [|f [|? ?]]]]; split;
      try discriminate; try (intros [(_ & ? & _ & [=]) | ([=] & _)]; fail).
    + intros [= -> -> <-]. left. eauto.
    + intros [(_ & f' & -> & [= -> -> ->]) | ([=] & _)]. reflexivity.
  - destruct data as [|x [|l [|? ?]]]; split;
      try discriminate; try (intros [([=] & _) | (_ & _ & [=])]; fail).
    + intros [= -> -> <-]. right. auto.
    + intros [([=] & _) | (_ & -> & [= -> ->])]. reflexivity.
Qed.

Lemma unpack_cases data :
  (arity_mismatch a data /\ unpack a data = Raise ValueError) \/
  (~ arity_mismatch a data /\ exists u, unpack a data = Return u).
Proof.
  unfold unpack, arity_mismatch. destruct (use_features a).
  - destruct data as [|x [|l [|f [|? ?]]]]; simpl;
      try (left; split; [lia | reflexivity]).
    right. split; [lia | eauto].
  - destruct data as [|x [|l [|? ?]]]; simpl;
      try (left; split; [lia | reflexivity]).
    right. split; [lia | eauto].
Qed.

(** A batch that unpacks goes through. *)
Lemma batch_body_total grad_enabled phase data s u :
  unpack a data = Return u ->
  exists s', batch_body a grad_enabled phase data s = Return s'.
Proof.
  intros Hu. unfold batch_body. rewrite Hu. destruct u as [[image labels] features].
  simpl. destruct (use_gpu a); simpl; eauto.
Qed.

Lemma batch_loop_total grad_enabled phase batches s :
  Forall (fun data => ~ arity_mismatch a data) batches ->
  exists s', batch_loop a grad_enabled phase batches s = Return s'.
Proof.
  intros H. revert s. induction H as [|data rest Hd _ IH]; intros s; simpl; [eauto|].
  destruct (unpack_cases data) as [[Hm _]|[_ [u Hu]]]; [contradiction|].
  destruct (batch_body_total grad_enabled phase data s u Hu) as [s1 H1].
  rewrite H1. simpl. apply IH.
Qed.

(** A loader with a batch of the wrong length stops the loop at the first
    such batch, with the error of the unpacking. *)
Lemma batch_loop_mismatch grad_enabled phase batches s :
  Exists (arity_mismatch a) batches ->
  batch_loop a grad_enabled phase batches s = Raise ValueError.
Proof.
  revert s. induction batches as [|data rest IH]; intros s H.
  - inversion H.
  - simpl. destruct (unpack_cases data) as [[_ Hr]|[Hok [u Hu]]].
    + unfold batch_body. rewrite Hr. reflexivity.
    + destruct (batch_body_total grad_enabled phase data s u Hu) as [s1 H1].
      rewrite H1. simpl. apply IH.
      inversion H; [contradiction | assumption].
Qed.

(** ** Evaluation *)

Lemma batch_loop_eval_state {L : @EvalLaws T} grad_enabled phase batches s s' :
  (phase =? "train")%string = false ->
  training s.1 = false ->
  batch_loop a grad_enabled phase batches s = Return s' ->
  state_dict s'.1 = state_dict s.1.
Proof.
  intros Hph Hmode Hl. revert batches s s' Hl Hmode.
  apply (batch_loop_rule grad_enabled phase
           (fun s s' _ => training s.1 = false -> state_dict s'.1 = state_dict s.1)).
  - reflexivity.
  - intros [st acc] [st1 acc1] [st2 acc2] data rest H1 _ IH Hmode. simpl in *.
    apply batch_body_spec in H1 as (image & labels & features & _ & _ & Hw & Hm & _).
    rewrite Hph, Hmode, eval_call_state in Hw.
    rewrite IH by congruence. exact Hw.
Qed.

Lemma batch_body_no_grad {L : @EvalLaws T} phase data st st2 acc st' acc' :
  no_grad_loss a ->
  (phase =? "train")%string = false ->
  agree st st2 ->
  batch_body a false phase data (st, acc) = Return (st', acc') ->
  exists st2',
    batch_body a true phase data (st2, acc) = Return (st2', acc') /\ agree st' st2'.
Proof.
  intros Hloss Hph (E1 & E2 & E3 & E4 & E5 & E6 & E7 & E8) Hb.
  unfold batch_body in *. rewrite Hph in *.
  destruct (unpack a data) as [[[image labels] features]|e]; [|discriminate].
  simpl in *. unfold call_model in *.
  destruct (use_gpu a); simpl in *; injection Hb as <- <-;
    rewrite <- E1, <- E2, <- no_grad_call, <- Hloss;
    (eexists; split; [reflexivity|]);
    unfold agree; simpl; rewrite ?E3, ?E4, ?E5, ?E6, ?E7, ?E8; auto 10.
Qed.

Lemma batch_loop_no_grad {L : @EvalLaws T} phase batches st st2 acc st' acc' :
  no_grad_loss a ->
  (phase =? "train")%string = false ->
  agree st st2 ->
  batch_loop a false phase batches (st, acc) = Return (st', acc') ->
  exists st2',
    batch_loop a true phase batches (st2, acc) = Return (st2', acc') /\ agree st' st2'.
Proof.
  intros Hloss Hph. revert st st2 acc.
  induction batches as [|data rest IH]; intros st st2 acc Hag Hl; simpl in *.
  - injection Hl as <- <-. eauto.
  - apply bind_Return in Hl as ([st1 acc1] & H1 & Hl).
    destruct (batch_body_no_grad phase data st st2 acc st1 acc1 Hloss Hph Hag H1)
      as (st3 & H3 & Hag3).
    rewrite H3. simpl. eapply IH; eauto.
Qed.

End LoopFacts.

(** ** The macro-averaged scores *)

Module MetricsFacts.
Import Metrics.

Lemma filter_length_le {A : Type} (P Q' : A -> Prop)
    `{forall x, Decision (P x)} `{forall x, Decision (Q' x)} (l : list A) :
  (forall x, P x -> Q' x) ->
  (length (filter P l) <= length (filter Q' l))%nat.
Proof.
  intros HPQ. induction l as [|x l IH]; simpl; [lia|].
  rewrite !filter_cons.
  destruct (decide (P x)) as [HP|HP], (decide (Q' x)) as [HQ|HQ]; simpl; try lia.
  exfalso. auto.
Qed.

(** The true positives of a class are among its true members and among its
    predicted members. *)
Lemma tp_sum_bounds y_true y_pred c :
  0 <= tp_sum y_true y_pred c /\
  tp_sum y_true y_pred c <= true_sum y_true y_pred c /\
  tp_sum y_true y_pred c <= pred_sum y_true y_pred c.
Proof.
  unfold tp_sum, true_sum, pred_sum. repeat split.
  - lia.
  - apply Nat2Z.inj_le, filter_length_le. intros p [? _]. assumption.
  - apply Nat2Z.inj_le, filter_length_le. intros p [_ ?]. assumption.
Qed.

Lemma ratio_zero (den : Z) : (ratio 0 0 den == 0)%Q.
Proof.
  unfold ratio. destruct (den =? 0); [reflexivity|].
  unfold Qdiv. apply Qmult_0_l.
Qed.

(** A class without true members, or without predicted members, has no true
    positive, and scores zero on the three scores. *)
Lemma empty_class_scores_zero y_true y_pred c :
  true_sum y_true y_pred c = 0 \/ pred_sum y_true y_pred c = 0 ->
  (class_precision 0 y_true y_pred c == 0)%Q /\
  (class_recall 0 y_true y_pred c == 0)%Q /\
  (class_f1 0 y_true y_pred c == 0)%Q.
Proof.
  intros H. destruct (tp_sum_bounds y_true y_pred c) as (H0 & Ht & Hp).
  assert (E : tp_sum y_true y_pred c = 0) by lia.
  unfold class_precision, class_recall, class_f1. rewrite E. simpl.
  repeat split; apply ratio_zero.
Qed.

(** Among as many predictions as labels, a class has true members when it
    is met among the labels, and predicted members when it is met among the
    predictions. *)
Lemma true_sum_zero y_true y_pred c :
  length y_true = length y_pred ->
  true_sum y_true y_pred c = 0 <-> c ∉ y_true.
Proof.
  unfold true_sum. revert y_pred.
  induction y_true as [|t yt IH]; intros [|p yp] Hl; try discriminate.
  - simpl. split; [intros _; apply not_elem_of_nil | reflexivity].
  - simpl in Hl. injection Hl as Hl. specialize (IH _ Hl).
    simpl. rewrite filter_cons. rewrite not_elem_of_cons.
    destruct (decide ((t, p).1 = c)) as [E|E]; simpl in *.
    + split; [lia | intros [? _]; congruence].
    + rewrite IH. split; [intros ?; split; [congruence|assumption] | intros [_ ?]; assumption].
Qed.

Lemma pred_sum_zero y_true y_pred c :
  length y_true = length y_pred ->
  pred_sum y_true y_pred c = 0 <-> c ∉ y_pred.
Proof.
  unfold pred_sum. revert y_pred.
  induction y_true as [|t yt IH]; intros [|p yp] Hl; try discriminate.
  - simpl. split; [intros _; apply not_elem_of_nil | reflexivity].
  - simpl in Hl. injection Hl as Hl. specialize (IH _ Hl).
    simpl. rewrite filter_cons. rewrite not_elem_of_cons.
    destruct (decide ((t, p).2 = c)) as [E|E]; simpl in *.
    + split; [lia | intros [? _]; congruence].
    + rewrite IH. split; [intros ?; split; [congruence|assumption] | intros [_ ?]; assumption].
Qed.

Lemma populated_or_empty y_true y_pred c :
  length y_true = length y_pred ->
  ~ (c ∈ y_true /\ c ∈ y_pred) ->
  true_sum y_true y_pred c = 0 \/ pred_sum y_true y_pred c = 0.
Proof.
  intros Hl Hc.
  destruct (decide (c ∈ y_true)) as [Ht|Ht].
  - right. apply pred_sum_zero; [exact Hl|]. intros Hp. apply Hc. auto.
  - left. apply true_sum_zero; assumption.
Qed.

(** A sum over classes is the sum over those whose terms are not zero. *)
Lemma total_filter (f g : Z -> Q) (P : Z -> Prop) `{forall c, Decision (P c)} (cs : list Z) :
  (forall c, P c -> (f c == g c)%Q) ->
  (forall c, ~ P c -> (f c == 0)%Q) ->
  (fold_right Qplus 0%Q (map f cs) == total g (filter P cs))%Q.
Proof.
  intros Hin Hout. unfold total. induction cs as [|c cs IH]; simpl; [reflexivity|].
  rewrite filter_cons. destruct (decide (P c)) as [HP|HP]; simpl.
  - rewrite IH, (Hin _ HP). reflexivity.
  - rewrite IH, (Hout _ HP). apply Qplus_0_l.
Qed.

Lemma ratio_quotient (zero_division num den : Z) :
  den <> 0 -> ratio zero_division num den = (inject_Z num / inject_Z den)%Q.
Proof.
  intros H. unfold ratio. destruct (Z.eqb_spec den 0); [contradiction | reflexivity].
Qed.

(** The macro-averaged scores are the sums, over the classes that have true
    and predicted members, of the quotients of the counts of the class,
    divided by the number of all the classes: the other classes count in
    the average, for nothing. *)
Lemma macro_populated y_true y_pred :
  length y_true = length y_pred ->
  let n := inject_Z (Z.of_nat (length (classes y_true y_pred))) in
  let live := populated y_true y_pred in
  (macro_precision 0 y_true y_pred
   == total (fun c => inject_Z (tp_sum y_true y_pred c)
                      / inject_Z (pred_sum y_true y_pred c)) live / n)%Q /\
  (macro_recall 0 y_true y_pred
   == total (fun c => inject_Z (tp_sum y_true y_pred c)
                      / inject_Z (true_sum y_true y_pred c)) live / n)%Q /\
  (macro_f1 0 y_true y_pred
   == total (fun c => inject_Z (2 * tp_sum y_true y_pred c)
                      / inject_Z (true_sum y_true y_pred c + pred_sum y_true y_pred c))
            live / n)%Q.
Proof.
  intros Hl n live.
  assert (Hlive : forall c, c ∈ y_true /\ c ∈ y_pred ->
            true_sum y_true y_pred c <> 0 /\ pred_sum y_true y_pred c <> 0).
  { intros c [Ht Hp]. split; intros E.
    - apply (true_sum_zero _ _ _ Hl) in E. contradiction.
    - apply (pred_sum_zero _ _ _ Hl) in E. contradiction. }
  assert (Hpos : forall c, 0 <= true_sum y_true y_pred c /\ 0 <= pred_sum y_true y_pred c)
    by (intros c; unfold true_sum, pred_sum; lia).
  unfold macro_precision, macro_recall, macro_f1, mean.
  rewrite !length_map. fold n.
  repeat split; (apply Qmult_comp; [|reflexivity]); unfold live, populated;
    apply total_filter.
  - intros c Hc. destruct (Hlive c Hc) as [_ Hp].
    unfold class_precision. rewrite ratio_quotient by exact Hp. reflexivity.
  - intros c Hc. apply empty_class_scores_zero, populated_or_empty; assumption.
  - intros c Hc. destruct (Hlive c Hc) as [Ht _].
    unfold class_recall. rewrite ratio_quotient by exact Ht. reflexivity.
  - intros c Hc. apply empty_class_scores_zero, populated_or_empty; assumption.
  - intros c Hc. destruct (Hlive c Hc) as [Ht Hp]. destruct (Hpos c) as [H1 H2].
    unfold class_f1. rewrite ratio_quotient by lia. reflexivity.
  - intros c Hc. apply empty_class_scores_zero, populated_or_empty; assumption.
Qed.

End MetricsFacts.

(** * The claims *)

Section Claims.
Context {T : Torch} {K : Sklearn}.
Variable a : Args.

(** C1.  A phase that completes updates the best checkpoint exactly when it
    is a "val" phase whose loss is strictly below the stored best loss or
    whose macro recall is strictly above the stored best recall.  An update
    replaces the six best metrics by those of the epoch (the epoch counted
    from 1), stores a copy of the model's state dict as the best weights,
    writes that state dict to [output_filename] and resets the patience
    left to [patience]; otherwise the best metrics, the best weights and the
    files stay as they were and nothing is saved.  A "train" phase never
    updates. *)
Theorem best_checkpoint_update ep phase st st' :
  run_phase a ep phase st = Return st' ->
  exists st1 m new,
    phase_metrics a phase st = Return (st1, m) /\
    trace st' = trace st ++ new /\
    state_dict st' = state_dict st1 /\
    let better :=
      (epoch_loss m <? val_loss (best_metrics st))%float
      || (val_recall (best_metrics st) <? epoch_recall m)%float in
    (saves new <> [] <-> phase = "val" /\ better = true) /\
    (phase = "val" /\ better = true ->
       best_metrics st' =
         {| epoch := ep + 1; val_loss := epoch_loss m;
            val_accuracy := epoch_accuracy m; val_precision := epoch_precision m;
            val_recall := epoch_recall m; val_f1 := epoch_f1 m |} /\
       best_model_wts st' = Copy (state_dict st1) /\
       saves new = [state_dict st1] /\
       files st' = <[output_filename a := state_dict st1]> (files st) /\
       patience_left st' = patience a) /\
    (~ (phase = "val" /\ better = true) ->
       best_metrics st' = best_metrics st /\
       best_model_wts st' = best_model_wts st /\
       saves new = [] /\
       files st' = files st).
Proof.
  intros H.
  apply run_phase_summary in H as (st1 & m & new & Hm & Hs & Htr & _ & _ & Hc).
  exists st1, m, new. split; [exact Hm|]. split; [exact Htr|]. split; [exact Hs|].
  destruct (phase_metrics_frame _ _ _ _ _ Hm) as (Fb & _).
  unfold improved in Hc. rewrite Fb in Hc. cbv zeta.
  set (better := (_ || _)%bool) in *.
  destruct (String.eqb_spec phase "val") as [Hv|Hv]; simpl in Hc.
  - destruct better.
    + destruct Hc as (Cs & Cb & Cw & Cf & Cp). rewrite Cs.
      split; [split; [auto | discriminate]|].
      split; [auto 10|]. intros Hn. exfalso. apply Hn. auto.
    + destruct Hc as (Cs & Cb & Cw & Cf & Cp). rewrite Cs.
      split; [split; [congruence | intros [_ [=]]]|].
      split; [intros [_ [=]] | auto].
  - destruct Hc as (Cs & Cb & Cw & Cf & Cp). rewrite Cs.
    split; [split; [congruence | intros [? _]; contradiction]|].
    split; [intros [? _]; contradiction | auto].
Qed.

(** C2.  The patience left starts at [patience]; a phase that completes
    leaves it alone when it is a "train" phase, resets it to [patience] when
    it is a "val" phase that updates the best checkpoint, and takes one off
    otherwise; and in a run of [train_model] that returns, every epoch but
    the last one run ended with patience left, the run goes through fewer
    than [num_epochs] epochs only when the last one ended with none left,
    and the notice of an early stop is printed exactly when the last epoch
    ended with none left. *)
Theorem patience_counter :
  (forall w mode g o fs, patience_left (enter a w mode g o fs) = patience a) /\
  (forall ep phase st st',
      run_phase a ep phase st = Return st' ->
      exists st1 m,
        phase_metrics a phase st = Return (st1, m) /\
        patience_left st' =
          if (phase =? "val")%string
          then (if (epoch_loss m <? val_loss (best_metrics st))%float
                   || (val_recall (best_metrics st) <? epoch_recall m)%float
                then patience a
                else patience_left st - 1)
          else patience_left st) /\
  (forall w mode g o fs st',
      train_model a w mode g o fs = Return st' ->
      let ps := val_patience (trace st') in
      (length ps <= Z.to_nat (num_epochs a))%nat /\
      (forall i p, ps !! i = Some p -> (S i < length ps)%nat -> 0 < p) /\
      ((length ps < Z.to_nat (num_epochs a))%nat -> ran_out ps = true) /\
      notices (trace st') = (if ran_out ps then [OutOfPatience] else [])).
Proof.
  split; [reflexivity|]. split.
  - intros ep phase st st' H.
    apply run_phase_summary in H as (st1 & m & new & Hm & _ & _ & _ & _ & Hc).
    exists st1, m. split; [exact Hm|].
    destruct (phase_metrics_frame _ _ _ _ _ Hm) as (Fb & _).
    unfold improved in Hc. rewrite Fb in Hc.
    destruct (phase =? "val")%string; simpl in Hc.
    + destruct (_ || _)%bool; apply Hc.
    + apply Hc.
  - intros w mode g o fs st' H. unfold train_model in H.
    apply bind_Return in H as (st & H & E). injection E as <-.
    apply epoch_loop_stops in H as (new & Htr & Hlen & Hpos & Hshort & Hnot & _).
    simpl in Htr. subst new.
    assert (Ev : val_patience (trace (leave st)) = val_patience (trace st)).
    { unfold leave, val_patience. simpl. rewrite <- !app_assoc, omap_app. simpl.
      apply app_nil_r. }
    assert (En : notices (trace (leave st)) = notices (trace st)).
    { unfold leave, notices. simpl. rewrite <- !app_assoc, omap_app. simpl.
      apply app_nil_r. }
    cbv zeta. rewrite Ev, En. auto.
Qed.

(** C3.  When [train_model] returns, the state dict of the model is the one
    last saved as the best validation snapshot, and the file at
    [output_filename] holds it; when nothing was ever saved, it is the
    state dict the model had on entry.  The best weights are a copy, which
    the training steps after the save do not touch. *)
Theorem best_weights_restored w mode g o fs st' :
  train_model a w mode g o fs = Return st' ->
  state_dict st' = default w (last (saves (trace st'))) /\
  best_model_wts st' = Copy (state_dict st') /\
  (forall wb, last (saves (trace st')) = Some wb ->
              files st' !! output_filename a = Some wb) /\
  (saves (trace st') = [] -> state_dict st' = w).
Proof.
  intros H. unfold train_model in H.
  apply bind_Return in H as (st & H & E). injection E as <-.
  apply (epoch_loop_snapshot_inv a w) in H as [Hw Hf].
  2:{ split; [reflexivity|]. simpl. discriminate. }
  assert (Es : saves (trace (leave st)) = saves (trace st)).
  { unfold leave, saves. simpl. rewrite <- !app_assoc, omap_app. simpl.
    apply app_nil_r. }
  assert (Ed : state_dict (leave st) = default w (last (saves (trace st)))).
  { unfold leave. simpl. rewrite Hw. reflexivity. }
  rewrite Es. repeat split.
  - exact Ed.
  - rewrite Ed. exact Hw.
  - exact Hf.
  - intros E. rewrite Ed, E. reflexivity.
Qed.

(** C4.  The loss a phase that completes reports is the running loss, the
    sum over its batches, in order, of the batch loss (the value of the
    criterion on the outputs and labels of the batch) times the batch
    length, one term per batch, divided by the size [dataset_sizes] gives
    for the phase, and not by the number of batches; that size is one the
    division of line 74 accepts, neither zero nor too large for a float. *)
Theorem epoch_loss_weighted ep phase st st' :
  run_phase a ep phase st = Return st' ->
  exists new batches us size loss recall p,
    trace st' = trace st ++ new /\
    dataloaders a !! phase = Some batches /\
    unpacked a batches us /\
    dataset_sizes a !! phase = Some size /\
    size <> 0 /\
    is_infinity (float_of_int size) = false /\
    printed new = [PhaseLine ep (num_epochs a - 1) phase loss recall p] /\
    map snd (terms new) = map (fun u => tensor_len u.1.1) us /\
    map fst (terms new)
    = map (fun c => item (the_criterion a (phase =? "train")%string c.1 c.2))
          (criterion_calls new) /\
    loss = (weighted_sum (terms new) / float_of_int size)%float.
Proof.
  intros H. apply run_phase_inv in H as (st1 & m & Hm & ->).
  destruct (phase_metrics_losses a _ _ _ _ Hm) as (new0 & Htr0 & Hlo).
  pose proof (fun size => phase_metrics_size a _ _ _ _ size Hm) as Hsize.
  apply phase_metrics_trace in Hm
    as (batches & us & size & newb & Hb & Hu & Hs & _ & Htr & Hbe & _ & _ & _ & Ht & _ & ->).
  destruct (Hsize _ Hs) as (Hz & Hfin).
  assert (new0 = [if (phase =? "train")%string then ModelTrain else ModelEval] ++ newb)
    by (rewrite Htr in Htr0; apply app_inv_head in Htr0; auto).
  subst new0.
  apply batch_event_silent in Hbe as (_ & Hpr & _ & _).
  pose proof (update_best_cases a ep phase
                {| epoch_loss := (weighted_sum (terms newb) / float_of_int size)%float;
                   epoch_accuracy := accuracy_score (collected_labels newb) (collected_preds newb);
                   epoch_precision :=
                     precision_score (collected_labels newb) (collected_preds newb) 0 "macro";
                   epoch_recall :=
                     recall_score (collected_labels newb) (collected_preds newb) 0 "macro";
                   epoch_f1 := f1_score (collected_labels newb) (collected_preds newb) 0 "macro" |}
                st1) as (_ & _ & _ & _ & Hc).
  set (m := {| epoch_loss := _ |}) in *.
  assert (Hex : exists mid, trace (update_best a ep phase m st1) = trace st1 ++ mid /\
                  printed mid = [] /\ terms mid = [] /\ criterion_calls mid = []).
  { destruct ((phase =? "val")%string && improved m st1).
    - destruct Hc as (_ & _ & _ & _ & ->). eexists. split; [reflexivity|]. auto.
    - destruct Hc as (_ & _ & _ & _ & ->). exists []. rewrite app_nil_r. auto. }
  destruct Hex as (mid & Hmid & Hpm & Htm & Hcm).
  eexists. exists batches, us, size. do 3 eexists. simpl.
  split; [rewrite Hmid, Htr, <- !app_assoc; reflexivity|].
  unfold printed, terms, criterion_calls in *.
  rewrite !omap_app in Hlo.
  rewrite !omap_app, Hpr, Hpm, Htm, Hcm, !app_nil_r.
  destruct (phase =? "train")%string; simpl in *; auto 12.
Qed.

(** C5.  With [num_epochs = 0] the call returns at once: the model is
    called on no batch, the optimizer takes no step, nothing is saved, and
    the state dict loaded back into the model is the one it had on entry. *)
Theorem no_epochs w mode g o fs :
  num_epochs a = 0 ->
  train_model a w mode g o fs =
    Return {| state_dict := w; training := mode; grad := g; optimizer := o;
              best_metrics := {| epoch := 0; val_loss := infinity; val_accuracy := 0;
                                 val_precision := 0; val_recall := 0; val_f1 := 0 |};
              best_model_wts := Copy w;
              patience_left := patience a;
              files := fs;
              trace := [Print TrainingComplete;
                        Print (BestMetricsAt
                                 {| epoch := 0; val_loss := infinity; val_accuracy := 0;
                                    val_precision := 0; val_recall := 0; val_f1 := 0 |});
                        LoadStateDict w] |}.
Proof.
  intros H. unfold train_model. rewrite H. reflexivity.
Qed.

(** C6, as amended.  With [num_epochs >= 1]: without a "train" loader the
    call raises [KeyError "train"]; without a "val" loader, the first
    "train" phase having completed, it raises [KeyError "val"]; and with a
    batch of the wrong length for [use_features] in the "train" loader, or
    in the "val" loader, the first "train" phase having completed, it raises
    [ValueError].  The error is the result of the call. *)
Theorem missing_phase_or_arity w mode g o fs :
  1 <= num_epochs a ->
  (dataloaders a !! "train" = None ->
     train_model a w mode g o fs = Raise (KeyError "train")) /\
  (forall st1,
     run_phase a 0 "train" (enter a w mode g o fs) = Return st1 ->
     dataloaders a !! "val" = None ->
     train_model a w mode g o fs = Raise (KeyError "val")) /\
  (forall batches,
     dataloaders a !! "train" = Some batches ->
     Exists (arity_mismatch a) batches ->
     train_model a w mode g o fs = Raise ValueError) /\
  (forall st1 batches,
     run_phase a 0 "train" (enter a w mode g o fs) = Return st1 ->
     dataloaders a !! "val" = Some batches ->
     Exists (arity_mismatch a) batches ->
     train_model a w mode g o fs = Raise ValueError).
Proof.
  intros Hn. unfold train_model.
  destruct (Z.to_nat (num_epochs a)) as [|n] eqn:En; [lia|].
  cbn [epoch_loop phase_loop].
  repeat split.
  - intros Hb. unfold run_phase, phase_metrics, getitem. rewrite Hb. reflexivity.
  - intros st1 H1 Hb. rewrite H1. cbn [mbind Py_bind].
    unfold run_phase, phase_metrics, getitem. rewrite Hb. reflexivity.
  - intros batches Hb Hex. unfold run_phase, phase_metrics, getitem. rewrite Hb.
    cbn [mbind Py_bind]. rewrite (batch_loop_mismatch a _ _ _ _ Hex). reflexivity.
  - intros st1 batches H1 Hb Hex. rewrite H1. cbn [mbind Py_bind].
    unfold run_phase, phase_metrics, getitem. rewrite Hb.
    cbn [mbind Py_bind]. rewrite (batch_loop_mismatch a _ _ _ _ Hex). reflexivity.
Qed.

(** C7.  The macro precision, recall and F1 of a phase that completes are
    what sklearn's three scores return, called with [zero_division=0] and
    [average='macro'] on all the labels, those of all the batches of the
    loader, and all the predictions the phase has collected.  Given what
    sklearn promises of these three calls, each of them stands for the
    macro-averaged score the specification describes; and that score is the
    sum of the per-class quotients over the classes that have true members
    and predicted members, divided by the number of all the classes met: a
    class without true members or without predicted members counts in the
    mean, with a score of zero. *)
Theorem macro_scores phase st st1 m new :
  phase_metrics a phase st = Return (st1, m) ->
  trace st1 = trace st ++ new ->
  let y_true := collected_labels new in
  let y_pred := collected_preds new in
  let k := length (Metrics.classes y_true y_pred) in
  let n := inject_Z (Z.of_nat k) in
  let live := Metrics.populated y_true y_pred in
  let hits c := Metrics.tp_sum y_true y_pred c in
  let trues c := Metrics.true_sum y_true y_pred c in
  let preds c := Metrics.pred_sum y_true y_pred c in
  length y_true = length y_pred ->
  macro_contract y_true y_pred ->
  (exists batches us,
      dataloaders a !! phase = Some batches /\
      unpacked a batches us /\
      y_true = concat (map (fun u => numpy (placed a u.1.2)) us)) /\
  epoch_precision m = precision_score y_true y_pred 0 "macro" /\
  epoch_recall m = recall_score y_true y_pred 0 "macro" /\
  epoch_f1 m = f1_score y_true y_pred 0 "macro" /\
  Metrics.stands_for k (epoch_precision m) (Metrics.macro_precision 0 y_true y_pred) = true /\
  Metrics.stands_for k (epoch_recall m) (Metrics.macro_recall 0 y_true y_pred) = true /\
  Metrics.stands_for k (epoch_f1 m) (Metrics.macro_f1 0 y_true y_pred) = true /\
  (Metrics.macro_precision 0 y_true y_pred
   == Metrics.total (fun c => inject_Z (hits c) / inject_Z (preds c)) live / n)%Q /\
  (Metrics.macro_recall 0 y_true y_pred
   == Metrics.total (fun c => inject_Z (hits c) / inject_Z (trues c)) live / n)%Q /\
  (Metrics.macro_f1 0 y_true y_pred
   == Metrics.total (fun c => inject_Z (2 * hits c) / inject_Z (trues c + preds c)) live / n)%Q.
Proof.
  intros H Htr y_true y_pred k n live hits trues preds Hlen (HP & HR & HF).
  apply phase_metrics_trace in H
    as (batches & us & size & newb & Hb & Hu & _ & _ & Htr' & _ & _ & _ & _ & _ & Hcl & ->).
  assert (E : new = [if (phase =? "train")%string then ModelTrain else ModelEval] ++ newb)
    by (rewrite Htr in Htr'; apply app_inv_head in Htr'; exact Htr').
  assert (Ey : collected_labels newb = y_true /\ collected_preds newb = y_pred).
  { unfold y_true, y_pred, collected_labels, collected_preds, criterion_calls.
    rewrite E, omap_app. destruct (phase =? "train")%string; simpl; auto. }
  destruct Ey as [Et Ep]. simpl. rewrite Et, Ep.
  split.
  { exists batches, us. split; [exact Hb|]. split; [exact Hu|].
    rewrite <- Et. unfold collected_labels.
    rewrite <- (map_map snd numpy), Hcl, map_map. reflexivity. }
  do 3 (split; [reflexivity|]).
  do 3 (split; [assumption|]).
  exact (MetricsFacts.macro_populated y_true y_pred Hlen).
Qed.

(** C8.  In a "train" phase every batch is followed by one [backward] and
    one optimizer step, and the model is called with the grad mode on.  In a
    "val" phase there is neither, and the model is called with the grad mode
    off.  Given what torch promises of eval mode, the state dict of the
    model is at the end of a "val" phase what it was at its start; and,
    given that the grad mode does not change the values computed, the same
    phase run with the grad mode on goes through as well and ends with the
    same metrics and the same state dict. *)
Theorem updates_only_in_train :
  (forall st st1 m,
      phase_metrics a "train" st = Return (st1, m) ->
      exists new us batches,
        dataloaders a !! "train" = Some batches /\ unpacked a batches us /\
        trace st1 = trace st ++ new /\
        updates new = concat (map (fun _ => [Backward; OptimizerStep]) us) /\
        map (fun c => c.1.1) (model_calls new) = map (fun _ => true) us) /\
  (forall st st1 m,
      phase_metrics a "val" st = Return (st1, m) ->
      exists new us batches,
        dataloaders a !! "val" = Some batches /\ unpacked a batches us /\
        trace st1 = trace st ++ new /\
        updates new = [] /\
        map (fun c => c.1.1) (model_calls new) = map (fun _ => false) us) /\
  (@EvalLaws T ->
   forall st st1 m,
     phase_metrics a "val" st = Return (st1, m) ->
     state_dict st1 = state_dict st) /\
  (@EvalLaws T -> no_grad_loss a ->
   forall st st1 m,
     phase_metrics a "val" st = Return (st1, m) ->
     exists batches size st2 acc,
       dataloaders a !! "val" = Some batches /\
       dataset_sizes a !! "val" = Some size /\
       batch_loop a true "val" batches (set_mode "val" st, acc0) = Return (st2, acc) /\
       m = metrics_of acc size /\
       state_dict st2 = state_dict st1).
Proof.
  repeat split.
  - intros st st1 m Hm.
    apply phase_metrics_trace in Hm
      as (batches & us & size & newb & Hb & Hu & _ & _ & Htr & _ & Hc & _ & Hup & _).
    eexists. exists us, batches.
    split; [exact Hb|]. split; [exact Hu|]. split; [exact Htr|].
    unfold updates, model_calls in *. rewrite !omap_app, Hup, Hc. simpl.
    rewrite map_map. auto.
  - intros st st1 m Hm.
    apply phase_metrics_trace in Hm
      as (batches & us & size & newb & Hb & Hu & _ & _ & Htr & _ & Hc & _ & Hup & _).
    eexists. exists us, batches.
    split; [exact Hb|]. split; [exact Hu|]. split; [exact Htr|].
    unfold updates, model_calls in *. rewrite !omap_app, Hup, Hc. simpl.
    rewrite map_map. auto.
  - intros L st st1 m Hm.
    apply phase_metrics_inv in Hm as (batches & acc & size & _ & Hl & _).
    exact (batch_loop_eval_state a false "val" batches
             (set_mode "val" st, acc0) (st1, acc) eq_refl eq_refl Hl).
  - intros L Hloss st st1 m Hm.
    apply phase_metrics_inv in Hm as (batches & acc & size & Hb & Hl & Hs & _ & Em).
    destruct (batch_loop_no_grad a "val" batches _ (set_mode "val" st) _ _ _
                Hloss eq_refl ltac:(repeat split) Hl) as (st2 & Hl2 & Hag).
    exists batches, size, st2, acc.
    repeat (split; [assumption|]). symmetry. apply Hag.
Qed.

(** C9.  With [use_gpu] set, what a phase moves to the device is the labels
    of its batches, one after the other, and nothing else; the model is
    called on the image (and on the features, with [use_features]) exactly
    as the batch holds them, and the criterion on the labels as moved. *)
Theorem only_labels_moved phase st st1 m :
  use_gpu a = true ->
  phase_metrics a phase st = Return (st1, m) ->
  exists new us batches,
    dataloaders a !! phase = Some batches /\
    unpacked a batches us /\
    trace st1 = trace st ++ new /\
    moved new = map (fun u => u.1.2) us /\
    map (fun c => (c.1.2, c.2)) (model_calls new) = map (fun u => (u.1.1, u.2)) us /\
    map snd (criterion_calls new) = map (fun u => tensor_to u.1.2 (device a)) us.
Proof.
  intros Hgpu Hm.
  apply phase_metrics_trace in Hm
    as (batches & us & size & newb & Hb & Hu & _ & _ & Htr & _ & Hc & Hmv & _ & _ & Hcl & _).
  eexists. exists us, batches.
  split; [exact Hb|]. split; [exact Hu|]. split; [exact Htr|].
  unfold moved, model_calls, criterion_calls, placed in *.
  rewrite Hgpu in *.
  assert (Hmode : forall {B : Type} (f : Event -> option B),
             f ModelTrain = None -> f ModelEval = None ->
             omap f ([if (phase =? "train")%string then ModelTrain else ModelEval] ++ newb)
             = omap f newb).
  { intros B f H1 H2. destruct (phase =? "train")%string; simpl; rewrite ?H1, ?H2; reflexivity. }
  rewrite !Hmode by reflexivity.
  rewrite Hmv, Hc, Hcl, map_map. auto.
Qed.

(** C10.  With [patience <= 0] and [num_epochs >= 1] the call runs the two
    phases of the first epoch and stops: it is the first epoch followed by
    the notice and the restoration of the best weights, whatever
    validation gave; a run that returns has printed one "val" line, with a
    patience left of zero or less, and the notice. *)
Theorem no_patience_one_epoch w mode g o fs :
  patience a <= 0 -> 1 <= num_epochs a ->
  train_model a w mode g o fs =
    (st ← phase_loop a 0 ["train"; "val"] (enter a w mode g o fs);
     Return (leave (emit (Print OutOfPatience) st))) /\
  forall st', train_model a w mode g o fs = Return st' ->
    val_patience (trace st') = [patience_left st'] /\
    patience_left st' <= 0 /\
    notices (trace st') = [OutOfPatience].
Proof.
  intros Hp Hn.
  assert (E : train_model a w mode g o fs =
              (st ← phase_loop a 0 ["train"; "val"] (enter a w mode g o fs);
               Return (leave (emit (Print OutOfPatience) st)))).
  { unfold train_model.
    destruct (Z.to_nat (num_epochs a)) as [|n] eqn:En; [lia|].
    cbn [epoch_loop].
    destruct (phase_loop a 0 ["train"; "val"] (enter a w mode g o fs)) as [st|e] eqn:Hl;
      [|reflexivity].
    apply epoch_summary in Hl as (new & _ & _ & _ & Hpl). simpl in Hpl.
    cbn [mbind Py_bind].
    destruct (Z.leb_spec (patience_left st) 0); [reflexivity | lia]. }
  split; [exact E|].
  intros st' H. rewrite E in H.
  apply bind_Return in H as (st & Hl & H). injection H as <-.
  apply epoch_summary in Hl as (new & Htr & Hv & Hno & Hpl). simpl in Htr, Hpl.
  subst new. unfold leave, val_patience, notices in *. simpl.
  rewrite <- !app_assoc, !omap_app, Hv, Hno. simpl.
  repeat split. lia.
Qed.

End Claims.

(** * Further properties *)

Section MoreFacts.
Context {T : Torch} {K : Sklearn}.
Variable a : Args.

(** ** The batches, once more *)

Lemma batch_event_quiet (tr : list Event) :
  forallb batch_event tr = true ->
  scheduler_steps tr = [] /\ loads tr = [] /\ phase_lines tr = [] /\ val_lines tr = [].
Proof.
  induction tr as [|e tr IH]; simpl; [auto|].
  intros H. apply andb_prop in H as [He Htr].
  destruct (IH Htr) as (IH1 & IH2 & IH3 & IH4).
  unfold scheduler_steps, loads, phase_lines, val_lines in *. simpl.
  destruct e; simpl in He; try discriminate; auto.
Qed.

(** The gradients are cleared once per batch, whatever the phase. *)
Lemma batch_loop_zero_grads grad_enabled phase batches s s' :
  batch_loop a grad_enabled phase batches s = Return s' ->
  exists new,
    trace s'.1 = trace s.1 ++ new /\
    length (zero_grads new) = length batches.
Proof.
  revert batches s s'.
  apply (batch_loop_rule a grad_enabled phase
           (fun s s' batches =>
              exists new,
                trace s'.1 = trace s.1 ++ new /\
                length (zero_grads new) = length batches)).
  - intros s. exists []. rewrite app_nil_r. auto.
  - intros [st acc] [st1 acc1] [st2 acc2] data rest H1 _ IH. simpl in *.
    apply batch_body_spec in H1 as (image & labels & features & _ & Htr & _).
    destruct IH as (new & IHtr & IHl).
    eexists. split; [rewrite IHtr, Htr, <- app_assoc; reflexivity|].
    unfold zero_grads in *. rewrite omap_app, length_app, IHl.
    unfold batch_events.
    destruct (use_gpu a), (phase =? "train")%string; reflexivity.
Qed.

(** Outside a "train" phase a batch leaves the optimizer alone. *)
Lemma batch_body_optimizer grad_enabled phase data s s' :
  (phase =? "train")%string = false ->
  batch_body a grad_enabled phase data s = Return s' ->
  optimizer s'.1 = optimizer s.1.
Proof.
  intros Hph H. unfold batch_body in H. rewrite Hph in H.
  apply bind_Return in H as ([[image labels] features] & _ & H).
  simpl in H. unfold call_model in H.
  destruct (use_gpu a); simpl in H; injection H as <-; reflexivity.
Qed.

Lemma batch_loop_optimizer grad_enabled phase batches s s' :
  (phase =? "train")%string = false ->
  batch_loop a grad_enabled phase batches s = Return s' ->
  optimizer s'.1 = optimizer s.1.
Proof.
  intros Hph. revert batches s s'.
  apply (batch_loop_rule a grad_enabled phase
           (fun s s' _ => optimizer s'.1 = optimizer s.1)).
  - reflexivity.
  - intros s s1 s2 data rest H1 _ IH.
    rewrite IH. eapply batch_body_optimizer; eauto.
Qed.

(** ** The shape of a phase *)

Lemma run_phase_shape ep phase st st' :
  run_phase a ep phase st = Return st' ->
  exists st1 m batches newb,
    phase_metrics a phase st = Return (st1, m) /\
    dataloaders a !! phase = Some batches /\
    forallb batch_event newb = true /\
    length (model_calls newb) = length batches /\
    length (zero_grads newb) = length batches /\
    length (updates newb)
      = (if (phase =? "train")%string then 2 * length batches else 0)%nat /\
    trace st'
      = trace st ++ [mode_event phase] ++ newb ++ save_events a phase m st1
        ++ [Print (PhaseLine ep (num_epochs a - 1) phase (epoch_loss m) (epoch_recall m)
                     (patience_left st'))] /\
    training st' = (phase =? "train")%string /\
    ((phase =? "train")%string = false -> optimizer st' = optimizer st) /\
    best_metrics st1 = best_metrics st /\
    files st1 = files st /\
    if (phase =? "val")%string && improved m st1
    then best_metrics st' = new_best ep m /\
         files st' = <[output_filename a := state_dict st1]> (files st)
    else best_metrics st' = best_metrics st /\ files st' = files st.
Proof.
  intros H. apply run_phase_inv in H as (st1 & m & Hm & ->).
  destruct (phase_metrics_frame a _ _ _ _ Hm) as (Fb & _ & _ & Ff & _).
  destruct (phase_metrics_inv a _ _ _ _ Hm) as (batches & acc & size & Hb & Hl & _).
  destruct (batch_loop_frame a _ _ _ _ _ Hl) as (Ftr & _ & _ & _ & _ & newb & Htr & Hbe).
  destruct (batch_loop_calls a _ _ _ _ _ Hl) as (us & new1 & Hu & Htr1 & Hc & _ & Hup & _).
  destruct (batch_loop_zero_grads _ _ _ _ _ Hl) as (new2 & Htr2 & Hz).
  simpl in *.
  assert (new1 = newb) by (rewrite Htr in Htr1; apply app_inv_head in Htr1; auto).
  assert (new2 = newb) by (rewrite Htr in Htr2; apply app_inv_head in Htr2; auto).
  subst new1 new2.
  pose proof (Forall2_length _ _ _ Hu) as Hlen.
  pose proof (update_best_cases a ep phase m st1) as (_ & Ut & _ & Uo & Hc').
  exists st1, m, batches, newb.
  split; [exact Hm|]. split; [exact Hb|]. split; [exact Hbe|].
  split; [rewrite Hc, length_map; congruence|].
  split; [exact Hz|].
  split.
  { rewrite Hup. destruct (phase =? "train")%string; [|reflexivity].
    rewrite Hlen. clear. induction us as [|u us IH]; simpl; [reflexivity|].
    rewrite IH. lia. }
  rewrite trace_set_mode in Htr. fold (mode_event phase) in Htr.
  split.
  { unfold save_events. destruct ((phase =? "val")%string && improved m st1).
    - destruct Hc' as (_ & _ & _ & _ & ->). rewrite Htr, <- !app_assoc. reflexivity.
    - destruct Hc' as (_ & _ & _ & _ & ->). rewrite Htr, <- !app_assoc. reflexivity. }
  split.
  { rewrite Ut, Ftr. unfold set_mode. destruct (phase =? "train")%string; reflexivity. }
  split.
  { intros Hph. rewrite Uo.
    pose proof (batch_loop_optimizer _ _ _ _ _ Hph Hl) as Ho. simpl in Ho.
    rewrite Ho. unfold set_mode. rewrite Hph. reflexivity. }
  split; [exact Fb|]. split; [exact Ff|].
  destruct ((phase =? "val")%string && improved m st1).
  - destruct Hc' as (Cb & _ & Cf & _). rewrite Cb, Cf, Ff. auto.
  - destruct Hc' as (Cb & _ & Cf & _). rewrite Cb, Cf, Fb, Ff. auto.
Qed.

(** ** The shape of an epoch *)

Lemma epoch_shape ep st st' :
  phase_loop a ep ["train"; "val"] st = Return st' ->
  exists new bt bv loss recall,
    dataloaders a !! "train" = Some bt /\
    dataloaders a !! "val" = Some bv /\
    trace st' = trace st ++ new /\
    val_patience new = [patience_left st'] /\
    notices new = [] /\
    scheduler_steps new = [] /\
    loads new = [] /\
    length (model_calls new) = (length bt + length bv)%nat /\
    length (zero_grads new) = (length bt + length bv)%nat /\
    length (updates new) = (2 * length bt)%nat /\
    phase_lines new = [(ep, num_epochs a - 1, "train"); (ep, num_epochs a - 1, "val")] /\
    val_lines new = [(loss, recall)] /\
    training st' = false /\
    (patience_left st' = patience a \/ patience_left st' = patience_left st - 1) /\
    if (loss <? val_loss (best_metrics st))%float
       || (val_recall (best_metrics st) <? recall)%float
    then exists w,
           saves new = [w] /\
           epoch (best_metrics st') = ep + 1 /\
           files st' = <[output_filename a := w]> (files st)
    else saves new = [] /\
         best_metrics st' = best_metrics st /\
         files st' = files st.
Proof.
  intros H.
  destruct (epoch_summary a _ _ _ H) as (new0 & Htr0 & Hv0 & Hn0 & Hpl).
  apply phase_loop_inv in H as (s1 & H1 & H2).
  apply run_phase_shape in H1
    as (t1 & m1 & bt & nb1 & _ & Hbt & Hbe1 & Hc1 & Hz1 & Hu1 & Htr1 & _ & _ & Fb1 & _ & Hk1).
  apply run_phase_shape in H2
    as (t2 & m2 & bv & nb2 & _ & Hbv & Hbe2 & Hc2 & Hz2 & Hu2 & Htr2 & Hmode & _ & Fb2 & _ & Hk2).
  simpl in Hk1, Hk2, Hu1, Hu2, Hmode. destruct Hk1 as (Kb1 & Kf1).
  rewrite Htr1, <- !app_assoc in Htr2.
  rewrite Htr2 in Htr0. apply app_inv_head in Htr0.
  destruct (batch_event_silent _ Hbe1) as (S1 & _ & _ & _).
  destruct (batch_event_silent _ Hbe2) as (S2 & _ & _ & _).
  destruct (batch_event_quiet _ Hbe1) as (Q1 & L1 & P1 & V1).
  destruct (batch_event_quiet _ Hbe2) as (Q2 & L2 & P2 & V2).
  exists new0, bt, bv, (epoch_loss m2), (epoch_recall m2).
  split; [exact Hbt|]. split; [exact Hbv|].
  split; [rewrite Htr2, Htr0; reflexivity|].
  split; [exact Hv0|]. split; [exact Hn0|].
  unfold save_events, mode_event in Htr0. simpl in Htr0.
  unfold improved in *. rewrite Fb2, Kb1 in Hk2, Htr0.
  set (better := (_ || _)%bool) in *.
  assert (Hcount : forall {B : Type} (f : Event -> option B),
             f ModelTrain = None -> f ModelEval = None ->
             (forall w n, f (TorchSave w n) = None) ->
             (forall l, f (Print l) = None) ->
             omap f new0 = omap f nb1 ++ omap f nb2).
  { intros B f F1 F2 F3 F4. rewrite <- Htr0. simpl.
    rewrite F1, omap_app. simpl. rewrite F4, F2, !omap_app.
    destruct better; simpl; rewrite ?F3, ?F4, ?app_nil_r; reflexivity. }
  split.
  { unfold scheduler_steps in *. rewrite Hcount, Q1, Q2 by reflexivity. reflexivity. }
  split.
  { unfold loads in *. rewrite Hcount, L1, L2 by reflexivity. reflexivity. }
  split.
  { unfold model_calls in *. rewrite Hcount, length_app, Hc1, Hc2 by reflexivity.
    reflexivity. }
  split.
  { unfold zero_grads in *. rewrite Hcount, length_app, Hz1, Hz2 by reflexivity.
    reflexivity. }
  split.
  { unfold updates in *. rewrite Hcount, length_app, Hu1, Hu2 by reflexivity. lia. }
  split.
  { rewrite <- Htr0. unfold phase_lines in *. simpl.
    rewrite omap_app, P1. simpl. rewrite !omap_app, P2.
    destruct better; reflexivity. }
  split.
  { rewrite <- Htr0. unfold val_lines in *. simpl.
    rewrite omap_app, V1. simpl. rewrite !omap_app, V2.
    destruct better; reflexivity. }
  split; [exact Hmode|]. split; [exact Hpl|].
  destruct better.
  - destruct Hk2 as (Kb2 & Kf2). exists (state_dict t2).
    split; [|split].
    + rewrite <- Htr0. unfold saves in *. simpl.
      rewrite omap_app, S1. simpl. rewrite !omap_app, S2. reflexivity.
    + rewrite Kb2. reflexivity.
    + rewrite Kf2, Kf1. reflexivity.
  - destruct Hk2 as (Kb2 & Kf2).
    split; [|split].
    + rewrite <- Htr0. unfold saves in *. simpl.
      rewrite omap_app, S1. simpl. rewrite !omap_app, S2. reflexivity.
    + exact Kb2.
    + rewrite Kf2, Kf1. reflexivity.
Qed.

(** ** The shape of the loop over epochs *)

Lemma scheduler_step_shape st :
  trace (scheduler_step a st) = trace st ++ scheduler_events a /\
  state_dict (scheduler_step a st) = state_dict st /\
  training (scheduler_step a st) = training st /\
  best_metrics (scheduler_step a st) = best_metrics st /\
  patience_left (scheduler_step a st) = patience_left st /\
  files (scheduler_step a st) = files st.
Proof.
  unfold scheduler_step, scheduler_events. destruct (scheduler a); simpl.
  - auto 10.
  - rewrite app_nil_r. auto 10.
Qed.

(** An induction rule for the runs of the loop over epochs that return,
    along what they append to the trace: nothing for no epoch; an epoch
    and the notice, when the epoch ends without patience; an epoch, the
    step of the scheduler and the rest of the run otherwise. *)
Lemma epoch_loop_trace_rule (R : nat -> Z -> State -> State -> list Event -> Prop) :
  (forall ep st, R O ep st st []) ->
  (forall n ep st st1 new1,
      phase_loop a ep ["train"; "val"] st = Return st1 ->
      trace st1 = trace st ++ new1 ->
      patience_left st1 <= 0 ->
      R (S n) ep st (emit (Print OutOfPatience) st1) (new1 ++ [Print OutOfPatience])) ->
  (forall n ep st st1 st' new1 new2,
      phase_loop a ep ["train"; "val"] st = Return st1 ->
      trace st1 = trace st ++ new1 ->
      0 < patience_left st1 ->
      epoch_loop a n (ep + 1) (scheduler_step a st1) = Return st' ->
      trace st' = trace (scheduler_step a st1) ++ new2 ->
      R n (ep + 1) (scheduler_step a st1) st' new2 ->
      R (S n) ep st st' (new1 ++ scheduler_events a ++ new2)) ->
  forall n ep st st',
    epoch_loop a n ep st = Return st' ->
    exists new, trace st' = trace st ++ new /\ R n ep st st' new.
Proof.
  intros Hbase Hbreak Hcont n.
  induction n as [|n IH]; intros ep st st' H.
  - injection H as <-. exists []. rewrite app_nil_r. auto.
  - apply epoch_loop_inv in H as (st1 & H1 & H).
    destruct (epoch_summary a _ _ _ H1) as (new1 & Htr1 & _).
    destruct H as [[Hle ->]|[Hlt H]].
    + exists (new1 ++ [Print OutOfPatience]). split.
      * simpl. rewrite Htr1, <- app_assoc. reflexivity.
      * eapply Hbreak; eauto.
    + destruct (IH _ _ _ H) as (new2 & Htr2 & HR).
      destruct (scheduler_step_shape st1) as (Hs & _).
      exists (new1 ++ scheduler_events a ++ new2). split.
      * rewrite Htr2, Hs, Htr1, <- !app_assoc. reflexivity.
      * eapply Hcont; eauto.
Qed.

(** What [train_model] returns is the state the loop ends in, the best
    weights loaded back; its trace is the one of the loop, then the
    summary and the load. *)
Lemma train_model_inv w mode g o fs st' :
  train_model a w mode g o fs = Return st' ->
  exists st,
    epoch_loop a (Z.to_nat (num_epochs a)) 0 (enter a w mode g o fs) = Return st /\
    st' = leave st /\
    trace st' = trace st ++ leave_events st /\
    training st' = training st /\
    optimizer st' = optimizer st /\
    best_metrics st' = best_metrics st /\
    files st' = files st.
Proof.
  unfold train_model. intros H.
  apply bind_Return in H as (st & H & E). injection E as <-.
  exists st. split; [exact H|]. split; [reflexivity|].
  unfold leave, leave_events. simpl. rewrite <- !app_assoc. auto 10.
Qed.

Lemma ran_out_cons (p : Z) (ps : list Z) :
  0 < p -> ran_out (p :: ps) = ran_out ps.
Proof.
  intros Hp. unfold ran_out. rewrite last_cons.
  destruct (last ps); [reflexivity|].
  destruct (Z.leb_spec p 0); [lia | reflexivity].
Qed.

Lemma ran_out_length (ps : list Z) : ran_out ps = true -> (1 <= length ps)%nat.
Proof. destruct ps; [discriminate | simpl; lia]. Qed.

Lemma epoch_facts ep st st1 new1 :
  phase_loop a ep ["train"; "val"] st = Return st1 ->
  trace st1 = trace st ++ new1 ->
  exists bt bv loss recall,
    dataloaders a !! "train" = Some bt /\
    dataloaders a !! "val" = Some bv /\
    val_patience new1 = [patience_left st1] /\
    notices new1 = [] /\
    scheduler_steps new1 = [] /\
    loads new1 = [] /\
    length (model_calls new1) = (length bt + length bv)%nat /\
    length (zero_grads new1) = (length bt + length bv)%nat /\
    length (updates new1) = (2 * length bt)%nat /\
    phase_lines new1 = [(ep, num_epochs a - 1, "train"); (ep, num_epochs a - 1, "val")] /\
    val_lines new1 = [(loss, recall)] /\
    training st1 = false /\
    (patience_left st1 = patience a \/ patience_left st1 = patience_left st - 1) /\
    if (loss <? val_loss (best_metrics st))%float
       || (val_recall (best_metrics st) <? recall)%float
    then exists w,
           saves new1 = [w] /\
           epoch (best_metrics st1) = ep + 1 /\
           files st1 = <[output_filename a := w]> (files st)
    else saves new1 = [] /\
         best_metrics st1 = best_metrics st /\
         files st1 = files st.
Proof.
  intros H Htr.
  destruct (epoch_shape _ _ _ H) as (new & bt & bv & loss & recall & Hbt & Hbv & Htr' & Hrest).
  assert (new = new1) by (rewrite Htr in Htr'; apply app_inv_head in Htr'; auto).
  subst new. exists bt, bv, loss, recall. auto.
Qed.

Lemma scheduler_events_quiet :
  saves (scheduler_events a) = [] /\
  val_patience (scheduler_events a) = [] /\
  notices (scheduler_events a) = [] /\
  model_calls (scheduler_events a) = [] /\
  zero_grads (scheduler_events a) = [] /\
  updates (scheduler_events a) = [] /\
  loads (scheduler_events a) = [] /\
  phase_lines (scheduler_events a) = [] /\
  val_lines (scheduler_events a) = [] /\
  length (scheduler_steps (scheduler_events a))
  = match scheduler a with Some _ => 1%nat | None => 0%nat end.
Proof.
  unfold scheduler_events. destruct (scheduler a); repeat split.
Qed.

(** The scheduler steps once after every epoch but the one that ends
    without patience. *)
Lemma epoch_loop_scheduler n ep st st' :
  epoch_loop a n ep st = Return st' ->
  exists new,
    trace st' = trace st ++ new /\
    length (scheduler_steps new)
    = match scheduler a with
      | Some _ => (epochs_run new - (if ran_out (val_patience new) then 1 else 0))%nat
      | None => 0%nat
      end.
Proof.
  apply (epoch_loop_trace_rule
           (fun _ _ _ _ new =>
              length (scheduler_steps new)
              = match scheduler a with
                | Some _ => (epochs_run new - (if ran_out (val_patience new) then 1 else 0))%nat
                | None => 0%nat
                end)).
  - intros _ _. destruct (scheduler a); reflexivity.
  - intros _ ep0 s0 s1 new1 H1 Htr1 Hle.
    destruct (epoch_facts _ _ _ _ H1 Htr1)
      as (bt & bv & loss & recall & _ & _ & Hv & _ & Hs & _).
    unfold epochs_run, scheduler_steps, val_patience in *.
    rewrite !omap_app, Hv, Hs. simpl. unfold ran_out. simpl.
    destruct (Z.leb_spec (patience_left s1) 0); [|lia].
    destruct (scheduler a); reflexivity.
  - intros _ ep0 s0 s1 s' new1 new2 H1 Htr1 Hlt _ _ IH.
    destruct (epoch_facts _ _ _ _ H1 Htr1)
      as (bt & bv & loss & recall & _ & _ & Hv & _ & Hs & _).
    destruct scheduler_events_quiet as (_ & Qv & _ & _ & _ & _ & _ & _ & _ & Qs).
    unfold epochs_run, scheduler_steps, val_patience in *.
    rewrite !omap_app, !length_app, Hv, Hs, Qv, Qs, IH. simpl.
    fold (val_patience new2).
    rewrite (ran_out_cons _ _ Hlt).
    destruct (scheduler a); [|reflexivity].
    destruct (ran_out (val_patience new2)) eqn:Hr; [|lia].
    apply ran_out_length in Hr. lia.
Qed.

(** The files change at [output_filename] only, where they hold the last
    state dict saved. *)
Lemma files_after_app (fs : gmap string StateDict) (f : string) (s1 s2 : list StateDict) :
  files_after (files_after fs f s1) f s2 = files_after fs f (s1 ++ s2).
Proof.
  unfold files_after. rewrite last_app.
  destruct (last s2); [|reflexivity].
  destruct (last s1); [apply insert_insert_eq | reflexivity].
Qed.

Lemma epoch_loop_files n ep st st' :
  epoch_loop a n ep st = Return st' ->
  exists new,
    trace st' = trace st ++ new /\
    files st' = files_after (files st) (output_filename a) (saves new).
Proof.
  apply (epoch_loop_trace_rule
           (fun _ _ st st' new =>
              files st' = files_after (files st) (output_filename a) (saves new))).
  - reflexivity.
  - intros _ ep0 s0 s1 new1 H1 Htr1 _.
    destruct (epoch_facts _ _ _ _ H1 Htr1)
      as (bt & bv & loss & recall & _ & _ & _ & _ & _ & _ & _ & _ & _ & _ & _ & _ & _ & Hc).
    unfold saves in *. rewrite omap_app. simpl. rewrite app_nil_r.
    destruct (_ || _)%bool.
    + destruct Hc as (w & -> & _ & ->). reflexivity.
    + destruct Hc as (-> & _ & ->). reflexivity.
  - intros _ ep0 s0 s1 s' new1 new2 H1 Htr1 _ _ _ IH.
    destruct (epoch_facts _ _ _ _ H1 Htr1)
      as (bt & bv & loss & recall & _ & _ & _ & _ & _ & _ & _ & _ & _ & _ & _ & _ & _ & Hc).
    destruct scheduler_events_quiet as (Qs & _).
    destruct (scheduler_step_shape s1) as (_ & _ & _ & _ & _ & Sf).
    rewrite IH, Sf. rewrite !saves_app, Qs. simpl.
    rewrite <- files_after_app. f_equal.
    destruct (_ || _)%bool.
    + destruct Hc as (w & -> & _ & ->). reflexivity.
    + destruct Hc as (-> & _ & ->). reflexivity.
Qed.

(** After an epoch the model is in eval mode. *)
Lemma epoch_loop_mode n ep st st' :
  epoch_loop a n ep st = Return st' ->
  match n with
  | O => st' = st
  | S _ => training st' = false
  end.
Proof.
  intros H.
  destruct (epoch_loop_trace_rule
              (fun n _ st st' _ =>
                 match n with
                 | O => st' = st
                 | S _ => training st' = false
                 end)) with (n := n) (ep := ep) (st := st) (st' := st')
    as (new & _ & HR); [| | |exact H|exact HR].
  - reflexivity.
  - intros _ ep0 s0 s1 new1 H1 Htr1 _.
    destruct (epoch_facts _ _ _ _ H1 Htr1)
      as (bt & bv & loss & recall & _ & _ & _ & _ & _ & _ & _ & _ & _ & _ & _ & Hm & _).
    exact Hm.
  - intros n0 ep0 s0 s1 s' new1 new2 H1 Htr1 _ _ _ IH.
    destruct (epoch_facts _ _ _ _ H1 Htr1)
      as (bt & bv & loss & recall & _ & _ & _ & _ & _ & _ & _ & _ & _ & _ & _ & Hm & _).
    destruct (scheduler_step_shape s1) as (_ & _ & St & _).
    destruct n0; [subst s'; congruence | exact IH].
Qed.

(** The patience left never exceeds [patience], and it takes at least as
    many epochs as there is patience left to run out of it. *)
Lemma epoch_loop_least n ep st st' :
  epoch_loop a n ep st = Return st' ->
  patience_left st <= patience a ->
  exists new,
    trace st' = trace st ++ new /\
    (Nat.min n (Z.to_nat (patience_left st)) <= epochs_run new)%nat /\
    patience_left st' <= patience a.
Proof.
  intros H Hle.
  destruct (epoch_loop_trace_rule
              (fun n _ st st' new =>
                 patience_left st <= patience a ->
                 (Nat.min n (Z.to_nat (patience_left st)) <= epochs_run new)%nat /\
                 patience_left st' <= patience a))
    with (n := n) (ep := ep) (st := st) (st' := st')
    as (new & Htr & HR); [| | |exact H|exists new; auto].
  - intros _ s0 Hs. simpl. split; [lia | exact Hs].
  - intros n0 ep0 s0 s1 new1 H1 Htr1 Hstop Hs.
    destruct (epoch_facts _ _ _ _ H1 Htr1)
      as (bt & bv & loss & recall & _ & _ & Hv & _ & _ & _ & _ & _ & _ & _ & _ & _ & Hp & _).
    unfold epochs_run, val_patience in *. rewrite omap_app, Hv. simpl (length _).
    change (patience_left (emit (Print OutOfPatience) s1)) with (patience_left s1). lia.
  - intros n0 ep0 s0 s1 s' new1 new2 H1 Htr1 Hgo _ _ IH Hs.
    destruct (epoch_facts _ _ _ _ H1 Htr1)
      as (bt & bv & loss & recall & _ & _ & Hv & _ & _ & _ & _ & _ & _ & _ & _ & _ & Hp & _).
    destruct scheduler_events_quiet as (_ & Qv & _).
    destruct (scheduler_step_shape s1) as (_ & _ & _ & _ & Sp & _).
    rewrite Sp in IH. destruct IH as (IH1 & IH2); [lia|].
    unfold epochs_run, val_patience in *. rewrite !omap_app, Hv, Qv. simpl (length _).
    split; [lia | exact IH2].
Qed.

(** The work of a run: every epoch calls the model once per batch of the
    two loaders, clears the gradients as often, and takes one [backward]
    and one optimizer step per "train" batch. *)
Lemma epoch_loop_work n ep st st' bt bv :
  epoch_loop a n ep st = Return st' ->
  dataloaders a !! "train" = Some bt ->
  dataloaders a !! "val" = Some bv ->
  exists new,
    trace st' = trace st ++ new /\
    length (model_calls new) = (epochs_run new * (length bt + length bv))%nat /\
    length (zero_grads new) = (epochs_run new * (length bt + length bv))%nat /\
    length (updates new) = (epochs_run new * (2 * length bt))%nat.
Proof.
  intros H Hbt Hbv. revert n ep st st' H.
  apply (epoch_loop_trace_rule
           (fun _ _ _ _ new =>
              length (model_calls new) = (epochs_run new * (length bt + length bv))%nat /\
              length (zero_grads new) = (epochs_run new * (length bt + length bv))%nat /\
              length (updates new) = (epochs_run new * (2 * length bt))%nat)).
  - intros _ _. repeat split.
  - intros _ ep0 s0 s1 new1 H1 Htr1 _.
    destruct (epoch_facts _ _ _ _ H1 Htr1)
      as (bt' & bv' & loss & recall & Hbt' & Hbv' & Hv & _ & _ & _ & Hc & Hz & Hu & _).
    assert (bt' = bt) by congruence. assert (bv' = bv) by congruence. subst bt' bv'.
    unfold epochs_run, val_patience, model_calls, zero_grads, updates in *.
    rewrite !omap_app, !length_app, Hv, Hc, Hz, Hu. simpl. lia.
  - intros _ ep0 s0 s1 s' new1 new2 H1 Htr1 _ _ _ (IHc & IHz & IHu).
    destruct (epoch_facts _ _ _ _ H1 Htr1)
      as (bt' & bv' & loss & recall & Hbt' & Hbv' & Hv & _ & _ & _ & Hc & Hz & Hu & _).
    assert (bt' = bt) by congruence. assert (bv' = bv) by congruence. subst bt' bv'.
    destruct scheduler_events_quiet as (_ & Qv & _ & Qc & Qz & Qu & _).
    unfold epochs_run, val_patience, model_calls, zero_grads, updates in *.
    rewrite !omap_app, !length_app, Hv, Hc, Hz, Hu, Qv, Qc, Qz, Qu, IHc, IHz, IHu.
    simpl. lia.
Qed.

(** The updates of a run, in order: a phase takes, on each batch of a
    "train" loader, one [backward] and then one optimizer step, and none on
    the batches of another loader. *)
Lemma run_phase_updates ep phase st st' :
  run_phase a ep phase st = Return st' ->
  exists new batches,
    trace st' = trace st ++ new /\
    dataloaders a !! phase = Some batches /\
    updates new = if (phase =? "train")%string
                  then concat (repeat [Backward; OptimizerStep] (length batches))
                  else [].
Proof.
  intros H. apply run_phase_inv in H as (st1 & m & Hm & ->).
  apply phase_metrics_trace in Hm
    as (batches & us & size & newb & Hb & Hu & _ & _ & Htr & _ & _ & _ & Hup & _).
  pose proof (update_best_cases a ep phase m st1) as (_ & _ & _ & _ & Hc).
  assert (Hex : exists mid, trace (update_best a ep phase m st1) = trace st1 ++ mid /\
                  updates mid = []).
  { destruct ((phase =? "val")%string && improved m st1).
    - destruct Hc as (_ & _ & _ & _ & ->). eexists. split; reflexivity.
    - destruct Hc as (_ & _ & _ & _ & ->). exists []. rewrite app_nil_r. auto. }
  destruct Hex as (mid & Hmid & Hum).
  pose proof (Forall2_length _ _ _ Hu) as Hlen.
  eexists. exists batches.
  split; [simpl; rewrite Hmid, Htr, <- !app_assoc; reflexivity|].
  split; [exact Hb|].
  unfold updates in *. rewrite !omap_app, Hup, Hum.
  destruct (phase =? "train")%string; simpl; [|reflexivity].
  rewrite app_nil_r, Hlen. clear.
  induction us as [|u us IH]; simpl; [reflexivity|]. rewrite IH. reflexivity.
Qed.

Lemma epoch_updates ep st st1 new1 bt :
  phase_loop a ep ["train"; "val"] st = Return st1 ->
  trace st1 = trace st ++ new1 ->
  dataloaders a !! "train" = Some bt ->
  updates new1 = concat (repeat [Backward; OptimizerStep] (length bt)).
Proof.
  intros H Htr Hbt. apply phase_loop_inv in H as (s1 & H1 & H2).
  apply run_phase_updates in H1 as (n1 & b1 & T1 & B1 & U1).
  apply run_phase_updates in H2 as (n2 & b2 & T2 & B2 & U2).
  simpl in U1, U2. assert (b1 = bt) by congruence. subst b1.
  rewrite T2, T1, <- app_assoc in Htr. apply app_inv_head in Htr. subst new1.
  unfold updates in *. rewrite omap_app, U1, U2, app_nil_r. reflexivity.
Qed.

Lemma epoch_loop_updates n ep st st' bt :
  epoch_loop a n ep st = Return st' ->
  dataloaders a !! "train" = Some bt ->
  exists new,
    trace st' = trace st ++ new /\
    updates new
    = concat (repeat [Backward; OptimizerStep] (epochs_run new * length bt)).
Proof.
  intros H Hbt. revert n ep st st' H.
  apply (epoch_loop_trace_rule
           (fun _ _ _ _ new =>
              updates new
              = concat (repeat [Backward; OptimizerStep] (epochs_run new * length bt)))).
  - intros _ _. reflexivity.
  - intros _ ep0 s0 s1 new1 H1 Htr1 _.
    destruct (epoch_facts _ _ _ _ H1 Htr1) as (bt' & bv' & loss & recall & _ & _ & Hv & _).
    pose proof (epoch_updates _ _ _ _ _ H1 Htr1 Hbt) as Hu.
    unfold epochs_run, val_patience, updates in *.
    rewrite !omap_app, Hv, Hu. simpl. rewrite Nat.add_0_r, app_nil_r. reflexivity.
  - intros _ ep0 s0 s1 s' new1 new2 H1 Htr1 _ _ _ IH.
    destruct (epoch_facts _ _ _ _ H1 Htr1) as (bt' & bv' & loss & recall & _ & _ & Hv & _).
    pose proof (epoch_updates _ _ _ _ _ H1 Htr1 Hbt) as Hu.
    destruct scheduler_events_quiet as (_ & Qv & _ & _ & _ & Qu & _).
    unfold epochs_run, val_patience, updates in *.
    rewrite !omap_app, !length_app, Hv, Hu, Qv, Qu, IH. simpl.
    rewrite repeat_app, concat_app. reflexivity.
Qed.

(** A [backward] and a step are updates, and among updates that alternate
    there are as many of the one as of the other. *)
Lemma backwards_updates (tr : list Event) :
  backwards (updates tr) = backwards tr /\
  optimizer_steps (updates tr) = optimizer_steps tr.
Proof.
  induction tr as [|e tr [IH1 IH2]]; [split; reflexivity|].
  unfold backwards, optimizer_steps, updates in *.
  destruct e; simpl; split; try assumption; f_equal; assumption.
Qed.

Lemma alternating_updates (n : nat) :
  backwards (concat (repeat [Backward; OptimizerStep] n)) = repeat Backward n /\
  optimizer_steps (concat (repeat [Backward; OptimizerStep] n)) = repeat OptimizerStep n.
Proof.
  induction n as [|n [IH1 IH2]]; [split; reflexivity|].
  unfold backwards, optimizer_steps in *.
  simpl; split; f_equal; assumption.
Qed.

(** The lines printed for the phases: the epochs from [ep] on, one after
    the other, "train" then "val". *)
Lemma epoch_loop_lines n ep st st' :
  epoch_loop a n ep st = Return st' ->
  exists new,
    trace st' = trace st ++ new /\
    phase_lines new = lines_from (num_epochs a) ep (epochs_run new).
Proof.
  revert n ep st st'.
  apply (epoch_loop_trace_rule
           (fun _ ep _ _ new =>
              phase_lines new = lines_from (num_epochs a) ep (epochs_run new))).
  - reflexivity.
  - intros _ ep0 s0 s1 new1 H1 Htr1 _.
    destruct (epoch_facts _ _ _ _ H1 Htr1)
      as (bt & bv & loss & recall & _ & _ & Hv & _ & _ & _ & _ & _ & _ & Hl & _).
    unfold epochs_run, val_patience, phase_lines in *.
    rewrite !omap_app, Hv, Hl. reflexivity.
  - intros _ ep0 s0 s1 s' new1 new2 H1 Htr1 _ _ _ IH.
    destruct (epoch_facts _ _ _ _ H1 Htr1)
      as (bt & bv & loss & recall & _ & _ & Hv & _ & _ & _ & _ & _ & _ & Hl & _).
    destruct scheduler_events_quiet as (_ & Qv & _ & _ & _ & _ & _ & Ql & _).
    unfold epochs_run, val_patience, phase_lines in *.
    rewrite !omap_app, Hv, Hl, Qv, Ql, IH. reflexivity.
Qed.

(** The epoch of the best metrics: it moves with the saves only, and to
    the number, counted from 1, of an epoch of the run. *)
Lemma epoch_loop_best n ep st st' :
  epoch_loop a n ep st = Return st' ->
  exists new,
    trace st' = trace st ++ new /\
    (length (saves new) <= epochs_run new)%nat /\
    (saves new = [] -> best_metrics st' = best_metrics st) /\
    (saves new <> [] ->
     ep + 1 <= epoch (best_metrics st') <= ep + Z.of_nat (epochs_run new)).
Proof.
  revert n ep st st'.
  apply (epoch_loop_trace_rule
           (fun _ ep st st' new =>
              (length (saves new) <= epochs_run new)%nat /\
              (saves new = [] -> best_metrics st' = best_metrics st) /\
              (saves new <> [] ->
               ep + 1 <= epoch (best_metrics st') <= ep + Z.of_nat (epochs_run new)))).
  - intros ep0 s0. simpl. repeat split; try lia; congruence.
  - intros _ ep0 s0 s1 new1 H1 Htr1 _.
    destruct (epoch_facts _ _ _ _ H1 Htr1)
      as (bt & bv & loss & recall & _ & _ & Hv & _ & _ & _ & _ & _ & _ & _ & _ & _ & _ & Hc).
    unfold epochs_run, val_patience in *. rewrite saves_app, omap_app, Hv. simpl.
    rewrite app_nil_r.
    destruct (_ || _)%bool.
    + destruct Hc as (w & -> & He & _). simpl. repeat split; try lia; discriminate.
    + destruct Hc as (-> & Hb & _). simpl. repeat split; try lia; congruence.
  - intros _ ep0 s0 s1 s' new1 new2 H1 Htr1 _ _ _ (IHl & IHe & IHn).
    destruct (epoch_facts _ _ _ _ H1 Htr1)
      as (bt & bv & loss & recall & _ & _ & Hv & _ & _ & _ & _ & _ & _ & _ & _ & _ & _ & Hc).
    destruct scheduler_events_quiet as (Qs & Qv & _).
    destruct (scheduler_step_shape s1) as (_ & _ & _ & Sb & _).
    rewrite Sb in IHe.
    unfold epochs_run, val_patience in *. rewrite !saves_app, !omap_app, Hv, Qs, Qv.
    simpl.
    destruct (saves new2) as [|w2 l2] eqn:E2.
    + specialize (IHe eq_refl). rewrite app_nil_r.
      destruct (_ || _)%bool.
      * destruct Hc as (w & -> & He & _). simpl.
        repeat split; try lia; try discriminate; rewrite IHe; lia.
      * destruct Hc as (-> & Hb & _). simpl. repeat split; try lia; congruence.
    + assert (Hne : w2 :: l2 <> []) by discriminate. specialize (IHn Hne).
      simpl in IHl.
      destruct (_ || _)%bool.
      * destruct Hc as (w & -> & _). simpl. repeat split; try lia; discriminate.
      * destruct Hc as (-> & _). simpl. repeat split; try lia; discriminate.
Qed.

(** A run that saves nothing has met no loss below the best loss it
    started from and no recall above the best recall. *)
Lemma epoch_loop_never_better n ep st st' :
  epoch_loop a n ep st = Return st' ->
  exists new,
    trace st' = trace st ++ new /\
    (saves new = [] ->
     Forall (fun l => (l.1 <? val_loss (best_metrics st))%float = false /\
                      (val_recall (best_metrics st) <? l.2)%float = false)
            (val_lines new)).
Proof.
  revert n ep st st'.
  apply (epoch_loop_trace_rule
           (fun _ _ st _ new =>
              saves new = [] ->
              Forall (fun l => (l.1 <? val_loss (best_metrics st))%float = false /\
                               (val_recall (best_metrics st) <? l.2)%float = false)
                     (val_lines new))).
  - intros ep0 s0 _. constructor.
  - intros _ ep0 s0 s1 new1 H1 Htr1 _ Hs.
    destruct (epoch_facts _ _ _ _ H1 Htr1)
      as (bt & bv & loss & recall & _ & _ & _ & _ & _ & _ & _ & _ & _ & _ & Hl & _ & _ & Hc).
    rewrite saves_app in Hs. apply app_eq_nil in Hs as [Hs _].
    unfold val_lines in *. rewrite omap_app, Hl. simpl.
    destruct (_ || _)%bool eqn:Hb.
    + destruct Hc as (w & Hw & _). congruence.
    + apply orb_false_elim in Hb. repeat constructor; apply Hb.
  - intros _ ep0 s0 s1 s' new1 new2 H1 Htr1 _ _ _ IH Hs.
    destruct (epoch_facts _ _ _ _ H1 Htr1)
      as (bt & bv & loss & recall & _ & _ & _ & _ & _ & _ & _ & _ & _ & _ & Hl & _ & _ & Hc).
    destruct scheduler_events_quiet as (_ & _ & _ & _ & _ & _ & _ & _ & Ql & _).
    destruct (scheduler_step_shape s1) as (_ & _ & _ & Sb & _).
    rewrite !saves_app in Hs. apply app_eq_nil in Hs as [Hs1 Hs].
    apply app_eq_nil in Hs as [_ Hs2].
    unfold val_lines in *. rewrite !omap_app, Hl, Ql. simpl.
    destruct (_ || _)%bool eqn:Hb.
    + destruct Hc as (w & Hw & _). congruence.
    + destruct Hc as (_ & Hbest & _). apply orb_false_elim in Hb.
      constructor; [split; apply Hb|].
      rewrite Sb, Hbest in IH. exact (IH Hs2).
Qed.

(** The loop itself loads nothing back into the model. *)
Lemma epoch_loop_loads n ep st st' :
  epoch_loop a n ep st = Return st' ->
  exists new, trace st' = trace st ++ new /\ loads new = [].
Proof.
  revert n ep st st'.
  apply (epoch_loop_trace_rule (fun _ _ _ _ new => loads new = [])).
  - reflexivity.
  - intros _ ep0 s0 s1 new1 H1 Htr1 _.
    destruct (epoch_facts _ _ _ _ H1 Htr1)
      as (bt & bv & loss & recall & _ & _ & _ & _ & _ & Hl & _).
    unfold loads in *. rewrite omap_app, Hl. reflexivity.
  - intros _ ep0 s0 s1 s' new1 new2 H1 Htr1 _ _ _ IH.
    destruct (epoch_facts _ _ _ _ H1 Htr1)
      as (bt & bv & loss & recall & _ & _ & _ & _ & _ & Hl & _).
    destruct scheduler_events_quiet as (_ & _ & _ & _ & _ & _ & Ql & _).
    unfold loads in *. rewrite !omap_app, Hl, Ql, IH. reflexivity.
Qed.

End MoreFacts.

(** ** Further properties of [train_model] *)

Section Extras.
Context {T : Torch} {K : Sklearn}.
Variable a : Args.

Lemma leave_events_quiet st :
  saves (leave_events st) = [] /\
  val_patience (leave_events st) = [] /\
  notices (leave_events st) = [] /\
  scheduler_steps (leave_events st) = [] /\
  model_calls (leave_events st) = [] /\
  zero_grads (leave_events st) = [] /\
  updates (leave_events st) = [] /\
  phase_lines (leave_events st) = [] /\
  val_lines (leave_events st) = [].
Proof. repeat split. Qed.

(** X1.  In a call that returns, [scheduler.step()] is called once after
    every epoch run, but not after the epoch that ends without patience;
    and never without a scheduler. *)
Theorem scheduler_steps_count w mode g o fs st' :
  train_model a w mode g o fs = Return st' ->
  length (scheduler_steps (trace st'))
  = match scheduler a with
    | Some _ =>
        (epochs_run (trace st')
         - (if ran_out (val_patience (trace st')) then 1 else 0))%nat
    | None => 0%nat
    end.
Proof.
  intros H. apply train_model_inv in H as (st & Hl & _ & Htr & _).
  apply epoch_loop_scheduler in Hl as (new & Hn & Hs). simpl in Hn.
  destruct (leave_events_quiet st) as (_ & Qv & _ & Qs & _).
  unfold epochs_run, scheduler_steps, val_patience in *.
  rewrite Htr, Hn, !omap_app, Qv, Qs, !app_nil_r. exact Hs.
Qed.

(** X2.  A call that returns has changed the files at [output_filename]
    only: it holds the last state dict saved, if any was, and every other
    file is what it was on entry. *)
Theorem files_only_checkpoint w mode g o fs st' :
  train_model a w mode g o fs = Return st' ->
  files st' = files_after fs (output_filename a) (saves (trace st')) /\
  forall f, f <> output_filename a -> files st' !! f = fs !! f.
Proof.
  intros H. apply train_model_inv in H as (st & Hl & _ & Htr & _ & _ & _ & Hf).
  apply epoch_loop_files in Hl as (new & Hn & Hfs). simpl in Hn, Hfs.
  destruct (leave_events_quiet st) as (Qs & _).
  assert (E : files st' = files_after fs (output_filename a) (saves (trace st'))).
  { rewrite Htr, Hn, saves_app, Qs, app_nil_r, Hf. exact Hfs. }
  split; [exact E|].
  intros f Hne. rewrite E. unfold files_after.
  destruct (last (saves (trace st'))); [|reflexivity].
  apply lookup_insert_ne. congruence.
Qed.

(** X3.  A call that returns after at least one epoch leaves the model in
    eval mode, the last phase being a "val" phase; with [num_epochs <= 0]
    the mode is the one on entry. *)
Theorem returned_in_eval_mode w mode g o fs st' :
  train_model a w mode g o fs = Return st' ->
  (1 <= num_epochs a -> training st' = false) /\
  (num_epochs a <= 0 -> training st' = mode).
Proof.
  intros H. apply train_model_inv in H as (st & Hl & _ & _ & Ht & _).
  apply epoch_loop_mode in Hl. rewrite Ht. split; intros Hn.
  - destruct (Z.to_nat (num_epochs a)) eqn:E; [lia | exact Hl].
  - destruct (Z.to_nat (num_epochs a)) eqn:E; [|lia]. subst st. reflexivity.
Qed.

(** X4.  A call that returns has run at least [patience] epochs, or all the
    [num_epochs] of them: the patience left goes down by one per epoch at
    most. *)
Theorem at_least_patience_epochs w mode g o fs st' :
  train_model a w mode g o fs = Return st' ->
  (Nat.min (Z.to_nat (num_epochs a)) (Z.to_nat (patience a))
   <= epochs_run (trace st'))%nat.
Proof.
  intros H. apply train_model_inv in H as (st & Hl & _ & Htr & _).
  apply epoch_loop_least in Hl as (new & Hn & Hmin & _); [|simpl; lia].
  simpl in Hn, Hmin.
  destruct (leave_events_quiet st) as (_ & Qv & _).
  unfold epochs_run, val_patience in *.
  rewrite Htr, Hn, omap_app, Qv, app_nil_r. exact Hmin.
Qed.

(** X5.  With [num_epochs >= 1] and a "train" loader whose batches unpack,
    the call raises [KeyError "train"] when [dataset_sizes] has no "train"
    size, and [ZeroDivisionError] when that size is zero: the division comes
    after the batches, whatever the running loss is. *)
Theorem dataset_size_errors w mode g o fs batches :
  1 <= num_epochs a ->
  dataloaders a !! "train" = Some batches ->
  Forall (fun data => ~ arity_mismatch a data) batches ->
  (dataset_sizes a !! "train" = None ->
   train_model a w mode g o fs = Raise (KeyError "train")) /\
  (dataset_sizes a !! "train" = Some 0 ->
   train_model a w mode g o fs = Raise ZeroDivisionError).
Proof.
  intros Hn Hb Hok. unfold train_model.
  destruct (Z.to_nat (num_epochs a)) as [|n] eqn:En; [lia|].
  cbn [epoch_loop phase_loop].
  destruct (batch_loop_total a ("train" =? "train")%string "train" batches
              (set_mode "train" (enter a w mode g o fs), acc0) Hok) as ([st1 acc] & Hl).
  split; intros Hs.
  - unfold run_phase, phase_metrics, getitem. rewrite Hb. cbn [mbind Py_bind].
    fold (set_mode "train" (enter a w mode g o fs)). fold acc0.
    rewrite Hl. cbn [mbind Py_bind]. rewrite Hs. reflexivity.
  - unfold run_phase, phase_metrics, getitem. rewrite Hb. cbn [mbind Py_bind].
    fold (set_mode "train" (enter a w mode g o fs)). fold acc0.
    rewrite Hl. cbn [mbind Py_bind]. rewrite Hs. reflexivity.
Qed.

(** X6.  In a call that returns, every epoch run calls the model once per
    batch of the "train" and of the "val" loader and clears the gradients
    before each of these calls; [loss.backward()] is called once per
    "train" batch of every epoch run, and so is [optimizer.step()]; and the
    two alternate, every [backward] being followed by its step before the
    next [backward]. *)
Theorem work_per_epoch w mode g o fs st' bt bv :
  train_model a w mode g o fs = Return st' ->
  dataloaders a !! "train" = Some bt ->
  dataloaders a !! "val" = Some bv ->
  let k := epochs_run (trace st') in
  length (model_calls (trace st')) = (k * (length bt + length bv))%nat /\
  length (zero_grads (trace st')) = (k * (length bt + length bv))%nat /\
  length (backwards (trace st')) = (k * length bt)%nat /\
  length (optimizer_steps (trace st')) = (k * length bt)%nat /\
  updates (trace st') = concat (repeat [Backward; OptimizerStep] (k * length bt)).
Proof.
  intros H Hbt Hbv. apply train_model_inv in H as (st & Hl & _ & Htr & _).
  destruct (epoch_loop_work _ _ _ _ _ bt bv Hl Hbt Hbv) as (new & Hn & Hc & Hz & _).
  destruct (epoch_loop_updates _ _ _ _ _ bt Hl Hbt) as (new' & Hn' & Hu).
  assert (new' = new) by (rewrite Hn in Hn'; apply app_inv_head in Hn'; auto).
  subst new'. simpl in Hn.
  destruct (leave_events_quiet st) as (_ & Qv & _ & _ & Qc & Qz & Qu & _).
  assert (Ek : epochs_run (trace st') = epochs_run new).
  { unfold epochs_run, val_patience in *. rewrite Htr, Hn, omap_app, Qv, app_nil_r.
    reflexivity. }
  assert (Eu : updates (trace st') = updates new).
  { unfold updates in *. rewrite Htr, Hn, omap_app, Qu, app_nil_r. reflexivity. }
  cbv zeta. rewrite Ek.
  destruct (backwards_updates (trace st')) as [<- <-].
  rewrite Eu, Hu.
  destruct (alternating_updates (epochs_run new * length bt)) as [-> ->].
  rewrite !repeat_length.
  unfold model_calls, zero_grads in *.
  rewrite Htr, Hn, !omap_app, Qc, Qz, !app_nil_r. auto.
Qed.

(** X7.  The lines a call that returns prints for the phases are those of
    the epochs 0, 1, ... it has run, in order, "train" then "val" for each,
    all of them giving [num_epochs - 1] for the last epoch. *)
Theorem printed_phase_lines w mode g o fs st' :
  train_model a w mode g o fs = Return st' ->
  phase_lines (trace st') = lines_from (num_epochs a) 0 (epochs_run (trace st')).
Proof.
  intros H. apply train_model_inv in H as (st & Hl & _ & Htr & _).
  apply epoch_loop_lines in Hl as (new & Hn & Hp). simpl in Hn.
  destruct (leave_events_quiet st) as (_ & Qv & _ & _ & _ & _ & _ & Ql & _).
  unfold epochs_run, val_patience, phase_lines in *.
  rewrite Htr, Hn, !omap_app, Qv, Ql, !app_nil_r. exact Hp.
Qed.

(** X8.  When a call returns, there are at most as many saves as epochs
    run; the epoch of the best metrics is 0, and the best metrics those of
    the entry, exactly when nothing was saved; and otherwise it is the
    number, counted from 1, of an epoch that was run. *)
Theorem best_epoch_range w mode g o fs st' :
  train_model a w mode g o fs = Return st' ->
  (length (saves (trace st')) <= epochs_run (trace st'))%nat /\
  (saves (trace st') = [] <-> epoch (best_metrics st') = 0) /\
  (saves (trace st') = [] -> best_metrics st' = initial_best) /\
  0 <= epoch (best_metrics st') <= Z.of_nat (epochs_run (trace st')).
Proof.
  intros H. apply train_model_inv in H as (st & Hl & _ & Htr & _ & _ & Hb & _).
  apply epoch_loop_best in Hl as (new & Hn & Hlen & He & Hne). simpl in Hn, He, Hne.
  destruct (leave_events_quiet st) as (Qs & Qv & _).
  assert (Es : saves (trace st') = saves new)
    by (rewrite Htr, Hn, saves_app, Qs, app_nil_r; reflexivity).
  assert (Ek : epochs_run (trace st') = epochs_run new).
  { unfold epochs_run, val_patience. rewrite Htr, Hn, omap_app.
    fold (val_patience (leave_events st)). rewrite Qv, app_nil_r. reflexivity. }
  rewrite Es, Ek, Hb.
  destruct (saves new) as [|w1 l1] eqn:E.
  - specialize (He eq_refl). rewrite He. simpl. repeat split; try lia; auto.
  - assert (Hx : w1 :: l1 <> []) by discriminate. specialize (Hne Hx).
    repeat split; try lia; try discriminate.
Qed.

(** X9.  When a call returns without having saved anything, no "val" line
    it printed shows a loss below infinity nor a recall above zero. *)
Theorem no_save_never_improved w mode g o fs st' :
  train_model a w mode g o fs = Return st' ->
  saves (trace st') = [] ->
  Forall (fun l => (l.1 <? infinity)%float = false /\ (0 <? l.2)%float = false)
         (val_lines (trace st')).
Proof.
  intros H Hs. apply train_model_inv in H as (st & Hl & _ & Htr & _).
  apply epoch_loop_never_better in Hl as (new & Hn & Hnb). simpl in Hn, Hnb.
  destruct (leave_events_quiet st) as (Qs & _ & _ & _ & _ & _ & _ & _ & Ql).
  rewrite Htr, Hn, saves_app, Qs, app_nil_r in Hs.
  unfold val_lines in *. rewrite Htr, Hn, omap_app, Ql, app_nil_r.
  exact (Hnb Hs).
Qed.

(** X10.  A "val" phase that completes leaves the state of the optimizer as
    it was, and the model in eval mode. *)
Theorem val_phase_keeps_optimizer ep st st' :
  run_phase a ep "val" st = Return st' ->
  optimizer st' = optimizer st /\ training st' = false.
Proof.
  intros H. apply run_phase_shape in H
    as (st1 & m & batches & newb & _ & _ & _ & _ & _ & _ & _ & Hm & Ho & _).
  split; [apply Ho; reflexivity | exact Hm].
Qed.

(** X11.  A call that returns loads a state dict into the model once, as
    its last step, and it is the one the model ends with. *)
Theorem one_load_at_the_end w mode g o fs st' :
  train_model a w mode g o fs = Return st' ->
  loads (trace st') = [state_dict st'] /\
  last (trace st') = Some (LoadStateDict (state_dict st')).
Proof.
  intros H. apply train_model_inv in H as (st & Hl & -> & Htr & _).
  apply epoch_loop_loads in Hl as (new & Hn & Hlo). simpl in Hn.
  split.
  - unfold loads in *. rewrite Htr, Hn, omap_app, Hlo. reflexivity.
  - rewrite Htr. unfold leave_events.
    rewrite (last_app (trace st)). reflexivity.
Qed.

(** X12.  With [num_epochs >= 1] and a "train" loader whose batches unpack,
    the call raises [OverflowError] when the "train" size of
    [dataset_sizes] is an integer too large for a float: the division of
    line 74 converts its divisor before it divides. *)
Theorem dataset_size_overflow w mode g o fs batches size :
  1 <= num_epochs a ->
  dataloaders a !! "train" = Some batches ->
  Forall (fun data => ~ arity_mismatch a data) batches ->
  dataset_sizes a !! "train" = Some size ->
  is_infinity (float_of_int size) = true ->
  train_model a w mode g o fs = Raise OverflowError.
Proof.
  intros Hn Hb Hok Hs Hinf. unfold train_model.
  destruct (Z.to_nat (num_epochs a)) as [|n] eqn:En; [lia|].
  cbn [epoch_loop phase_loop].
  destruct (batch_loop_total a ("train" =? "train")%string "train" batches
              (set_mode "train" (enter a w mode g o fs), acc0) Hok) as ([st1 acc] & Hl).
  unfold run_phase, phase_metrics, getitem. rewrite Hb. cbn [mbind Py_bind].
  fold (set_mode "train" (enter a w mode g o fs)). fold acc0.
  rewrite Hl. cbn [mbind Py_bind]. rewrite Hs. cbn [mbind Py_bind].
  rewrite (truediv_overflow _ _ Hinf). reflexivity.
Qed.

End Extras.

(** * The claims on the small implementation *)

Import Toy.

Lemma returns_returned {A : Type} (d : A) (r : Py A) :
  returns r = true -> r = Return (returned d r).
Proof. destruct r; [reflexivity | discriminate]. Defined.

(** The best checkpoint is taken when either comparison is strict: a lower
    loss with a lower recall, a higher recall with a higher loss; neither
    an equal loss with an equal recall. *)
Example loss_improves_recall_worsens :
  improved (Toy.metrics 1 0.25) Toy.with_best = true.
Proof. vm_compute. reflexivity. Qed.

Example recall_improves_loss_worsens :
  improved (Toy.metrics 3 0.75) Toy.with_best = true.
Proof. vm_compute. reflexivity. Qed.

Example neither_improves :
  improved (Toy.metrics 2 0.5) Toy.with_best = false /\
  patience_left (update_best (Toy.args 3 2) 1 "val" (Toy.metrics 2 0.5) Toy.with_best) = 1.
Proof. split; vm_compute; reflexivity. Qed.

(** The labels [0; 0; 1] predicted as [0; 2; 1]: the class 2 has no true
    member, and the macro recall is (1/2 + 0 + 1) / 3. *)
Example macro_recall_example :
  Metrics.classes Toy.y_true Toy.y_pred = [0; 2; 1] /\
  Qred (Metrics.macro_precision 0 Toy.y_true Toy.y_pred) = (2 # 3)%Q /\
  Qred (Metrics.macro_recall 0 Toy.y_true Toy.y_pred) = (1 # 2)%Q.
Proof. repeat split; vm_compute; reflexivity. Qed.

(** The F1 of these labels and predictions is (2/3 + 0 + 1) / 3 = 5/9: the
    float nearest to 5/9 and the float below it, which the sum of the
    per-class floats gives, both stand for it; a constant, a NaN and a
    float off by more than the rounding do not. *)
Example stands_for_rounding :
  Qred (Metrics.macro_f1 0 Toy.y_true Toy.y_pred) = (5 # 9)%Q /\
  ((2 / 3 + 0 + 1) / 3 <? 5 / 9)%float = true /\
  Metrics.stands_for 3 ((2 / 3 + 0 + 1) / 3)%float (5 # 9) = true /\
  Metrics.stands_for 3 (5 / 9)%float (5 # 9) = true /\
  Metrics.stands_for 3 7%float (5 # 9) = false /\
  Metrics.stands_for 3 nan (5 # 9) = false /\
  Metrics.stands_for 3 (5 / 9 + 1 / 1000000000000)%float (5 # 9) = false.
Proof. repeat split; vm_compute; reflexivity. Qed.

Lemma best_checkpoint_update_witness :
  run_phase (Toy.args 1 2) 0 "val" (Toy.start 1 2) = Return Toy.after_val /\
  best_metrics Toy.after_val =
    {| epoch := 1; val_loss := 2; val_accuracy := 0; val_precision := 0;
       val_recall := 0; val_f1 := 0 |} /\
  patience_left Toy.after_val = 2 /\
  saves (trace Toy.after_val) = [0] /\
  exists st1 m new,
    phase_metrics (Toy.args 1 2) "val" (Toy.start 1 2) = Return (st1, m) /\
    trace Toy.after_val = trace (Toy.start 1 2) ++ new /\
    state_dict Toy.after_val = state_dict st1.
Proof.
  assert (H : run_phase (Toy.args 1 2) 0 "val" (Toy.start 1 2) = Return Toy.after_val)
    by (apply returns_returned; vm_compute; reflexivity).
  split; [exact H|].
  split; [vm_compute; reflexivity|].
  split; [vm_compute; reflexivity|].
  split; [vm_compute; reflexivity|].
  destruct (best_checkpoint_update (Toy.args 1 2) 0 "val" (Toy.start 1 2) Toy.after_val H)
    as (st1 & m & new & Hm & Htr & Hw & _).
  exists st1, m, new. auto.
Defined.

(** Four epochs with a patience of 2: the patience printed after the four
    "val" phases is 2, 2, 1, 0, and the notice follows. *)
Lemma patience_counter_witness :
  Toy.run 4 2 = Return Toy.final /\
  val_patience (trace Toy.final) = [2; 2; 1; 0] /\
  let ps := val_patience (trace Toy.final) in
  (length ps <= Z.to_nat (num_epochs (Toy.args 4 2)))%nat /\
  (forall i p, ps !! i = Some p -> (S i < length ps)%nat -> 0 < p) /\
  ((length ps < Z.to_nat (num_epochs (Toy.args 4 2)))%nat -> ran_out ps = true) /\
  notices (trace Toy.final) = (if ran_out ps then [OutOfPatience] else []).
Proof.
  assert (H : Toy.run 4 2 = Return Toy.final)
    by (apply returns_returned; vm_compute; reflexivity).
  split; [exact H|].
  split; [vm_compute; reflexivity|].
  exact (proj2 (proj2 (patience_counter (Toy.args 4 2))) 0 false 0 0 ∅ Toy.final H).
Defined.

Lemma best_weights_restored_witness :
  Toy.run 4 2 = Return Toy.final /\
  saves (trace Toy.final) = [1; 2] /\
  length (updates (trace Toy.final)) = 8%nat /\
  state_dict Toy.final = 2 /\
  state_dict Toy.final = default 0 (last (saves (trace Toy.final))).
Proof.
  assert (H : Toy.run 4 2 = Return Toy.final)
    by (apply returns_returned; vm_compute; reflexivity).
  split; [exact H|].
  split; [vm_compute; reflexivity|].
  split; [vm_compute; reflexivity|].
  split; [vm_compute; reflexivity|].
  exact (proj1 (best_weights_restored (Toy.args 4 2) 0 false 0 0 ∅ Toy.final H)).
Defined.

(** Batches of two and of one: the loss reported is 3 = (4 * 2 + 1 * 1) / 3. *)
Lemma epoch_loss_weighted_witness :
  run_phase Toy.unequal 0 "train" (enter Toy.unequal 0 false 0 0 ∅)
    = Return Toy.unequal_train /\
  terms (trace Toy.unequal_train) = [(4%float, 2); (1%float, 1)] /\
  printed (trace Toy.unequal_train) = [PhaseLine 0 0 "train" 3 0 2] /\
  exists new batches us size loss recall p,
    trace Toy.unequal_train = trace (enter Toy.unequal 0 false 0 0 ∅) ++ new /\
    dataloaders Toy.unequal !! "train" = Some batches /\
    unpacked Toy.unequal batches us /\
    dataset_sizes Toy.unequal !! "train" = Some size /\
    size <> 0 /\
    is_infinity (float_of_int size) = false /\
    printed new = [PhaseLine 0 (num_epochs Toy.unequal - 1) "train" loss recall p] /\
    map snd (terms new) = map (fun u => tensor_len u.1.1) us /\
    map fst (terms new)
    = map (fun c => item (the_criterion Toy.unequal ("train" =? "train")%string c.1 c.2))
          (criterion_calls new) /\
    loss = (weighted_sum (terms new) / float_of_int size)%float.
Proof.
  assert (H : run_phase Toy.unequal 0 "train" (enter Toy.unequal 0 false 0 0 ∅)
              = Return Toy.unequal_train)
    by (apply returns_returned; vm_compute; reflexivity).
  split; [exact H|].
  split; [vm_compute; reflexivity|].
  split; [vm_compute; reflexivity|].
  exact (epoch_loss_weighted Toy.unequal 0 "train" (enter Toy.unequal 0 false 0 0 ∅)
           Toy.unequal_train H).
Defined.

Lemma no_epochs_witness :
  num_epochs (Toy.args 0 2) = 0 /\
  Toy.run 0 2 =
    Return {| state_dict := 0; training := false; grad := 0; optimizer := 0;
              best_metrics := {| epoch := 0; val_loss := infinity; val_accuracy := 0;
                                 val_precision := 0; val_recall := 0; val_f1 := 0 |};
              best_model_wts := Copy 0;
              patience_left := 2;
              files := ∅;
              trace := [Print TrainingComplete;
                        Print (BestMetricsAt
                                 {| epoch := 0; val_loss := infinity; val_accuracy := 0;
                                    val_precision := 0; val_recall := 0; val_f1 := 0 |});
                        LoadStateDict 0] |}.
Proof.
  assert (H : num_epochs (Toy.args 0 2) = 0) by reflexivity.
  split; [exact H|].
  exact (no_epochs (Toy.args 0 2) 0 false 0 0 ∅ H).
Defined.

Lemma no_patience_one_epoch_witness :
  patience (Toy.args 5 0) <= 0 /\ 1 <= num_epochs (Toy.args 5 0) /\
  forall st', Toy.run 5 0 = Return st' ->
    val_patience (trace st') = [patience_left st'] /\
    patience_left st' <= 0 /\
    notices (trace st') = [OutOfPatience].
Proof.
  assert (Hp : patience (Toy.args 5 0) <= 0) by (simpl; lia).
  assert (Hn : 1 <= num_epochs (Toy.args 5 0)) by (simpl; lia).
  split; [exact Hp|]. split; [exact Hn|].
  exact (proj2 (no_patience_one_epoch (Toy.args 5 0) 0 false 0 0 ∅ Hp Hn)).
Defined.

(** C6, counterexample: without any loader and with [num_epochs = 0], the
    call looks no loader up and returns. *)
Lemma missing_loaders_no_epochs :
  dataloaders (Toy.no_loaders 0) !! "train" = None /\
  dataloaders (Toy.no_loaders 0) !! "val" = None /\
  exists st', train_model (Toy.no_loaders 0) 0 false 0 0 ∅ = Return st'.
Proof.
  split; [vm_compute; reflexivity|]. split; [vm_compute; reflexivity|].
  eexists. apply (returns_returned (Toy.start 0 2)). vm_compute. reflexivity.
Qed.

Lemma missing_phase_or_arity_witness :
  1 <= num_epochs (Toy.no_loaders 1) /\
  dataloaders (Toy.no_loaders 1) !! "train" = None /\
  train_model (Toy.no_loaders 1) 0 false 0 0 ∅ = Raise (KeyError "train").
Proof.
  assert (Hn : 1 <= num_epochs (Toy.no_loaders 1)) by (simpl; lia).
  assert (Hk : dataloaders (Toy.no_loaders 1) !! "train" = None)
    by (vm_compute; reflexivity).
  split; [exact Hn|]. split; [exact Hk|].
  exact (proj1 (missing_phase_or_arity (Toy.no_loaders 1) 0 false 0 0 ∅ Hn) Hk).
Defined.

(** A batch of three without [use_features]. *)
Example batch_of_three :
  raised (train_model Toy.three 0 false 0 0 ∅) = Some ValueError /\
  raised (train_model Toy.two_with_features 0 false 0 0 ∅) = Some ValueError.
Proof. split; vm_compute; reflexivity. Qed.

(** A "val" phase whose labels are [0; 0; 1; 3] and whose predictions are
    [0; 2; 1; 0]: the class 2 is never true and the class 3 never
    predicted.  The phase completes; the two classes count for nothing
    among the four, and the precision, the recall and the F1 are each
    (1/2 + 1 + 0 + 0) / 4 = 3/8. *)
Lemma macro_scores_witness :
  @phase_metrics Toy.torch Metrics.sklearn Toy.missing_class "val"
    (enter Toy.missing_class 0 false 0 0 ∅) = Return Toy.missing_class_val /\
  trace Toy.missing_class_val.1
  = trace (enter Toy.missing_class 0 false 0 0 ∅)
    ++ [ModelEval; ZeroGrad; ModelCall false [0; 2; 1; 0] None;
        Criterion [0; 2; 1; 0] [0; 0; 1; 3]; Accumulate 5%float 4] /\
  @macro_contract Metrics.sklearn Toy.seen_true Toy.seen_pred /\
  Metrics.populated Toy.seen_true Toy.seen_pred = [1; 0] /\
  length (Metrics.classes Toy.seen_true Toy.seen_pred) = 4%nat /\
  epoch_precision Toy.missing_class_val.2 = 0.375%float /\
  epoch_recall Toy.missing_class_val.2 = 0.375%float /\
  epoch_f1 Toy.missing_class_val.2 = 0.375%float /\
  Metrics.stands_for 4 (epoch_precision Toy.missing_class_val.2)
    (Metrics.macro_precision 0 Toy.seen_true Toy.seen_pred) = true /\
  Metrics.stands_for 4 (epoch_recall Toy.missing_class_val.2)
    (Metrics.macro_recall 0 Toy.seen_true Toy.seen_pred) = true /\
  Metrics.stands_for 4 (epoch_f1 Toy.missing_class_val.2)
    (Metrics.macro_f1 0 Toy.seen_true Toy.seen_pred) = true /\
  Qeq (Metrics.macro_precision 0 Toy.seen_true Toy.seen_pred) (3 # 8) /\
  Qeq (Metrics.macro_recall 0 Toy.seen_true Toy.seen_pred) (3 # 8) /\
  Qeq (Metrics.macro_f1 0 Toy.seen_true Toy.seen_pred) (3 # 8).
Proof.
  assert (H : @phase_metrics Toy.torch Metrics.sklearn Toy.missing_class "val"
                (enter Toy.missing_class 0 false 0 0 ∅) = Return Toy.missing_class_val)
    by (apply returns_returned; vm_compute; reflexivity).
  assert (Htr : trace Toy.missing_class_val.1
                = trace (enter Toy.missing_class 0 false 0 0 ∅)
                  ++ [ModelEval; ZeroGrad; ModelCall false [0; 2; 1; 0] None;
                      Criterion [0; 2; 1; 0] [0; 0; 1; 3]; Accumulate 5%float 4])
    by (vm_compute; reflexivity).
  assert (Hc : @macro_contract Metrics.sklearn Toy.seen_true Toy.seen_pred)
    by (repeat split; vm_compute; reflexivity).
  split; [exact H|]. split; [exact Htr|]. split; [exact Hc|].
  split; [vm_compute; reflexivity|].
  split; [vm_compute; reflexivity|].
  do 3 (split; [vm_compute; reflexivity|]).
  destruct (@macro_scores Toy.torch Metrics.sklearn Toy.missing_class "val"
              _ _ _ _ H Htr eq_refl Hc) as (_ & _ & _ & _ & HP & HR & HF & _).
  do 3 (split; [assumption|]).
  repeat split; vm_compute; reflexivity.
Defined.

(** The small model keeps what torch promises of evaluation. *)
Lemma updates_only_in_train_witness :
  @EvalLaws Toy.torch /\ no_grad_loss (Toy.args 1 2) /\
  phase_metrics (Toy.args 1 2) "val" (Toy.start 1 2) = Return Toy.val_metrics /\
  state_dict Toy.val_metrics.1 = state_dict (Toy.start 1 2) /\
  exists new us batches,
    dataloaders (Toy.args 1 2) !! "val" = Some batches /\
    unpacked (Toy.args 1 2) batches us /\
    trace Toy.val_metrics.1 = trace (Toy.start 1 2) ++ new /\
    updates new = [] /\
    map (fun c => c.1.1) (model_calls new) = map (fun _ => false) us.
Proof.
  assert (L : @EvalLaws Toy.torch) by (split; reflexivity).
  assert (N : no_grad_loss (Toy.args 1 2)) by (intros o l; reflexivity).
  assert (H : phase_metrics (Toy.args 1 2) "val" (Toy.start 1 2) = Return Toy.val_metrics)
    by (apply returns_returned; vm_compute; reflexivity).
  assert (H' : phase_metrics (Toy.args 1 2) "val" (Toy.start 1 2)
               = Return (Toy.val_metrics.1, Toy.val_metrics.2))
    by (rewrite H; destruct Toy.val_metrics; reflexivity).
  split; [exact L|]. split; [exact N|]. split; [exact H|].
  destruct (@updates_only_in_train Toy.torch Toy.sklearn (Toy.args 1 2))
    as (_ & Hval & Hstate & _).
  split; [exact (Hstate L _ _ _ H')|].
  exact (Hval _ _ _ H').
Defined.

Lemma only_labels_moved_witness :
  use_gpu Toy.gpu = true /\
  phase_metrics Toy.gpu "train" (enter Toy.gpu 0 false 0 0 ∅) = Return Toy.gpu_train /\
  moved (trace Toy.gpu_train.1) = [[2]] /\
  model_calls (trace Toy.gpu_train.1) = [(true, [0], None)] /\
  exists new us batches,
    dataloaders Toy.gpu !! "train" = Some batches /\
    unpacked Toy.gpu batches us /\
    trace Toy.gpu_train.1 = trace (enter Toy.gpu 0 false 0 0 ∅) ++ new /\
    moved new = map (fun u => u.1.2) us.
Proof.
  assert (Hg : use_gpu Toy.gpu = true) by reflexivity.
  assert (H : phase_metrics Toy.gpu "train" (enter Toy.gpu 0 false 0 0 ∅)
              = Return Toy.gpu_train)
    by (apply returns_returned; vm_compute; reflexivity).
  split; [exact Hg|]. split; [exact H|].
  split; [vm_compute; reflexivity|]. split; [vm_compute; reflexivity|].
  assert (H' : phase_metrics Toy.gpu "train" (enter Toy.gpu 0 false 0 0 ∅)
               = Return (Toy.gpu_train.1, Toy.gpu_train.2))
    by (rewrite H; destruct Toy.gpu_train; reflexivity).
  destruct (only_labels_moved Toy.gpu "train" (enter Toy.gpu 0 false 0 0 ∅)
              Toy.gpu_train.1 Toy.gpu_train.2 Hg H')
    as (new & us & batches & Hb & Hu & Htr & Hmv & _).
  exists new, us, batches. auto.
Defined.

(** ** The further properties on the small implementation *)

Lemma scheduler_steps_count_witness :
  train_model Toy.scheduled 0 false 0 0 ∅ = Return Toy.scheduled_final /\
  epochs_run (trace Toy.scheduled_final) = 4%nat /\
  ran_out (val_patience (trace Toy.scheduled_final)) = true /\
  length (scheduler_steps (trace Toy.scheduled_final)) = 3%nat /\
  length (scheduler_steps (trace Toy.scheduled_final))
  = match scheduler Toy.scheduled with
    | Some _ =>
        (epochs_run (trace Toy.scheduled_final)
         - (if ran_out (val_patience (trace Toy.scheduled_final)) then 1 else 0))%nat
    | None => 0%nat
    end.
Proof.
  assert (H : train_model Toy.scheduled 0 false 0 0 ∅ = Return Toy.scheduled_final)
    by (apply returns_returned; vm_compute; reflexivity).
  split; [exact H|].
  split; [vm_compute; reflexivity|].
  split; [vm_compute; reflexivity|].
  split; [vm_compute; reflexivity|].
  exact (scheduler_steps_count Toy.scheduled 0 false 0 0 ∅ Toy.scheduled_final H).
Defined.

Lemma files_only_checkpoint_witness :
  Toy.run 4 2 = Return Toy.final /\
  files Toy.final !! "best_model.pth" = Some 2 /\
  files Toy.final
  = files_after ∅ (output_filename (Toy.args 4 2)) (saves (trace Toy.final)) /\
  forall f, f <> output_filename (Toy.args 4 2) ->
            files Toy.final !! f = (∅ : gmap string Z) !! f.
Proof.
  assert (H : Toy.run 4 2 = Return Toy.final)
    by (apply returns_returned; vm_compute; reflexivity).
  split; [exact H|].
  split; [vm_compute; reflexivity|].
  exact (files_only_checkpoint (Toy.args 4 2) 0 false 0 0 ∅ Toy.final H).
Defined.

Lemma returned_in_eval_mode_witness :
  Toy.run 4 2 = Return Toy.final /\
  1 <= num_epochs (Toy.args 4 2) /\
  training Toy.final = false.
Proof.
  assert (H : Toy.run 4 2 = Return Toy.final)
    by (apply returns_returned; vm_compute; reflexivity).
  assert (Hn : 1 <= num_epochs (Toy.args 4 2)) by (simpl; lia).
  split; [exact H|]. split; [exact Hn|].
  exact (proj1 (returned_in_eval_mode (Toy.args 4 2) 0 false 0 0 ∅ Toy.final H) Hn).
Defined.

Lemma at_least_patience_epochs_witness :
  Toy.run 4 2 = Return Toy.final /\
  epochs_run (trace Toy.final) = 4%nat /\
  (Nat.min (Z.to_nat (num_epochs (Toy.args 4 2))) (Z.to_nat (patience (Toy.args 4 2)))
   <= epochs_run (trace Toy.final))%nat.
Proof.
  assert (H : Toy.run 4 2 = Return Toy.final)
    by (apply returns_returned; vm_compute; reflexivity).
  split; [exact H|].
  split; [vm_compute; reflexivity|].
  exact (at_least_patience_epochs (Toy.args 4 2) 0 false 0 0 ∅ Toy.final H).
Defined.

Lemma dataset_size_errors_witness :
  1 <= num_epochs Toy.zero_size /\
  dataloaders Toy.zero_size !! "train" = Some [[[0]; [2]]] /\
  Forall (fun data => ~ arity_mismatch Toy.zero_size data) [[[0]; [2]]] /\
  dataset_sizes Toy.zero_size !! "train" = Some 0 /\
  train_model Toy.zero_size 0 false 0 0 ∅ = Raise ZeroDivisionError /\
  dataset_sizes Toy.no_sizes !! "train" = None /\
  train_model Toy.no_sizes 0 false 0 0 ∅ = Raise (KeyError "train").
Proof.
  assert (Hn : 1 <= num_epochs Toy.zero_size) by (simpl; lia).
  assert (Hb : dataloaders Toy.zero_size !! "train" = Some [[[0]; [2]]])
    by (vm_compute; reflexivity).
  assert (Hok : Forall (fun data => ~ arity_mismatch Toy.zero_size data) [[[0]; [2]]])
    by (repeat constructor; unfold arity_mismatch; simpl; lia).
  assert (Hz : dataset_sizes Toy.zero_size !! "train" = Some 0)
    by (vm_compute; reflexivity).
  assert (Hn' : 1 <= num_epochs Toy.no_sizes) by (simpl; lia).
  assert (Hb' : dataloaders Toy.no_sizes !! "train" = Some [[[0]; [2]]])
    by (vm_compute; reflexivity).
  assert (Hok' : Forall (fun data => ~ arity_mismatch Toy.no_sizes data) [[[0]; [2]]])
    by (repeat constructor; unfold arity_mismatch; simpl; lia).
  assert (Hk : dataset_sizes Toy.no_sizes !! "train" = None)
    by (vm_compute; reflexivity).
  split; [exact Hn|]. split; [exact Hb|]. split; [exact Hok|]. split; [exact Hz|].
  split; [exact (proj2 (dataset_size_errors Toy.zero_size 0 false 0 0 ∅ _ Hn Hb Hok) Hz)|].
  split; [exact Hk|].
  exact (proj1 (dataset_size_errors Toy.no_sizes 0 false 0 0 ∅ _ Hn' Hb' Hok') Hk).
Defined.

Lemma work_per_epoch_witness :
  Toy.run 4 2 = Return Toy.final /\
  dataloaders (Toy.args 4 2) !! "train" = Some [[[0]; [2]]] /\
  dataloaders (Toy.args 4 2) !! "val" = Some [[[0]; [2]]] /\
  length (model_calls (trace Toy.final)) = 8%nat /\
  length (backwards (trace Toy.final)) = 4%nat /\
  length (optimizer_steps (trace Toy.final)) = 4%nat /\
  let k := epochs_run (trace Toy.final) in
  length (model_calls (trace Toy.final)) = (k * (1 + 1))%nat /\
  length (zero_grads (trace Toy.final)) = (k * (1 + 1))%nat /\
  length (backwards (trace Toy.final)) = (k * 1)%nat /\
  length (optimizer_steps (trace Toy.final)) = (k * 1)%nat /\
  updates (trace Toy.final) = concat (repeat [Backward; OptimizerStep] (k * 1)).
Proof.
  assert (H : Toy.run 4 2 = Return Toy.final)
    by (apply returns_returned; vm_compute; reflexivity).
  assert (Hbt : dataloaders (Toy.args 4 2) !! "train" = Some [[[0]; [2]]])
    by (vm_compute; reflexivity).
  assert (Hbv : dataloaders (Toy.args 4 2) !! "val" = Some [[[0]; [2]]])
    by (vm_compute; reflexivity).
  split; [exact H|]. split; [exact Hbt|]. split; [exact Hbv|].
  split; [vm_compute; reflexivity|].
  split; [vm_compute; reflexivity|].
  split; [vm_compute; reflexivity|].
  exact (work_per_epoch (Toy.args 4 2) 0 false 0 0 ∅ Toy.final _ _ H Hbt Hbv).
Defined.

Lemma printed_phase_lines_witness :
  Toy.run 4 2 = Return Toy.final /\
  phase_lines (trace Toy.final)
  = [(0, 3, "train"); (0, 3, "val"); (1, 3, "train"); (1, 3, "val");
     (2, 3, "train"); (2, 3, "val"); (3, 3, "train"); (3, 3, "val")] /\
  phase_lines (trace Toy.final)
  = lines_from (num_epochs (Toy.args 4 2)) 0 (epochs_run (trace Toy.final)).
Proof.
  assert (H : Toy.run 4 2 = Return Toy.final)
    by (apply returns_returned; vm_compute; reflexivity).
  split; [exact H|].
  split; [vm_compute; reflexivity|].
  exact (printed_phase_lines (Toy.args 4 2) 0 false 0 0 ∅ Toy.final H).
Defined.

Lemma best_epoch_range_witness :
  Toy.run 4 2 = Return Toy.final /\
  epoch (best_metrics Toy.final) = 2 /\
  (length (saves (trace Toy.final)) <= epochs_run (trace Toy.final))%nat /\
  (saves (trace Toy.final) = [] <-> epoch (best_metrics Toy.final) = 0) /\
  (saves (trace Toy.final) = [] -> best_metrics Toy.final = initial_best) /\
  0 <= epoch (best_metrics Toy.final) <= Z.of_nat (epochs_run (trace Toy.final)).
Proof.
  assert (H : Toy.run 4 2 = Return Toy.final)
    by (apply returns_returned; vm_compute; reflexivity).
  split; [exact H|].
  split; [vm_compute; reflexivity|].
  exact (best_epoch_range (Toy.args 4 2) 0 false 0 0 ∅ Toy.final H).
Defined.

Lemma no_save_never_improved_witness :
  train_model Toy.diverging 0 false 0 0 ∅ = Return Toy.diverged /\
  saves (trace Toy.diverged) = [] /\
  val_lines (trace Toy.diverged) = [(infinity, 0%float)] /\
  Forall (fun l => (l.1 <? infinity)%float = false /\ (0 <? l.2)%float = false)
         (val_lines (trace Toy.diverged)).
Proof.
  assert (H : train_model Toy.diverging 0 false 0 0 ∅ = Return Toy.diverged)
    by (apply returns_returned; vm_compute; reflexivity).
  assert (Hs : saves (trace Toy.diverged) = []) by (vm_compute; reflexivity).
  split; [exact H|]. split; [exact Hs|].
  split; [vm_compute; reflexivity|].
  exact (no_save_never_improved Toy.diverging 0 false 0 0 ∅ Toy.diverged H Hs).
Defined.

Lemma val_phase_keeps_optimizer_witness :
  run_phase (Toy.args 1 2) 0 "val" (Toy.start 1 2) = Return Toy.after_val /\
  optimizer Toy.after_val = optimizer (Toy.start 1 2) /\
  training Toy.after_val = false.
Proof.
  assert (H : run_phase (Toy.args 1 2) 0 "val" (Toy.start 1 2) = Return Toy.after_val)
    by (apply returns_returned; vm_compute; reflexivity).
  split; [exact H|].
  exact (val_phase_keeps_optimizer (Toy.args 1 2) 0 (Toy.start 1 2) Toy.after_val H).
Defined.

Lemma one_load_at_the_end_witness :
  Toy.run 4 2 = Return Toy.final /\
  loads (trace Toy.final) = [2] /\
  loads (trace Toy.final) = [state_dict Toy.final] /\
  last (trace Toy.final) = Some (LoadStateDict (state_dict Toy.final)).
Proof.
  assert (H : Toy.run 4 2 = Return Toy.final)
    by (apply returns_returned; vm_compute; reflexivity).
  split; [exact H|].
  split; [vm_compute; reflexivity|].
  exact (one_load_at_the_end (Toy.args 4 2) 0 false 0 0 ∅ Toy.final H).
Defined.

(** The integers too large for a float start at [2**1024 - 2**970], which
    rounds to [2**1024]; the integer before is the largest that converts. *)
Example overflow_boundary :
  to_float (2 ^ 1024 - 2 ^ 970) = Raise OverflowError /\
  to_float (- (2 ^ 1024 - 2 ^ 970)) = Raise OverflowError /\
  returns (to_float (2 ^ 1024 - 2 ^ 970 - 1)) = true /\
  truediv 1 (2 ^ 1024) = Raise OverflowError /\
  truediv 1 0 = Raise ZeroDivisionError /\
  truediv 1 4 = Return 0.25%float.
Proof. repeat split; vm_compute; reflexivity. Qed.

Lemma dataset_size_overflow_witness :
  1 <= num_epochs Toy.huge_size /\
  dataloaders Toy.huge_size !! "train" = Some [[[0]; [2]]] /\
  Forall (fun data => ~ arity_mismatch Toy.huge_size data) [[[0]; [2]]] /\
  dataset_sizes Toy.huge_size !! "train" = Some (2 ^ 1024) /\
  is_infinity (float_of_int (2 ^ 1024)) = true /\
  train_model Toy.huge_size 0 false 0 0 ∅ = Raise OverflowError.
Proof.
  assert (Hn : 1 <= num_epochs Toy.huge_size) by (simpl; lia).
  assert (Hb : dataloaders Toy.huge_size !! "train" = Some [[[0]; [2]]])
    by (vm_compute; reflexivity).
  assert (Hok : Forall (fun data => ~ arity_mismatch Toy.huge_size data) [[[0]; [2]]])
    by (repeat constructor; unfold arity_mismatch; simpl; lia).
  assert (Hs : dataset_sizes Toy.huge_size !! "train" = Some (2 ^ 1024))
    by (vm_compute; reflexivity).
  assert (Hinf : is_infinity (float_of_int (2 ^ 1024)) = true)
    by (vm_compute; reflexivity).
  split; [exact Hn|]. split; [exact Hb|]. split; [exact Hok|]. split; [exact Hs|].
  split; [exact Hinf|].
  exact (dataset_size_overflow Toy.huge_size 0 false 0 0 ∅ _ _ Hn Hb Hok Hs Hinf).
Defined.
